(** * Document-session proxy of the backend (server.js) and the batch
      client (src/services/api.ts): a shallow embedding and its properties.

    The embedding follows the JavaScript source statement by statement.
    JavaScript values are an inductive type, the outbound calls to the ML
    service are answered by an environment, and the two request handlers
    run in a small state-and-exception monad over the server's mutable
    state (the [pdfCache] map, the upload directory, the console). *)

From Stdlib Require Import ZArith String Ascii List Bool DecimalString DecimalPos
  DecimalZ FinFun Lia.
From stdpp Require Import base gmap strings.
Import ListNotations.

Local Open Scope string_scope.
Local Open Scope Z_scope.

(** ** Strings

    A JavaScript string is modelled by a Rocq [string]: every character is
    one code unit below 256.  Case mapping and white space are the
    restrictions of the JavaScript ones to that range. *)

Module JsString.

Definition isWhiteSpace (c : ascii) : bool :=
  let n := nat_of_ascii c in
  ((9 <=? n) && (n <=? 13))%nat || (n =? 32)%nat || (n =? 160)%nat.

Fixpoint trimStart (s : string) : string :=
  match s with
  | EmptyString => EmptyString
  | String c r => if isWhiteSpace c then trimStart r else s
  end.

Fixpoint rev_onto (s acc : string) : string :=
  match s with
  | EmptyString => acc
  | String c r => rev_onto r (String c acc)
  end.

Definition rev (s : string) : string := rev_onto s EmptyString.

Definition trimEnd (s : string) : string := rev (trimStart (rev s)).

(** [String.prototype.trim] *)
Definition trim (s : string) : string := trimEnd (trimStart s).

Definition lowerChar (c : ascii) : ascii :=
  let n := nat_of_ascii c in
  if ((65 <=? n) && (n <=? 90))%nat then ascii_of_nat (n + 32)
  else if ((192 <=? n) && (n <=? 222) && negb (n =? 215))%nat
       then ascii_of_nat (n + 32)
  else c.

(** [String.prototype.toLowerCase] *)
Fixpoint toLowerCase (s : string) : string :=
  match s with
  | EmptyString => EmptyString
  | String c r => String (lowerChar c) (toLowerCase r)
  end.

Fixpoint startsWith (s p : string) : bool :=
  match p, s with
  | EmptyString, _ => true
  | String _ _, EmptyString => false
  | String a p', String b s' => Ascii.eqb a b && startsWith s' p'
  end.

(** [String.prototype.endsWith] *)
Definition endsWith (s p : string) : bool := startsWith (rev s) (rev p).

(** [String.prototype.includes]; also what an unanchored, flag-free
    regular expression made of literal alternatives tests. *)
Fixpoint includes (s p : string) : bool :=
  startsWith s p ||
  match s with
  | EmptyString => false
  | String _ r => includes r p
  end.

Definition isEmpty (s : string) : bool :=
  match s with EmptyString => true | _ => false end.

End JsString.

(** ** Values

    The values that JSON text, form fields and property reads produce.
    [JNum] carries the integer-valued numbers (of magnitude below 10^21, so
    that they print in plain decimal); any other number behaves in this
    program like a non-zero integer: it is truthy and has no properties. *)

#[warnings="-register-all"]
Inductive JsValue : Type :=
| JUndefined
| JNull
| JBool (b : bool)
| JNum (n : Z)
| JStr (s : string)
| JArr (items : list JsValue)
| JObj (props : list (string * JsValue)).

Module Js.

(** ToBoolean: the test performed by [if (v)], [!v], [&&] and [||]. *)
Definition truthy (v : JsValue) : bool :=
  match v with
  | JUndefined | JNull => false
  | JBool b => b
  | JNum n => negb (n =? 0)
  | JStr s => negb (JsString.isEmpty s)
  | JArr _ | JObj _ => true
  end.

Fixpoint lookupProp (k : string) (props : list (string * JsValue)) : JsValue :=
  match props with
  | [] => JUndefined
  | (k', v) :: rest => if String.eqb k k' then v else lookupProp k rest
  end.

(** [v.k] for the property names the program reads ([answer], [response],
    [pdf_id], [error]): none of them is defined on a prototype, so only an
    object's own properties can answer.  [None] is the TypeError raised
    when [v] is [undefined] or [null]. *)
Definition getProp (v : JsValue) (k : string) : option JsValue :=
  match v with
  | JUndefined | JNull => None
  | JObj props => Some (lookupProp k props)
  | _ => Some JUndefined
  end.

(** [v?.k] *)
Definition getPropOpt (v : JsValue) (k : string) : JsValue :=
  match getProp v k with
  | Some x => x
  | None => JUndefined
  end.

Definition hasOwn (v : JsValue) (k : string) : bool :=
  match v with
  | JObj props => existsb (fun kv => String.eqb k (fst kv)) props
  | _ => false
  end.

Definition typeofString (v : JsValue) : bool :=
  match v with JStr _ => true | _ => false end.

Definition numberToString (n : Z) : string :=
  NilZero.string_of_int (Z.to_int n).

Definition join (sep : string) (parts : list string) : string :=
  match parts with
  | [] => EmptyString
  | p :: rest => fold_left (fun acc q => acc ++ sep ++ q) rest p
  end.

(** The text that ToString gives when it completes (see [printable]).
    Objects are the plain ones that parsing produces, printed by
    [Object.prototype]. *)
Fixpoint toString (v : JsValue) : string :=
  match v with
  | JUndefined => "undefined"
  | JNull => "null"
  | JBool true => "true"
  | JBool false => "false"
  | JNum n => numberToString n
  | JStr s => s
  | JArr items =>
      join ","
        ((fix each (l : list JsValue) : list string :=
            match l with
            | [] => []
            | JUndefined :: r | JNull :: r => EmptyString :: each r
            | x :: r => toString x :: each r
            end) items)
  | JObj _ => "[object Object]"
  end.

(** Whether ToString completes.  For a parsed object it reads
    [toString] and then [valueOf]: an own property [toString] is data,
    not a function, and [valueOf] (inherited or not) yields nothing
    printable, so the conversion ends in a TypeError exactly when the
    object has an own property [toString].  An array is printed by
    joining its elements, [undefined] and [null] as the empty text. *)
Fixpoint printable (v : JsValue) : bool :=
  match v with
  | JArr items => forallb printable items
  | JObj props => negb (existsb (fun kv => String.eqb "toString" (fst kv)) props)
  | _ => true
  end.

(** The message of that TypeError. *)
Definition cannotConvert : string := "Cannot convert object to primitive value".

Definition typeErrorRead (v : JsValue) (k : string) : string :=
  "Cannot read properties of " ++ toString v ++ " (reading '" ++ k ++ "')".

(** *** JSON.stringify *)

Definition dquote : string := String (ascii_of_nat 34) EmptyString.
Definition backslash : string := String (ascii_of_nat 92) EmptyString.

Definition hexDigit (n : nat) : string :=
  String.substring n 1 "0123456789abcdef".

Definition escapeChar (c : ascii) : string :=
  let n := nat_of_ascii c in
  if (n =? 34)%nat then backslash ++ dquote
  else if (n =? 92)%nat then backslash ++ backslash
  else if (n =? 8)%nat then backslash ++ "b"
  else if (n =? 12)%nat then backslash ++ "f"
  else if (n =? 10)%nat then backslash ++ "n"
  else if (n =? 13)%nat then backslash ++ "r"
  else if (n =? 9)%nat then backslash ++ "t"
  else if (n <? 32)%nat
       then backslash ++ "u00" ++ hexDigit (n / 16) ++ hexDigit (n mod 16)
  else String c EmptyString.

Fixpoint escapeString (s : string) : string :=
  match s with
  | EmptyString => EmptyString
  | String c r => escapeChar c ++ escapeString r
  end.

Definition quoteJSON (s : string) : string :=
  dquote ++ escapeString s ++ dquote.

(** [JSON.stringify(v)] without replacer or indentation.  [None] is the
    [undefined] it returns for a top-level [undefined]; an [undefined]
    array element prints as [null] and an [undefined] property is
    left out.  [props] lists an object's properties in enumeration order. *)
Fixpoint stringify (v : JsValue) : option string :=
  match v with
  | JUndefined => None
  | JNull => Some "null"
  | JBool true => Some "true"
  | JBool false => Some "false"
  | JNum n => Some (numberToString n)
  | JStr s => Some (quoteJSON s)
  | JArr items =>
      Some ("[" ++
        join ","
          ((fix each (l : list JsValue) : list string :=
              match l with
              | [] => []
              | x :: r =>
                  match stringify x with
                  | Some t => t
                  | None => "null"
                  end :: each r
              end) items) ++ "]")
  | JObj props =>
      Some ("{" ++
        join ","
          ((fix each (l : list (string * JsValue)) : list string :=
              match l with
              | [] => []
              | (k, x) :: r =>
                  match stringify x with
                  | Some t => (quoteJSON k ++ ":" ++ t) :: each r
                  | None => each r
                  end
              end) props) ++ "}")
  end.

End Js.

(** ** path.extname (POSIX flavour of Node's path module) *)

Module Path.

Record Scan := mkScan {
  startDot : Z;
  startPart : Z;
  endIdx : Z;
  matchedSlash : bool;
  preDotState : Z;
  stopped : bool
}.

Definition scanInit : Scan := mkScan (-1) 0 (-1) true 0 false.

(** One iteration of the backwards loop at index [i] over code unit [c];
    [stopped] records that the loop was left by [break]. *)
Definition scanStep (st : Scan) (i : Z) (c : ascii) : Scan :=
  if stopped st then st
  else if Ascii.eqb c "/"%char then
    if negb (matchedSlash st)
    then mkScan (startDot st) (i + 1) (endIdx st) (matchedSlash st) (preDotState st) true
    else st
  else
    let st1 :=
      if endIdx st =? -1
      then mkScan (startDot st) (startPart st) (i + 1) false (preDotState st) false
      else st in
    if Ascii.eqb c "."%char then
      if startDot st1 =? -1
      then mkScan i (startPart st1) (endIdx st1) (matchedSlash st1) (preDotState st1) false
      else if negb (preDotState st1 =? 1)
      then mkScan (startDot st1) (startPart st1) (endIdx st1) (matchedSlash st1) 1 false
      else st1
    else if negb (startDot st1 =? -1)
    then mkScan (startDot st1) (startPart st1) (endIdx st1) (matchedSlash st1) (-1) false
    else st1.

(** The loop [for (i = path.length - 1; i >= 0; --i)]: [rchars] is the
    path read from its last code unit, [i] the index of its head. *)
Fixpoint scanLoop (rchars : list ascii) (i : Z) (st : Scan) : Scan :=
  match rchars with
  | [] => st
  | c :: r => scanLoop r (i - 1) (scanStep st i c)
  end.

Definition extname (path : string) : string :=
  let n := Z.of_nat (String.length path) in
  let st := scanLoop (List.rev (list_ascii_of_string path)) (n - 1) scanInit in
  if (startDot st =? -1) || (endIdx st =? -1) || (preDotState st =? 0)
     || ((preDotState st =? 1) && (startDot st =? endIdx st - 1)
         && (startDot st =? startPart st + 1))
  then EmptyString
  else String.substring (Z.to_nat (startDot st))
                        (Z.to_nat (endIdx st - startDot st)) path.

End Path.

(** ** Map (SameValueZero keys, insertion order) *)

Module JsMap.

(** Key comparison of [Map].  Primitives compare by value.  Objects and
    arrays compare by reference, and every object that reaches the cache
    or a lookup was freshly parsed from a message, so two of them are
    never the same reference. *)
Definition sameValueZero (a b : JsValue) : bool :=
  match a, b with
  | JUndefined, JUndefined => true
  | JNull, JNull => true
  | JBool x, JBool y => Bool.eqb x y
  | JNum x, JNum y => x =? y
  | JStr x, JStr y => String.eqb x y
  | _, _ => false
  end.

Definition isPrimitive (v : JsValue) : bool :=
  match v with
  | JArr _ | JObj _ => false
  | _ => true
  end.

Section Ops.
Context {V : Type}.

Fixpoint get (m : list (JsValue * V)) (k : JsValue) : option V :=
  match m with
  | [] => None
  | (k', v) :: rest => if sameValueZero k' k then Some v else get rest k
  end.

Definition has (m : list (JsValue * V)) (k : JsValue) : bool :=
  match get m k with Some _ => true | None => false end.

(** [set] keeps the position of a key that is already present and
    appends a new key. *)
Fixpoint set (m : list (JsValue * V)) (k : JsValue) (v : V)
  : list (JsValue * V) :=
  match m with
  | [] => [(k, v)]
  | (k', v') :: rest =>
      if sameValueZero k' k then (k', v) :: rest
      else (k', v') :: set rest k v
  end.
End Ops.

End JsMap.

(** ** Server state, environment and effects *)

Record FileInfo := mkFileInfo {
  fi_filename : string;
  fi_originalName : string;
  fi_mimetype : string;
  fi_size : Z;
  fi_path : string
}.

(** [req.file] as multer's disk storage fills it in. *)
Record MulterFile := mkMulterFile {
  originalname : string;
  mimetype : string;
  size : Z;
  filename : string;
  path : string
}.

Record CacheEntry := mkCacheEntry {
  fileInfo : FileInfo;
  indexedAt : string;
  mlApiResponse : JsValue;
  originalFilename : string
}.

(** The two outbound requests to the ML service. *)
Inductive NetCall :=
| PostUpload (filePath originalName : string)
| PostQuery (pdf_id : JsValue) (question : string).

(** Settlement of [axios.post]: [Fulfilled] carries [response.data];
    [Rejected] carries [error.response.data] when the error has a response,
    and [error.message]. *)
Inductive AxiosOutcome :=
| Fulfilled (data : JsValue)
| Rejected (response : option JsValue) (message : string).

(** What the handlers cannot decide themselves. *)
Record Env := mkEnv {
  mlApi : NetCall -> AxiosOutcome;
  unlinkFault : string -> option string;
  clock : string
}.

(** [pdfCache] is the module-level [Map]; [uploads] the files present in
    the upload directory; [network] the outbound calls made so far with
    their settlements; [warnings] the lines written by [console.warn].
    What [console.log] and [console.error] print is not recorded: of
    those lines the model keeps what the handlers can observe, the
    TypeError of a template literal whose value cannot be printed. *)
Record Server := mkServer {
  pdfCache : list (JsValue * CacheEntry);
  uploads : gset string;
  network : list (NetCall * AxiosOutcome);
  warnings : list string
}.

Definition initialServer : Server := mkServer [] ∅ [] [].

Record HttpResponse := mkResponse {
  status : Z;
  body : JsValue
}.

(** A thrown value: [error.message], and [error.response.data] when the
    error is an axios error that carries a response. *)
Record JsError := mkError {
  errResponse : option JsValue;
  errMessage : string
}.

(** [new Error(message)] *)
Definition newError (message : string) : JsError := mkError None message.

(** How a computation ends: [return a] or [throw error]. *)
Inductive Outcome (A : Type) :=
| Return (a : A)
| Throw (error : JsError).
Arguments Return {A} a.
Arguments Throw {A} error.

(** A computation that reads and updates a state [S] and either returns or
    throws. *)
Definition St (S A : Type) : Type := S -> Outcome A * S.

Definition ret {S A} (a : A) : St S A := fun s => (Return a, s).

Definition throw {S A} (error : JsError) : St S A := fun s => (Throw error, s).

Definition bind {S A B} (m : St S A) (f : A -> St S B) : St S B :=
  fun s =>
    match m s with
    | (Return a, s') => f a s'
    | (Throw e, s') => (Throw e, s')
    end.

(** [try { m } catch (error) { handler(error) }]: what [m] changed before
    it threw stays changed. *)
Definition tryCatch {S A} (m : St S A) (handler : JsError -> St S A) : St S A :=
  fun s =>
    match m s with
    | (Return a, s') => (Return a, s')
    | (Throw e, s') => handler e s'
    end.

Definition liftOutcome {S A} (o : Outcome A) : St S A := fun s => (o, s).

(** The value [v] interpolated in a template literal: its text, or the
    TypeError thrown when it cannot be printed. *)
Definition template {S} (v : JsValue) : St S string :=
  fun s =>
    if Js.printable v then (Return (Js.toString v), s)
    else (Throw (newError Js.cannotConvert), s).

(** The handlers of server.js run over the server's state. *)
Abbreviation M := (St Server).

Declare Scope js_scope.
Delimit Scope js_scope with js.
Notation "'let*' x ':=' m 'in' k" := (bind m (fun x => k))
  (at level 10, x name, m at level 100, k at level 200) : js_scope.
Notation "'exec' m 'in' k" := (bind m (fun _ => k))
  (at level 10, m at level 100, k at level 200) : js_scope.
Local Open Scope js_scope.

Definition errorBody (message : string) : JsValue :=
  JObj [("error", JStr message)].

(** [res.status(code).json({ error: message })] *)
Definition respondError (code : Z) (message : string) : HttpResponse :=
  mkResponse code (errorBody message).

Module Fs.

Definition existsSync (p : string) : M bool :=
  fun s => (Return (bool_decide (p ∈ uploads s)), s).

Definition enoent (p : string) : string :=
  "ENOENT: no such file or directory, unlink '" ++ p ++ "'".

(** [fs.unlinkSync]: throws when the file is absent or when the
    environment refuses the deletion. *)
Definition unlinkSync (env : Env) (p : string) : M unit :=
  fun s =>
    if bool_decide (p ∈ uploads s) then
      match unlinkFault env p with
      | Some e => (Throw (newError e), s)
      | None =>
          (Return tt,
           mkServer (pdfCache s) (uploads s ∖ {[p]}) (network s) (warnings s))
      end
    else (Throw (newError (enoent p)), s).

(** What multer's disk storage does with an accepted file. *)
Definition store (p : string) : M unit :=
  fun s =>
    (Return tt,
     mkServer (pdfCache s) ({[p]} ∪ uploads s) (network s) (warnings s)).

End Fs.

Definition consoleWarn (label message : string) : M unit :=
  fun s =>
    (Return tt,
     mkServer (pdfCache s) (uploads s) (network s)
              (warnings s ++ [label ++ " " ++ message])).

Definition logCall (call : NetCall) (r : AxiosOutcome) (s : Server) : Server :=
  mkServer (pdfCache s) (uploads s) (network s ++ [(call, r)]) (warnings s).

(** [(await axios.post(...)).data]: the call is recorded with the
    environment's settlement; a rejection is thrown.  The environment also
    settles a call whose form cannot be written (an identifier that is
    neither text nor a number), which is rejected before anything is
    sent. *)
Definition axiosPost (env : Env) (call : NetCall) : M JsValue :=
  fun s =>
    let r := mlApi env call in
    match r with
    | Fulfilled data => (Return data, logCall call r s)
    | Rejected response message =>
        (Throw (mkError response message), logCall call r s)
    end.

(** [v.k], throwing the TypeError of a read on [undefined] or [null]. *)
Definition readProp {S} (v : JsValue) (k : string) : St S JsValue :=
  match Js.getProp v k with
  | Some x => ret x
  | None => throw (newError (Js.typeErrorRead v k))
  end.

Definition putCache (k : JsValue) (e : CacheEntry) (s : Server) : Server :=
  mkServer (JsMap.set (pdfCache s) k e) (uploads s) (network s) (warnings s).

(** [pdfCache.set(k, e)] *)
Definition cacheSet (k : JsValue) (e : CacheEntry) : M unit :=
  fun s => (Return tt, putCache k e s).

(** ** The ML service client *)

(** [error.response?.data?.error || error.message] *)
Definition reportedOrMessage (error : JsError) : JsValue :=
  let reported :=
    match errResponse error with
    | Some data => Js.getPropOpt data "error"
    | None => JUndefined
    end in
  if Js.truthy reported then reported else JStr (errMessage error).

(** The two client functions.  The [catch] clause builds the message of
    the error it throws with a template literal, which prints the
    reported error. *)
Definition uploadPDFToMLAPI (env : Env) (fileInfo : FileInfo) : M JsValue :=
  tryCatch
    (if JsString.isEmpty (fi_path fileInfo)
     then throw (newError "File information is required for ML API upload")
     else axiosPost env (PostUpload (fi_path fileInfo) (fi_originalName fileInfo)))
    (fun error =>
       let* reported := template (reportedOrMessage error) in
       throw (newError ("ML API upload failed: " ++ reported))).

Definition queryPDFFromMLAPI (env : Env) (pdf_id : JsValue) (question : string)
    (cachedPDF : option CacheEntry) : M JsValue :=
  tryCatch
    (if negb (Js.truthy pdf_id) || JsString.isEmpty question
     then throw (newError "PDF ID and question are required for ML API query")
     else axiosPost env (PostQuery pdf_id question))
    (fun error =>
       let* reported := template (reportedOrMessage error) in
       throw (newError ("ML API query failed: " ++ reported))).

(** ** POST /hackrx/upload *)

Definition allowedTypes : list string :=
  ["jpeg"; "jpg"; "png"; "gif"; "pdf"; "txt"; "doc"; "docx"; "xls"; "xlsx";
   "ppt"; "pptx"].

(** [allowedTypes.test(s)] *)
Definition allowedTypes_test (s : string) : bool :=
  existsb (JsString.includes s) allowedTypes.

Definition fileFilter (file : MulterFile) : bool :=
  let extname :=
    allowedTypes_test (JsString.toLowerCase (Path.extname (originalname file))) in
  let mimetype_ok :=
    allowedTypes_test (mimetype file) || String.eqb (mimetype file) "text/plain" in
  mimetype_ok && extname.

Definition fileSizeLimit : Z := 10 * 1024 * 1024.

Definition uploadedMessage : string := "✅ PDF uploaded & indexed".

(** The type test of the handler: [true] when the request is refused. *)
Definition notPdf (file : MulterFile) : bool :=
  negb (String.eqb (mimetype file) "application/pdf")
  && negb (JsString.endsWith (JsString.toLowerCase (originalname file)) ".pdf").

Definition fileInfoOf (file : MulterFile) : FileInfo :=
  mkFileInfo (filename file) (originalname file) (mimetype file) (size file)
             (path file).

(** The clean-up block of the success path. *)
Definition cleanupUploaded (env : Env) (f : MulterFile) : M unit :=
  tryCatch (Fs.unlinkSync env (path f))
    (fun cleanupError =>
       consoleWarn "Failed to cleanup uploaded file:" (errMessage cleanupError)).

(** The clean-up block of the [catch] clause. *)
Definition cleanupAfterError (env : Env) (file : option MulterFile) : M unit :=
  match file with
  | Some f =>
      if JsString.isEmpty (path f) then ret tt
      else
        let* present := Fs.existsSync (path f) in
        if present
        then tryCatch (Fs.unlinkSync env (path f))
               (fun cleanupError =>
                  consoleWarn "Failed to cleanup file after error:"
                              (errMessage cleanupError))
        else ret tt
  | None => ret tt
  end.

(** The route handler; [file] is [req.file].  [template pdf_id] is the
    log line that first prints [pdf_id], before the cache is written; the
    later log lines print the same value and cannot throw once this one
    has not.  The [pdfCache.has] test of the source only chooses a log
    line. *)
Definition hackrx_upload (env : Env) (file : option MulterFile) : M HttpResponse :=
  tryCatch
    (match file with
     | None => ret (respondError 400 "No PDF file uploaded")
     | Some f =>
         if notPdf f then ret (respondError 400 "Only PDF files are supported")
         else
           let info := fileInfoOf f in
           let* mlResponse := uploadPDFToMLAPI env info in
           let* pdf_id := readProp mlResponse "pdf_id" in
           if negb (Js.truthy pdf_id)
           then throw (newError "ML API did not return a pdf_id in response")
           else
             exec template pdf_id in
             exec cacheSet pdf_id
                    (mkCacheEntry info (clock env) mlResponse (originalname f)) in
             exec cleanupUploaded env f in
             ret (mkResponse 200
                    (JObj [("pdf_id", pdf_id); ("message", JStr uploadedMessage)]))
     end)
    (fun error =>
       exec cleanupAfterError env file in
       ret (respondError 500 (errMessage error))).

(** [upload.single('file')] followed by the handler; a refusal by multer
    goes to the error middleware at the end of server.js.  Multer's
    parser stops a file as soon as it has read [fileSize] bytes of it and
    reports [LIMIT_FILE_SIZE], so a file of exactly that size is refused
    as well; what it had staged of the file is removed again. *)
Definition post_hackrx_upload (env : Env) (part : option MulterFile)
  : M HttpResponse :=
  match part with
  | None => hackrx_upload env None
  | Some f =>
      if negb (fileFilter f) then ret (respondError 500 "Invalid file type")
      else if fileSizeLimit <=? size f then ret (respondError 400 "File too large")
      else exec Fs.store (path f) in hackrx_upload env (Some f)
  end.

(** ** POST /hackrx/query *)

(** The answer extraction of the query handler (the response
    normaliser), applied to the data returned by the ML service. *)
Definition extractAnswer (mlResponse : JsValue) : Outcome JsValue :=
  match Js.getProp mlResponse "answer" with
  | None => Throw (newError (Js.typeErrorRead mlResponse "answer"))
  | Some answer =>
      if Js.truthy answer && Js.truthy (Js.getPropOpt answer "answer")
      then Return (Js.getPropOpt answer "answer")
      else if Js.truthy answer then Return answer
      else if Js.truthy (Js.getPropOpt mlResponse "response")
      then Return (Js.getPropOpt mlResponse "response")
      else if Js.typeofString mlResponse then Return mlResponse
      else Return match Js.stringify mlResponse with
                  | Some text => JStr text
                  | None => JUndefined
                  end
  end.

(** [req.body] after destructuring: a missing field is [undefined]. *)
Record QueryBody := mkQueryBody {
  body_pdf_id : JsValue;
  body_question : JsValue
}.

(** [question.trim()] on a truthy [question]. *)
Definition callTrim (question : JsValue) : M string :=
  match question with
  | JStr s => ret (JsString.trim s)
  | _ => throw (newError "question.trim is not a function")
  end.

Definition notFoundMessage (pdf_id : JsValue) : string :=
  "PDF with id '" ++ Js.toString pdf_id
  ++ "' not found. Please upload the PDF first using /hackrx/upload.".

Definition readCache : M (list (JsValue * CacheEntry)) :=
  fun s => (Return (pdfCache s), s).

(** The route handler.  [template pdf_id] builds the message of the 404
    answer.  The log lines after the cache test, here and in
    [queryPDFFromMLAPI], print an identifier that is a key of the cache:
    a primitive value, which can always be printed. *)
Definition hackrx_query (env : Env) (req : QueryBody) : M HttpResponse :=
  tryCatch
    (let pdf_id := body_pdf_id req in
     let question := body_question req in
     if negb (Js.truthy pdf_id) then ret (respondError 400 "pdf_id is required")
     else
       let* blank :=
         (if negb (Js.truthy question) then ret true
          else let* trimmed := callTrim question in
               ret (JsString.isEmpty trimmed)) in
       if blank then ret (respondError 400 "question is required")
       else
         let* cache := readCache in
         if negb (JsMap.has cache pdf_id)
         then
           exec template pdf_id in
           ret (respondError 404 (notFoundMessage pdf_id))
         else
           let cachedPDF := JsMap.get cache pdf_id in
           let* trimmed := callTrim question in
           let* mlResponse := queryPDFFromMLAPI env pdf_id trimmed cachedPDF in
           let* answerText := liftOutcome (extractAnswer mlResponse) in
           ret (mkResponse 200
                  (JObj [("answer", JObj [("answer", answerText)])])))
    (fun error => ret (respondError 500 (errMessage error))).

(** ** Requests and runs of the server *)

Inductive Request :=
| Upload (part : option MulterFile)
| Query (req : QueryBody)
| Other.

(** Routes other than the two above (health, documentation, chat) read
    and write none of the modelled state. *)
Definition serve (env : Env) (r : Request) : M HttpResponse :=
  match r with
  | Upload part => post_hackrx_upload env part
  | Query req => hackrx_query env req
  | Other => ret (mkResponse 200 (JObj []))
  end.

(** The server after a sequence of requests, each one served under its own
    environment.  A handler touches [pdfCache] in one synchronous stretch
    (after its only [await] for an upload, before it for a query), so
    requests in flight together act on the cache as if served one after
    the other, in the order of those stretches. *)
Fixpoint run (reqs : list (Env * Request)) (s : Server) : Server :=
  match reqs with
  | [] => s
  | (env, r) :: rest => run rest (snd (serve env r s))
  end.

(** ** The batch client (src/services/api.ts) *)

Module Client.

(** The browser's [File], as far as the client reads it. *)
Record File := mkFile {
  name : string;
  type : string;
  fsize : Z
}.

Inductive BackendCall :=
| CallUpload (file : File)
| CallQuery (pdf_id : JsValue) (question : string).

(** [questions: string | string[]] *)
Inductive Questions :=
| One (question : string)
| Many (questions : list string).

Record ChatResponse := mkChatResponse {
  success : bool;
  answers : list JsValue;
  timestamp : string;
  file_originalName : string;
  file_mimetype : string;
  file_size : Z;
  questions : list string
}.

Section WithBackend.

(** Whatever answers the requests: its state and how it settles a
    request made through the shared axios instance. *)
Variable Backend : Type.
Variable post : BackendCall -> Backend -> AxiosOutcome * Backend.
Variable now : string.

(** The backend together with the requests sent so far. *)
Definition World : Type := Backend * list (BackendCall * AxiosOutcome).

Definition apiPost (call : BackendCall) : St World JsValue :=
  fun w =>
    let '(r, b') := post call (fst w) in
    let w' := (b', (snd w ++ [(call, r)])%list) in
    match r with
    | Fulfilled data => (Return data, w')
    | Rejected response message => (Throw (mkError response message), w')
    end.

Definition uploadPDFToHackRX (file : File) : St World JsValue :=
  apiPost (CallUpload file).

(** [formData.append('pdf_id', pdf_id)] writes the identifier as text
    before anything is posted. *)
Definition queryPDFFromHackRX (pdf_id : JsValue) (question : string)
  : St World JsValue :=
  exec template pdf_id in
  apiPost (CallQuery pdf_id question).

(** [question && question.trim()] *)
Definition nonBlank (question : string) : bool :=
  negb (JsString.isEmpty question)
  && negb (JsString.isEmpty (JsString.trim question)).

Definition questionArrayOf (qs : Questions) : list string :=
  match qs with
  | One q => [q]
  | Many l => l
  end.

(** The [for ... of] loop over [questionArray]; [acc] is [answers]. *)
Fixpoint askEach (pdf_id : JsValue) (questionArray : list string)
    (acc : list JsValue) : St World (list JsValue) :=
  match questionArray with
  | [] => ret acc
  | question :: rest =>
      if nonBlank question then
        let* queryResult := queryPDFFromHackRX pdf_id (JsString.trim question) in
        let* outer := readProp queryResult "answer" in
        let* inner := readProp outer "answer" in
        askEach pdf_id rest (acc ++ [JObj [("answer", inner)]])%list
      else askEach pdf_id rest acc
  end.

Definition analyzeDocument (file : File) (qs : Questions)
  : St World ChatResponse :=
  tryCatch
    (let* uploadResult := uploadPDFToHackRX file in
     let* pdf_id := readProp uploadResult "pdf_id" in
     exec template pdf_id in
     let questionArray := questionArrayOf qs in
     let* collected := askEach pdf_id questionArray [] in
     ret (mkChatResponse true collected now (name file) (type file)
            (fsize file) (List.filter nonBlank questionArray)))
    (fun error => throw error).

End WithBackend.

End Client.

(** ** Notions used to state the properties *)

(** The last-resort text of the normaliser: the response itself when it is
    a string, its JSON text otherwise. *)
Definition serialized (mlResponse : JsValue) : JsValue :=
  if Js.typeofString mlResponse then mlResponse
  else match Js.stringify mlResponse with
       | Some text => JStr text
       | None => JUndefined
       end.

(** The precedence of the normaliser read as tests of field presence:
    [answer.answer] if the response has it, else [answer] if it has it,
    else [response] if it has it, else the serialised response. *)
Definition normalizeByPresence (mlResponse : JsValue) : JsValue :=
  let answer := Js.getPropOpt mlResponse "answer" in
  if Js.hasOwn mlResponse "answer" && Js.hasOwn answer "answer"
  then Js.getPropOpt answer "answer"
  else if Js.hasOwn mlResponse "answer" then answer
  else if Js.hasOwn mlResponse "response"
  then Js.getPropOpt mlResponse "response"
  else serialized mlResponse.

(** A logged outbound call is an indexing call that succeeded and returned
    the identifier [k]. *)
Definition indexedAs (k : JsValue) (entry : NetCall * AxiosOutcome) : bool :=
  match entry with
  | (PostUpload _ _, Fulfilled data) =>
      Js.truthy (Js.getPropOpt data "pdf_id")
      && JsMap.sameValueZero (Js.getPropOpt data "pdf_id") k
  | _ => false
  end.

(** The text of an upstream failure as the client functions forward it. *)
Definition upstreamText (response : option JsValue) (message : string) : string :=
  Js.toString (reportedOrMessage (mkError response message)).

(** The message of the error that the [catch] clause of a client function
    throws for an upstream failure: the text of the failure behind the
    function's prefix, or the TypeError of the template literal when the
    reported error cannot be printed. *)
Definition forwarded (prefix : string) (response : option JsValue)
    (message : string) : string :=
  if Js.printable (reportedOrMessage (mkError response message))
  then prefix ++ upstreamText response message
  else Js.cannotConvert.

(** The values that form-data writes as a field: a string, or a number,
    which it turns into text.  (It refuses an array, and a boolean stops
    the stream that writes the request.) *)
Definition writable (v : JsValue) : bool :=
  match v with
  | JStr _ | JNum _ => true
  | _ => false
  end.

Module ClientSpec.
Import Client.

(** What the upload step of the batch yields from the settlement of its
    request: the identifier, or the error thrown, which is that of the
    request, that of reading [pdf_id] off a body that is [null] or
    [undefined], or that of printing an identifier that cannot be
    printed. *)
Definition pdfIdOf (o : AxiosOutcome) : Outcome JsValue :=
  match o with
  | Rejected response message => Throw (mkError response message)
  | Fulfilled data =>
      match Js.getProp data "pdf_id" with
      | Some id =>
          if Js.printable id then Return id
          else Throw (newError Js.cannotConvert)
      | None => Throw (newError (Js.typeErrorRead data "pdf_id"))
      end
  end.

(** What one question of the batch yields from the settlement of its
    request: [queryResult.answer.answer], or the error thrown. *)
Definition answerOf (o : AxiosOutcome) : Outcome JsValue :=
  match o with
  | Rejected response message => Throw (mkError response message)
  | Fulfilled data =>
      match Js.getProp data "answer" with
      | None => Throw (newError (Js.typeErrorRead data "answer"))
      | Some outer =>
          match Js.getProp outer "answer" with
          | None => Throw (newError (Js.typeErrorRead outer "answer"))
          | Some inner => Return inner
          end
      end
  end.

Definition answered (entry : BackendCall * AxiosOutcome) : Prop :=
  exists inner, answerOf (snd entry) = Return inner.

(** The requests [calls] sent one after the other, each to the backend
    as the previous one left it. *)
Fixpoint replay {Backend : Type}
    (post : BackendCall -> Backend -> AxiosOutcome * Backend)
    (b : Backend) (calls : list BackendCall)
  : list (BackendCall * AxiosOutcome) * Backend :=
  match calls with
  | [] => ([], b)
  | c :: rest =>
      let '(r, b1) := post c b in
      let '(log, b2) := replay post b1 rest in
      ((c, r) :: log, b2)
  end.

(** One element of [answers]. *)
Definition wrapAnswer (inner : JsValue) : JsValue := JObj [("answer", inner)].

(** The question list of the input: a single question is a list of
    one. *)
Definition questionList (qs : Questions) : list string :=
  match qs with
  | One q => [q]
  | Many l => l
  end.

(** A question is skipped when it is empty after trimming. *)
Definition skipped (q : string) : bool := JsString.isEmpty (JsString.trim q).

(** The questions that are not skipped, as they were given and in input
    order. *)
Definition kept (qs : Questions) : list string :=
  List.filter (fun q => negb (skipped q)) (questionList qs).

(** The questions the batch is to send: those kept, trimmed. *)
Definition asked (qs : Questions) : list string := map JsString.trim (kept qs).

End ClientSpec.

(** ** Sample inputs *)

Module Sample.

(** An environment whose ML service settles every indexing call with
    [upload] and every query with [query], and whose file system never
    refuses a deletion. *)
Definition stubEnv (upload query : AxiosOutcome) : Env :=
  mkEnv (fun call =>
           match call with
           | PostUpload _ _ => upload
           | PostQuery _ _ => query
           end)
        (fun _ => None)
        "2025-09-19T09:13:00.594Z".

Definition indexed : AxiosOutcome := Fulfilled (JObj [("pdf_id", JStr "abc123")]).

Definition coverage : AxiosOutcome :=
  Fulfilled (JObj [("answer", JObj [("answer", JStr "Coverage X")])]).

Definition env : Env := stubEnv indexed coverage.

Definition policy : MulterFile :=
  mkMulterFile "policy.pdf" "application/pdf" 2048
               "file-1758273180594-123456789.pdf"
               "uploads/file-1758273180594-123456789.pdf".

(** A file declared as a PDF whose name says otherwise. *)
Definition notes : MulterFile :=
  mkMulterFile "notes.txt" "application/pdf" 2048
               "file-1758273180594-987654321.txt"
               "uploads/file-1758273180594-987654321.txt".

(** An image: multer accepts it, the handler does not. *)
Definition photo : MulterFile :=
  mkMulterFile "photo.png" "image/png" 2048
               "file-1758273180594-555555555.png"
               "uploads/file-1758273180594-555555555.png".

(** The server once [policy] has been uploaded and indexed. *)
Definition afterPolicy : Server :=
  run [(env, Upload (Some policy))] initialServer.

(** A stateless backend for the batch client: it indexes every file as
    [abc123], fails on the question [Q2] and answers every other
    question with its own text. *)
Definition failsOnQ2 (call : Client.BackendCall) (b : unit)
  : AxiosOutcome * unit :=
  match call with
  | Client.CallUpload _ => (indexed, b)
  | Client.CallQuery _ question =>
      if String.eqb question "Q2"
      then (Rejected (Some (errorBody "ML API query failed: timeout"))
                     "Request failed with status code 500", b)
      else (Fulfilled (JObj [("answer", JObj [("answer", JStr question)])]), b)
  end.

Definition policyFile : Client.File :=
  Client.mkFile "policy.pdf" "application/pdf" 2048.

End Sample.

(** ** The legacy analysis client of server.js ([callMLAPI], [simulateMLAPI]) *)

Module Legacy.

(** The request [callMLAPI] posts: the file and the [questions] fields. *)
Record AnalyzeCall := mkAnalyzeCall {
  call_filePath : string;
  call_originalName : string;
  call_questions : list string
}.

Section WithService.

Variable mlApi : AnalyzeCall -> AxiosOutcome.

(** The requests posted so far, with their settlements. *)
Definition Log : Type := list (AnalyzeCall * AxiosOutcome).

Definition axiosPost (call : AnalyzeCall) : St Log JsValue :=
  fun log =>
    let r := mlApi call in
    match r with
    | Fulfilled data => (Return data, (log ++ [(call, r)])%list)
    | Rejected response message =>
        (Throw (mkError response message), (log ++ [(call, r)])%list)
    end.

(** [if (q && q.trim()) { ...; validQuestions.push(q.trim()) }], where
    [who] is the name of the variable holding [q]. *)
Definition keepValid (who : string) (q : JsValue) (valid : list string)
  : St Log (list string) :=
  if negb (Js.truthy q) then ret valid
  else
    match q with
    | JStr s =>
        if JsString.isEmpty (JsString.trim s) then ret valid
        else ret (valid ++ [JsString.trim s])%list
    | _ => throw (newError (who ++ ".trim is not a function"))
    end.

(** [questions.forEach(question => ...)] *)
Fixpoint forEachQuestion (items : list JsValue) (valid : list string)
  : St Log (list string) :=
  match items with
  | [] => ret valid
  | question :: rest =>
      let* valid' := keepValid "question" question valid in
      forEachQuestion rest valid'
  end.

Definition isEmptyArray (v : JsValue) : bool :=
  match v with JArr [] => true | _ => false end.

Definition callMLAPI (questions : JsValue) (fileInfo : option FileInfo)
  : St Log JsValue :=
  tryCatch
    (match fileInfo with
     | None => throw (newError "File is required for ML API call")
     | Some info =>
         if JsString.isEmpty (fi_path info)
         then throw (newError "File is required for ML API call")
         else if negb (Js.truthy questions) || isEmptyArray questions
         then throw (newError "At least one question is required for ML API call")
         else
           let* validQuestions :=
             match questions with
             | JArr items => forEachQuestion items []
             | _ => keepValid "questions" questions []
             end in
           match validQuestions with
           | [] => throw (newError "No valid questions provided")
           | _ :: _ =>
               axiosPost (mkAnalyzeCall (fi_path info) (fi_originalName info)
                                        validQuestions)
           end
     end)
    (fun error =>
       let* reported := template (reportedOrMessage error) in
       throw (newError ("ML API request failed: " ++ reported))).

(** The array [simulateMLAPI] builds from its two texts. *)
Definition legacyQuestions (text question : JsValue) : list JsValue :=
  ((if Js.truthy question then [question] else [])
   ++ (if Js.truthy text && negb (Js.truthy question) then [text] else []))%list.

Definition simulateMLAPI (text question : JsValue) (fileInfo : option FileInfo)
  : St Log JsValue :=
  let questions := legacyQuestions text question in
  match fileInfo with
  | None =>
      throw (newError "File is required. Please upload a document to analyze.")
  | Some info =>
      match questions with
      | [] => throw (newError "At least one question is required for analysis.")
      | _ :: _ => callMLAPI (JArr questions) (Some info)
      end
  end.

End WithService.

End Legacy.

(** ** POST /api/chat *)

Module Chat.

(** [Math.floor(Math.random() * responses.length)] for the four canned
    replies.  All four are built before one is drawn, each from a
    template literal that prints the message: a message that cannot be
    printed makes the handler throw, and its [catch] clause answers 500
    with the message of the TypeError. *)
Inductive Pick := First | Second | Third | Fourth.

(** What the handler draws from outside: the reply picked, the clock
    reading and random tail that [generateConversationId] uses, and the
    time stamp of the answer. *)
Record ChatEnv := mkChatEnv {
  pick : Pick;
  millis : Z;
  randomTail : string;
  stamp : string
}.

(** [req.body] after destructuring. *)
Record ChatBody := mkChatBody {
  message : JsValue;
  conversation_id : JsValue
}.

Definition quoted (message : JsValue) : string :=
  Js.dquote ++ Js.toString message ++ Js.dquote.

Definition responses (message : JsValue) : Pick -> string :=
  fun p =>
    match p with
    | First =>
        "Thank you for your message: " ++ quoted message
        ++ ". This is a general chat response."
    | Second =>
        "I received your message about " ++ quoted message
        ++ ". For document analysis, please upload a PDF file first."
    | Third =>
        "Hello! You said: " ++ quoted message
        ++ ". I'm ready to help with document analysis if you upload a PDF."
    | Fourth =>
        "I understand you're asking about " ++ quoted message
        ++ ". Upload a PDF document and I can provide detailed analysis."
    end.

Definition generateConversationId (env : ChatEnv) : string :=
  "conv_" ++ Js.numberToString (millis env) ++ "_" ++ randomTail env.

Definition chat (env : ChatEnv) (req : ChatBody) : HttpResponse :=
  if negb (Js.truthy (message req))
  then respondError 400 "Message is required"
  else if negb (Js.printable (message req))
  then respondError 500 Js.cannotConvert
  else
    mkResponse 200
      (JObj [("success", JBool true);
             ("response", JStr (responses (message req) (pick env)));
             ("conversation_id",
              if Js.truthy (conversation_id req) then conversation_id req
              else JStr (generateConversationId env));
             ("timestamp", JStr (stamp env))]).

End Chat.

(** ** The front end: file picker and chat window *)

Module Ui.

(** *** FileUpload.tsx *)

Definition allowedTypes : list string :=
  ["image/jpeg"; "image/jpg"; "image/png"; "image/gif"; "application/pdf";
   "text/plain"; "application/msword";
   "application/vnd.openxmlformats-officedocument.wordprocessingml.document";
   "application/vnd.ms-excel";
   "application/vnd.openxmlformats-officedocument.spreadsheetml.sheet";
   "application/vnd.ms-powerpoint";
   "application/vnd.openxmlformats-officedocument.presentationml.presentation"].

Definition maxFileSize : Z := 10 * 1024 * 1024.

(** [None] is the [null] returned for an acceptable file. *)
Definition validateFile (file : Client.File) : option string :=
  if negb (existsb (String.eqb (Client.type file)) allowedTypes)
  then Some "File type not supported. Please upload images, PDFs, or Office documents."
  else if maxFileSize <? Client.fsize file
  then Some "File size must be less than 10MB."
  else None.

(** *** ChatInterface *)

Definition blankLine : string :=
  String (ascii_of_nat 10) (String (ascii_of_nat 10) EmptyString).

(** [typeof v === 'object'] *)
Definition typeofObject (v : JsValue) : bool :=
  match v with
  | JNull | JArr _ | JObj _ => true
  | _ => false
  end.

(** How [Array.prototype.join] prints one element that can be
    printed. *)
Definition elementText (v : JsValue) : string :=
  match v with
  | JUndefined | JNull => EmptyString
  | _ => Js.toString v
  end.

(** [texts.join('\n\n')]: the elements are printed one after the other,
    and the first that cannot be printed ends the call with its
    TypeError. *)
Definition joinLines (texts : list JsValue) : Outcome string :=
  if forallb Js.printable texts
  then Return (Js.join blankLine (map elementText texts))
  else Throw (newError Js.cannotConvert).

(** [items.map(item => item.answer)] *)
Fixpoint mapAnswer (items : list JsValue) : Outcome (list JsValue) :=
  match items with
  | [] => Return []
  | item :: rest =>
      match Js.getProp item "answer" with
      | None => Throw (newError (Js.typeErrorRead item "answer"))
      | Some a =>
          match mapAnswer rest with
          | Return l => Return (a :: l)
          | Throw e => Throw e
          end
      end
  end.

Definition unformatted : string :=
  "I received a response but couldn't format it properly.".

Definition extractMessageContent (response : JsValue) : Outcome string :=
  match (if typeofObject response then Js.getProp response "answers"
         else Some JUndefined) with
  | None => Throw (newError (Js.typeErrorRead response "answers"))
  | Some answers =>
      if typeofObject response && Js.truthy answers then
        match answers with
        | JArr items =>
            match mapAnswer items with
            | Return texts => joinLines texts
            | Throw e => Throw e
            end
        | _ => Throw (newError "response.answers.map is not a function")
        end
      else
        match response with
        | JStr text => Return text
        | _ => Return unformatted
        end
  end.

(** The value caught by [processInput]: an axios error carries
    [response.status] and [response.data] when the server answered, and a
    [code] when the request did not complete. *)
Record Failure := mkFailure {
  fail_response : option (Z * JsValue);
  fail_code : option string;
  fail_message : string
}.

(** [${errorData.error || fallback}] *)
Definition errorOr (errorData : JsValue) (fallback : string) : Outcome string :=
  match Js.getProp errorData "error" with
  | None => Throw (newError (Js.typeErrorRead errorData "error"))
  | Some e =>
      if negb (Js.truthy e) then Return fallback
      else if Js.printable e then Return (Js.toString e)
      else Throw (newError Js.cannotConvert)
  end.

Definition prefixed (prefix : string) (o : Outcome string) : Outcome string :=
  match o with
  | Return text => Return (prefix ++ text)
  | Throw e => Throw e
  end.

(** The text the [catch] block of [processInput] shows for a failure. *)
Definition errorMessageFor (error : Failure) : Outcome string :=
  match fail_response error with
  | Some (statusCode, errorData) =>
      if statusCode =? 400
      then prefixed "Invalid request: " (errorOr errorData "Please check your input.")
      else if statusCode =? 404
      then Return "The requested endpoint was not found. Please check your server configuration."
      else if statusCode =? 500
      then errorOr errorData "An internal error occurred."
      else prefixed ("Error " ++ Js.numberToString statusCode ++ ": ")
                    (errorOr errorData "An error occurred.")
  | None =>
      match fail_code error with
      | Some "ECONNABORTED" =>
          Return "Request timed out. Large files may take longer to process."
      | _ =>
          if JsString.isEmpty (fail_message error)
          then Return "Sorry, I could not connect to the server. Please try again later."
          else Return ("Error: " ++ fail_message error)
      end
  end.

(** How axios settles a request from the server's answer: a status from
    200 to 299 fulfils with the body, any other rejects with the
    response attached. *)
Definition settle (r : HttpResponse) : Failure + JsValue :=
  if (200 <=? status r) && (status r <? 300) then inr (body r)
  else inl (mkFailure (Some (status r, body r))
              (if status r / 100 =? 4 then Some "ERR_BAD_REQUEST"
               else if status r / 100 =? 5 then Some "ERR_BAD_RESPONSE"
               else None)
              ("Request failed with status code "
               ++ Js.numberToString (status r))).

(** What the chat window shows for the server's answer [r] to a request
    made inside the [try] block: nothing from the [catch] block when the
    request is fulfilled, the text of the [catch] block otherwise. *)
Definition failureText (r : HttpResponse) : option (Outcome string) :=
  match settle r with
  | inl error => Some (errorMessageFor error)
  | inr _ => None
  end.

End Ui.

(** ** analyzeDocumentLegacy (src/services/api.ts) *)

Module ClientLegacy.
Import Client.

(** The values appended to the form under [questions]. *)
Definition questionFields (qs : Questions) : list string :=
  match qs with
  | Many l => map JsString.trim (List.filter nonBlank l)
  | One q => if nonBlank q then [JsString.trim q] else []
  end.

(** The multipart form posted to [/api/analyze-document]. *)
Record AnalyzeForm := mkAnalyzeForm {
  form_file : File;
  form_questions : list string
}.

Definition analyzeDocumentLegacy
    (post : AnalyzeForm -> AxiosOutcome) (file : File) (qs : Questions)
  : Outcome JsValue :=
  match post (mkAnalyzeForm file (questionFields qs)) with
  | Fulfilled data => Return data
  | Rejected response message => Throw (mkError response message)
  end.

End ClientLegacy.

(** ** More sample inputs *)

Module Demo.

(** The stored form of [Sample.policy]. *)
Definition storedPolicy : FileInfo := fileInfoOf Sample.policy.

(** An analysis service that answers every request alike. *)
Definition analysis (call : Legacy.AnalyzeCall) : AxiosOutcome :=
  Fulfilled (JObj [("answers", JArr [JObj [("answer", JStr "Covered.")]])]).

(** A backend for the batch client whose upload answer has no
    [pdf_id]. *)
Definition forgetful (call : Client.BackendCall) (b : unit) : AxiosOutcome * unit :=
  match call with
  | Client.CallUpload _ => (Fulfilled (JObj [("message", JStr "stored")]), b)
  | Client.CallQuery _ question =>
      (Fulfilled (JObj [("answer", JObj [("answer", JStr question)])]), b)
  end.

Definition wordDocument : Client.File :=
  Client.mkFile "letter.doc" "application/msword" 4096.

End Demo.

(** ** The chat window (ChatInterface) *)

Module ChatWindow.

Inductive Sender := ByUser | ByAssistant.

Inductive MessageType := TextMessage | FileMessage | VoiceMessage.

(** The [inputType] argument of [processInput]. *)
Inductive InputType := TextInput | VoiceInput.

Definition inputTypeName (t : InputType) : string :=
  match t with
  | TextInput => "text"
  | VoiceInput => "voice"
  end.

Definition messageTypeOf (t : InputType) : MessageType :=
  match t with
  | TextInput => TextMessage
  | VoiceInput => VoiceMessage
  end.

(** A [Message]; [processInput] never passes a [fileInfo], so that field
    is always [undefined] and is left out. *)
Record Message := mkMessage {
  msg_id : string;
  msg_content : JsValue;
  msg_sender : Sender;
  msg_timestamp : Z;
  msg_type : MessageType
}.

(** The state of the component: the values held by [useState], and the
    counter held by [messageIdCounter]. *)
Record UiState := mkUi {
  messages : list Message;
  inputText : string;
  isLoading : bool;
  conversationId : JsValue;
  selectedFile : option Client.File;
  showFileUpload : bool;
  currentPdfId : JsValue;
  uploadedFileName : option string;
  messageIdCounter : Z
}.

Definition initialUi : UiState :=
  mkUi [] EmptyString false JNull None false JNull None 0.

(** A request made through [apiService]. *)
Inductive ApiCall :=
| Hackrx (call : Client.BackendCall)
| SendMessage (message : string) (conversation_id : JsValue).

(** The readings of the clock taken by the call of [addMessage] that
    moves the counter to [n]: [Date.now()] and [new Date()]. *)
Record Clock := mkClock {
  dateNow : Z -> Z;
  newDate : Z -> Z
}.

Section WithBackend.

(** Whatever answers the requests: its state, and how a request made
    through the shared axios instance settles. *)
Variable Backend : Type.
Variable post : ApiCall -> Backend -> (Ui.Failure + JsValue) * Backend.
Variable clock : Clock.

(** The component, the backend and the requests sent so far. *)
Record Screen := mkScreen {
  ui : UiState;
  backend : Backend;
  sent : list (ApiCall * (Ui.Failure + JsValue))
}.

(** A piece of an event handler: it acts on the screen and either
    completes or throws. *)
Definition Act (A : Type) : Type := Screen -> (Ui.Failure + A) * Screen.

Definition done {A} (a : A) : Act A := fun sc => (inr a, sc).

Definition raise {A} (error : Ui.Failure) : Act A := fun sc => (inl error, sc).

Definition andThen {A B} (m : Act A) (f : A -> Act B) : Act B :=
  fun sc =>
    match m sc with
    | (inr a, sc') => f a sc'
    | (inl e, sc') => (inl e, sc')
    end.

(** [try { m } catch (error) { handler(error) } finally { finalizer }]:
    the finalizer runs however the rest ends, and what the rest returned
    or threw stands unless the finalizer itself throws. *)
Definition tryCatchFinally {A} (m : Act A) (handler : Ui.Failure -> Act A)
    (finalizer : Act unit) : Act A :=
  fun sc =>
    let '(r, sc1) :=
      match m sc with
      | (inr a, sc') => (inr a, sc')
      | (inl e, sc') => handler e sc'
      end in
    match finalizer sc1 with
    | (inr _, sc2) => (r, sc2)
    | (inl e, sc2) => (inl e, sc2)
    end.

Declare Scope act_scope.
Delimit Scope act_scope with act.
Notation "'let*' x ':=' m 'in' k" := (andThen m (fun x => k))
  (at level 10, x name, m at level 100, k at level 200) : act_scope.
Notation "'exec' m 'in' k" := (andThen m (fun _ => k))
  (at level 10, m at level 100, k at level 200) : act_scope.
Local Open Scope act_scope.

(** A TypeError or other plain [Error]: no [response], no [code]. *)
Definition plainError (message : string) : Ui.Failure :=
  Ui.mkFailure None None message.

Definition liftOutcome {A} (o : Outcome A) : Act A :=
  match o with
  | Return a => done a
  | Throw e => raise (plainError (errMessage e))
  end.

(** [v.k], throwing the TypeError of a read on [undefined] or [null]. *)
Definition readProp (v : JsValue) (k : string) : Act JsValue :=
  match Js.getProp v k with
  | Some x => done x
  | None => raise (plainError (Js.typeErrorRead v k))
  end.

(** The value [v] interpolated in a template literal or written as a
    form field: its text, or the TypeError thrown when it cannot be
    printed. *)
Definition template (v : JsValue) : Act string :=
  if Js.printable v then done (Js.toString v)
  else raise (plainError Js.cannotConvert).

Definition update (f : UiState -> UiState) : Act unit :=
  fun sc => (inr tt, mkScreen (f (ui sc)) (backend sc) (sent sc)).

Definition setIsLoading (b : bool) : Act unit :=
  update (fun '(mkUi m t _ c f w p n k) => mkUi m t b c f w p n k).

Definition setInputText (t : string) : Act unit :=
  update (fun '(mkUi m _ l c f w p n k) => mkUi m t l c f w p n k).

Definition setConversationId (c : JsValue) : Act unit :=
  update (fun '(mkUi m t l _ f w p n k) => mkUi m t l c f w p n k).

Definition setSelectedFile (f : option Client.File) : Act unit :=
  update (fun '(mkUi m t l c _ w p n k) => mkUi m t l c f w p n k).

Definition setShowFileUpload (w : bool) : Act unit :=
  update (fun '(mkUi m t l c f _ p n k) => mkUi m t l c f w p n k).

Definition setCurrentPdfId (p : JsValue) : Act unit :=
  update (fun '(mkUi m t l c f w _ n k) => mkUi m t l c f w p n k).

Definition setUploadedFileName (n : option string) : Act unit :=
  update (fun '(mkUi m t l c f w p _ k) => mkUi m t l c f w p n k).

(** The message built by [addMessage] when the counter moves to [n]. *)
Definition newMessage (n : Z) (content : JsValue) (sender : Sender)
    (type : MessageType) : Message :=
  mkMessage (Js.numberToString (dateNow clock n) ++ "-" ++ Js.numberToString n)
            content sender (newDate clock n) type.

(** [messageIdCounter.current += 1], then [setMessages] with the list
    extended by the new message. *)
Definition addMessage (content : JsValue) (sender : Sender)
    (type : MessageType) : Act unit :=
  update (fun '(mkUi m t l c f w p n k) =>
    mkUi (m ++ [newMessage (k + 1) content sender type]) t l c f w p n (k + 1)).

(** [(await api.post(...)).data] *)
Definition apiPost (call : ApiCall) : Act JsValue :=
  fun sc =>
    let '(r, b') := post call (backend sc) in
    (r, mkScreen (ui sc) b' (sent sc ++ [(call, r)])).

Definition uploadPDFToHackRX (file : Client.File) : Act JsValue :=
  apiPost (Hackrx (Client.CallUpload file)).

Definition queryPDFFromHackRX (pdf_id : JsValue) (question : string)
  : Act JsValue :=
  exec template pdf_id in
  apiPost (Hackrx (Client.CallQuery pdf_id question)).

Definition sendMessage (message : string) (conversationId : JsValue)
  : Act JsValue :=
  apiPost (SendMessage message conversationId).

Definition uploadingNotice : string :=
  "📤 Uploading and indexing your document...".

Definition uploadedNotice (name : string) : string :=
  "✅ Document " ++ Js.dquote ++ name ++ Js.dquote
  ++ " has been uploaded and indexed successfully! You can now ask questions about it.".

Definition unsuccessfulNotice (t : InputType) : string :=
  "Sorry, I encountered an error processing your " ++ inputTypeName t ++ ".".

(** The [try] block of [processInput].  [seen] holds the values of the
    state variables that the function closed over when it was created;
    [trimmed] is [input.trim()].  The three [template] steps are the log
    lines that print [pdf_id] or [currentPdfId]. *)
Definition tryBlock (seen : UiState) (trimmed : string) (inputType : InputType)
  : Act unit :=
  match selectedFile seen with
  | Some file =>
      exec addMessage (JStr uploadingNotice) ByAssistant TextMessage in
      let* uploadResult := uploadPDFToHackRX file in
      let* pdf_id := readProp uploadResult "pdf_id" in
      exec setCurrentPdfId pdf_id in
      exec setUploadedFileName (Some (Client.name file)) in
      exec template pdf_id in
      exec addMessage (JStr (uploadedNotice (Client.name file)))
                      ByAssistant TextMessage in
      if negb (JsString.isEmpty trimmed) then
        exec template pdf_id in
        let* queryResult := queryPDFFromHackRX pdf_id trimmed in
        let* outer := readProp queryResult "answer" in
        let* inner := readProp outer "answer" in
        addMessage inner ByAssistant TextMessage
      else done tt
  | None =>
      if negb (JsString.isEmpty trimmed) && Js.truthy (currentPdfId seen) then
        exec template (currentPdfId seen) in
        let* queryResult := queryPDFFromHackRX (currentPdfId seen) trimmed in
        let* outer := readProp queryResult "answer" in
        let* inner := readProp outer "answer" in
        addMessage inner ByAssistant TextMessage
      else if negb (JsString.isEmpty trimmed) then
        let* response :=
          sendMessage trimmed
            (if Js.truthy (conversationId seen) then conversationId seen
             else JUndefined) in
        let* success := readProp response "success" in
        if Js.truthy success then
          let* reply := readProp response "response" in
          let* messageContent := liftOutcome (Ui.extractMessageContent reply) in
          exec addMessage (JStr messageContent) ByAssistant TextMessage in
          let* conversation_id := readProp response "conversation_id" in
          if Js.truthy conversation_id && negb (Js.truthy (conversationId seen))
          then setConversationId conversation_id
          else done tt
        else
          addMessage (JStr (unsuccessfulNotice inputType)) ByAssistant TextMessage
      else done tt
  end.

(** The [catch] block. *)
Definition catchBlock (error : Ui.Failure) : Act unit :=
  let* errorMessage := liftOutcome (Ui.errorMessageFor error) in
  addMessage (JStr errorMessage) ByAssistant TextMessage.

(** The [finally] block. *)
Definition finallyBlock (inputType : InputType) : Act unit :=
  exec setIsLoading false in
  exec (match inputType with
        | TextInput => setInputText EmptyString
        | VoiceInput => done tt
        end) in
  exec setSelectedFile None in
  setShowFileUpload false.

Definition fileLabel (name : string) : string := "[File: " ++ name ++ "]".

Definition processInput (seen : UiState) (input : string)
    (inputType : InputType) : Act unit :=
  let trimmed := JsString.trim input in
  if JsString.isEmpty trimmed
     && match selectedFile seen with Some _ => false | None => true end
  then done tt
  else
    let userMessage :=
      if negb (JsString.isEmpty trimmed) then trimmed
      else match selectedFile seen with
           | Some file => fileLabel (Client.name file)
           | None => EmptyString
           end in
    let messageType :=
      match selectedFile seen with
      | Some _ => FileMessage
      | None => messageTypeOf inputType
      end in
    exec addMessage (JStr userMessage) ByUser messageType in
    exec setIsLoading true in
    tryCatchFinally (tryBlock seen trimmed inputType) catchBlock
                    (finallyBlock inputType).

(** [handleSend], run by the component as last rendered: its closure
    holds the state as it is when the event arrives. *)
Definition handleSend : Act unit :=
  fun sc =>
    let seen := ui sc in
    if (JsString.isEmpty (JsString.trim (inputText seen))
        && match selectedFile seen with Some _ => false | None => true end)
       || isLoading seen
    then (inr tt, sc)
    else processInput seen (inputText seen) TextInput sc.

(** [handleVoiceTranscription] puts the transcript into the input field;
    nothing is sent. *)
Definition handleVoiceTranscription (transcript : string) : Act unit :=
  setInputText transcript.

Definition clearedNotice : string :=
  "🗑️ PDF session cleared. You can upload a new document or continue with general chat.".

(** The [onClick] of the [Clear] button. *)
Definition clearPdf : Act unit :=
  exec setCurrentPdfId JNull in
  exec setUploadedFileName None in
  addMessage (JStr clearedNotice) ByAssistant TextMessage.

(** [currentPdfId && uploadedFileName]: the [Clear] button is rendered. *)
Definition clearShown (u : UiState) : bool :=
  Js.truthy (currentPdfId u)
  && match uploadedFileName u with
     | Some name => negb (JsString.isEmpty name)
     | None => false
     end.

(** What the user does: typing into the text area, choosing or removing
    a file, pressing [Clear] or [Send], dictating. *)
Inductive Event :=
| TypeText (value : string)
| ChooseFile (file : option Client.File)
| PressClear
| PressSend
| Dictate (transcript : string).

Definition fire (e : Event) : Act unit :=
  match e with
  | TypeText value => setInputText value
  | ChooseFile file => setSelectedFile file
  | PressClear => fun sc => if clearShown (ui sc) then clearPdf sc else (inr tt, sc)
  | PressSend => handleSend
  | Dictate transcript => handleVoiceTranscription transcript
  end.

(** The screen after a sequence of events, each handler running to its
    end before the next event arrives. *)
Fixpoint play (events : list Event) (sc : Screen) : Screen :=
  match events with
  | [] => sc
  | e :: rest => play rest (snd (fire e sc))
  end.

(** The single changes that the handlers make to the component. *)
Inductive Touch (u : UiState) : UiState -> Prop :=
| touch_message content sender type :
    Touch u
      (mkUi (messages u
             ++ [newMessage (messageIdCounter u + 1) content sender type])
            (inputText u) (isLoading u) (conversationId u) (selectedFile u)
            (showFileUpload u) (currentPdfId u) (uploadedFileName u)
            (messageIdCounter u + 1))
| touch_other t l c f w p n :
    Touch u (mkUi (messages u) t l c f w p n (messageIdCounter u)).

(** The identifier of the message made when the counter moves to [n]. *)
Definition idOf (n : Z) : string :=
  Js.numberToString (dateNow clock n) ++ "-" ++ Js.numberToString n.

(** The counter values [1], ..., [k]. *)
Definition upTo (k : nat) : list Z := map Z.of_nat (seq 1 k).

(** Every message made so far got its identifier from its own value of
    the counter. *)
Definition numbered (u : UiState) : Prop :=
  messageIdCounter u = Z.of_nat (length (messages u))
  /\ map msg_id (messages u) = map idOf (upTo (length (messages u))).

(** What a message shows: its content and who said it. *)
Definition shown (m : Message) : JsValue * Sender := (msg_content m, msg_sender m).

End WithBackend.

End ChatWindow.

(** ** The window in front of the server *)

Module Stack.

(** [JSON.parse(JSON.stringify(v))]: what is left of a body once it has
    crossed the wire.  An [undefined] array element arrives as [null],
    an [undefined] property does not arrive. *)
Fixpoint throughJson (v : JsValue) : JsValue :=
  match v with
  | JArr items =>
      JArr (map (fun x => match x with
                          | JUndefined => JNull
                          | _ => throughJson x
                          end) items)
  | JObj props =>
      JObj ((fix each (l : list (string * JsValue)) : list (string * JsValue) :=
               match l with
               | [] => []
               | (_, JUndefined) :: r => each r
               | (k, x) :: r => (k, throughJson x) :: each r
               end) props)
  | _ => v
  end.

(** What the server draws from outside while it serves its [n]-th
    request: the environment of the handlers, that of the chat route, and
    the two numbers of multer's [uniqueSuffix]. *)
Record Deployment := mkDeployment {
  envAt : nat -> Env;
  chatEnvAt : nat -> Chat.ChatEnv;
  suffixAt : nat -> Z * Z
}.

(** [FormData.append(name, value)] with a value that is not a file: the
    field is sent as text.  The client has printed the value before (see
    [ChatWindow.queryPDFFromHackRX]), so it can be printed. *)
Definition formField (v : JsValue) : JsValue := JStr (Js.toString v).

(** The [filename] function of the disk storage. *)
Definition stagedName (suffix : Z * Z) (originalname : string) : string :=
  "file" ++ "-"
  ++ (Js.numberToString (fst suffix) ++ "-" ++ Js.numberToString (snd suffix))
  ++ Path.extname originalname.

(** [req.file] for a browser [File] sent as the part [file]: a file
    without a type is declared [application/octet-stream]. *)
Definition partOf (suffix : Z * Z) (file : Client.File) : MulterFile :=
  mkMulterFile (Client.name file)
    (if JsString.isEmpty (Client.type file) then "application/octet-stream"
     else Client.type file)
    (Client.fsize file)
    (stagedName suffix (Client.name file))
    ("uploads/" ++ stagedName suffix (Client.name file)).

Section Deployed.

Variable d : Deployment.

(** The route that a request of the client reaches, as the [n]-th request
    of the server. *)
Definition handle (n : nat) (call : ChatWindow.ApiCall)
  : M HttpResponse :=
  match call with
  | ChatWindow.Hackrx (Client.CallUpload file) =>
      post_hackrx_upload (envAt d n) (Some (partOf (suffixAt d n) file))
  | ChatWindow.Hackrx (Client.CallQuery pdf_id question) =>
      hackrx_query (envAt d n)
        (mkQueryBody (formField pdf_id) (formField (JStr question)))
  | ChatWindow.SendMessage message conversation_id =>
      ret (Chat.chat (chatEnvAt d n)
             (Chat.mkChatBody (JStr message) (throughJson conversation_id)))
  end.

(** The server behind the shared axios instance: its state and the
    number of requests it has served.  The answer always arrives; a
    handler that threw would be answered by the error middleware. *)
Definition post (call : ChatWindow.ApiCall) (b : nat * Server)
  : (Ui.Failure + JsValue) * (nat * Server) :=
  let '(o, s') := handle (fst b) call (snd b) in
  let r := match o with
           | Return r => r
           | Throw e => respondError 500 (errMessage e)
           end in
  (Ui.settle (mkResponse (status r) (throughJson (body r))), (S (fst b), s')).

End Deployed.

End Stack.

(** ** Sample scenes for the chat window *)

Module Scene.

Definition chatEnv : Chat.ChatEnv :=
  Chat.mkChatEnv Chat.Second 1758273180594 "k3j9x2m1q" "2025-09-19T09:13:00.594Z".

(** A server whose ML service indexes every file as [abc123]. *)
Definition deployment : Stack.Deployment :=
  Stack.mkDeployment (fun _ => Sample.env) (fun _ => chatEnv)
                     (fun _ => (1758273180594, 123456789)).

(** A server whose ML service numbers the documents. *)
Definition numbering : Stack.Deployment :=
  Stack.mkDeployment
    (fun _ => Sample.stubEnv (Fulfilled (JObj [("pdf_id", JNum 42)]))
                             Sample.coverage)
    (fun _ => chatEnv)
    (fun _ => (1758273180594, 123456789)).

(** A clock that stands still. *)
Definition clock : ChatWindow.Clock :=
  ChatWindow.mkClock (fun _ => 1758273180594) (fun _ => 1758273180594).

(** The window with [policy.pdf] chosen. *)
Definition withFile : ChatWindow.UiState :=
  ChatWindow.mkUi [] " What is covered? " false JNull (Some Sample.policyFile)
                  true JNull None 0.

(** The window with a greeting typed and no file chosen. *)
Definition idle : ChatWindow.UiState :=
  ChatWindow.mkUi [] " Hello " false JNull None false JNull None 0.

End Scene.

(** * Properties *)

(** Closes a cache-step goal for a request that made no call and left the
    cache alone. *)
Ltac no_call_made :=
  exists []; simpl; rewrite app_nil_r;
  split; [reflexivity | intros ?; rewrite orb_false_r; reflexivity].

(** ** The response normaliser *)

Lemma serialized_is_text (v : JsValue) (x : JsValue) (k : string) :
  Js.getProp v k = Some x -> exists text, serialized v = JStr text.
Proof.
  destruct v as [| |b|n|s|items|props]; simpl; intros H; try discriminate;
    unfold serialized; simpl; try (destruct b); eauto.
Qed.

Lemma falsy_has_no_nested (answer : JsValue) :
  Js.truthy answer = false -> Js.getPropOpt answer "answer" = JUndefined.
Proof.
  destruct answer; simpl; intros H; try reflexivity; discriminate.
Qed.

Lemma extractAnswer_cases (mlResponse answer : JsValue) :
  Js.getProp mlResponse "answer" = Some answer ->
  extractAnswer mlResponse =
    Return
      (if Js.truthy answer && Js.truthy (Js.getPropOpt answer "answer")
       then Js.getPropOpt answer "answer"
       else if Js.truthy answer then answer
       else if Js.truthy (Js.getPropOpt mlResponse "response")
       then Js.getPropOpt mlResponse "response"
       else serialized mlResponse).
Proof.
  intros H. unfold extractAnswer, serialized. rewrite H.
  repeat match goal with |- context [if ?c then _ else _] => destruct c end;
    reflexivity.
Qed.

(** C1 (as amended): the normaliser follows the precedence
    [answer.answer], [answer], [response], serialised response, where each
    test is a test of truthiness: the first of the three values that is
    truthy is the result, and when none is, the result is the response
    itself if it is a string and its JSON text otherwise (always a string).
    For every non-empty [X] the three shapes [{answer:{answer:X}}],
    [{answer:X}] and [{response:X}] normalise to exactly [X]. *)
Theorem extractAnswer_precedence (mlResponse answer : JsValue) :
  Js.getProp mlResponse "answer" = Some answer ->
  let nested := Js.getPropOpt answer "answer" in
  let response := Js.getPropOpt mlResponse "response" in
  (Js.truthy nested = true -> extractAnswer mlResponse = Return nested) /\
  (Js.truthy nested = false -> Js.truthy answer = true ->
   extractAnswer mlResponse = Return answer) /\
  (Js.truthy answer = false -> Js.truthy response = true ->
   extractAnswer mlResponse = Return response) /\
  (Js.truthy answer = false -> Js.truthy response = false ->
   extractAnswer mlResponse = Return (serialized mlResponse) /\
   exists text, serialized mlResponse = JStr text) /\
  (forall X : string, X <> EmptyString ->
     extractAnswer (JObj [("answer", JObj [("answer", JStr X)])]) = Return (JStr X) /\
     extractAnswer (JObj [("answer", JStr X)]) = Return (JStr X) /\
     extractAnswer (JObj [("response", JStr X)]) = Return (JStr X)).
Proof.
  intros Hget nested response.
  pose proof (extractAnswer_cases _ _ Hget) as Hcases.
  fold nested response in Hcases.
  split; [|split; [|split; [|split]]].
  - intros Hn. rewrite Hcases, Hn.
    destruct (Js.truthy answer) eqn:Ha; [reflexivity|].
    apply falsy_has_no_nested in Ha. unfold nested in Hn.
    rewrite Ha in Hn. discriminate.
  - intros Hn Ha. rewrite Hcases, Hn, Ha. reflexivity.
  - intros Ha Hr. rewrite Hcases, Ha, Hr. reflexivity.
  - intros Ha Hr. split.
    + rewrite Hcases, Ha, Hr. reflexivity.
    + eapply serialized_is_text. eassumption.
  - intros X HX. destruct X as [|c X']; [congruence|].
    split; [reflexivity|]. split; reflexivity.
Qed.

Lemma extractAnswer_precedence_witness :
  Js.getProp (JObj [("answer", JObj [("answer", JStr "Coverage X")])]) "answer"
    = Some (JObj [("answer", JStr "Coverage X")]) /\
  extractAnswer (JObj [("answer", JObj [("answer", JStr "Coverage X")])])
    = Return (JStr "Coverage X").
Proof.
  split; [reflexivity|].
  exact (proj1 (extractAnswer_precedence
                  (JObj [("answer", JObj [("answer", JStr "Coverage X")])])
                  (JObj [("answer", JStr "Coverage X")]) eq_refl) eq_refl).
Defined.

(** C1 (as stated) fails: a response that has a field [answer] holding the
    empty string is not normalised to that field's value, and
    [{response:X}] does not normalise to [X] when [X] is empty. *)
Lemma presence_precedence_refuted :
  Js.hasOwn (JObj [("answer", JStr EmptyString)]) "answer" = true /\
  normalizeByPresence (JObj [("answer", JStr EmptyString)]) = JStr EmptyString /\
  extractAnswer (JObj [("answer", JStr EmptyString)])
    <> Return (normalizeByPresence (JObj [("answer", JStr EmptyString)])) /\
  extractAnswer (JObj [("response", JStr EmptyString)]) <> Return (JStr EmptyString).
Proof.
  repeat split; try reflexivity; vm_compute; discriminate.
Qed.

Lemma object_text_nonempty (props : list (string * JsValue)) :
  exists text, serialized (JObj props) = JStr text /\ text <> EmptyString.
Proof.
  unfold serialized. simpl. eexists. split; [reflexivity|]. discriminate.
Qed.

(** C10: the shape tests are truthiness tests.  For every response object
    whose [answer] is falsy (absent, empty string, [0], [false], [null])
    rules 1 and 2 are skipped: the result is the [response] field when that
    is truthy and the non-empty JSON text of the whole response otherwise;
    the object whose only field is an empty [answer] normalises to its
    JSON text, not to the empty string. *)
Theorem falsy_answer_falls_through (props : list (string * JsValue)) :
  Js.truthy (Js.lookupProp "answer" props) = false ->
  extractAnswer (JObj props) =
    Return (if Js.truthy (Js.lookupProp "response" props)
            then Js.lookupProp "response" props
            else serialized (JObj props)) /\
  (exists text, serialized (JObj props) = JStr text /\ text <> EmptyString) /\
  extractAnswer (JObj [("answer", JStr EmptyString)])
    = Return (JStr ("{" ++ Js.quoteJSON "answer" ++ ":" ++ Js.quoteJSON EmptyString ++ "}")) /\
  extractAnswer (JObj [("answer", JStr EmptyString)]) <> Return (JStr EmptyString).
Proof.
  intros Hfalsy. split; [|split; [apply object_text_nonempty|]].
  - rewrite (extractAnswer_cases (JObj props) (Js.lookupProp "answer" props) eq_refl).
    rewrite Hfalsy. reflexivity.
  - split; [reflexivity | vm_compute; discriminate].
Qed.

Lemma falsy_answer_falls_through_witness :
  Js.truthy (Js.lookupProp "answer"
               [("answer", JNum 0); ("response", JStr "from response")]) = false /\
  extractAnswer (JObj [("answer", JNum 0); ("response", JStr "from response")])
    = Return (JStr "from response").
Proof.
  split; [reflexivity|].
  exact (proj1 (falsy_answer_falls_through
                  [("answer", JNum 0); ("response", JStr "from response")]
                  eq_refl)).
Defined.

(** ** The cache as a map *)

Section MapFacts.
Context {V : Type}.
Implicit Types (m : list (JsValue * V)) (k : JsValue) (v : V).

Lemma sameValueZero_sym k1 k2 :
  JsMap.sameValueZero k1 k2 = JsMap.sameValueZero k2 k1.
Proof.
  destruct k1, k2; simpl; try reflexivity.
  - destruct b, b0; reflexivity.
  - apply Z.eqb_sym.
  - apply String.eqb_sym.
Qed.

Lemma sameValueZero_trans k1 k2 k3 :
  JsMap.sameValueZero k1 k2 = true -> JsMap.sameValueZero k2 k3 = true ->
  JsMap.sameValueZero k1 k3 = true.
Proof.
  destruct k1, k2; simpl; try discriminate; destruct k3; simpl;
    try discriminate; try reflexivity.
  - destruct b, b0, b1; simpl; congruence.
  - rewrite !Z.eqb_eq. congruence.
  - rewrite !String.eqb_eq. congruence.
Qed.

Lemma sameValueZero_refl k :
  JsMap.isPrimitive k = true -> JsMap.sameValueZero k k = true.
Proof.
  destruct k; simpl; try discriminate; intros _; try reflexivity.
  - destruct b; reflexivity.
  - apply Z.eqb_refl.
  - apply String.eqb_refl.
Qed.

Lemma get_set_same m k k' v :
  JsMap.sameValueZero k k' = true -> JsMap.get (JsMap.set m k v) k' = Some v.
Proof.
  intros Hk. induction m as [|[k0 v0] rest IH]; simpl.
  - rewrite Hk. reflexivity.
  - destruct (JsMap.sameValueZero k0 k) eqn:H0; simpl.
    + rewrite (sameValueZero_trans _ _ _ H0 Hk). reflexivity.
    + destruct (JsMap.sameValueZero k0 k') eqn:H1; [|exact IH].
      rewrite sameValueZero_sym in Hk.
      rewrite (sameValueZero_trans _ _ _ H1 Hk) in H0. discriminate.
Qed.

Lemma get_set_other m k k' v :
  JsMap.sameValueZero k k' = false -> JsMap.get (JsMap.set m k v) k' = JsMap.get m k'.
Proof.
  intros Hk. induction m as [|[k0 v0] rest IH]; simpl.
  - rewrite Hk. reflexivity.
  - destruct (JsMap.sameValueZero k0 k) eqn:H0; simpl.
    + destruct (JsMap.sameValueZero k0 k') eqn:H1; [|reflexivity].
      rewrite sameValueZero_sym in H0.
      rewrite (sameValueZero_trans _ _ _ H0 H1) in Hk. discriminate.
    + rewrite IH. reflexivity.
Qed.

Lemma has_set m k k' v :
  JsMap.has (JsMap.set m k v) k' = JsMap.has m k' || JsMap.sameValueZero k k'.
Proof.
  unfold JsMap.has.
  destruct (JsMap.sameValueZero k k') eqn:Hk.
  - rewrite (get_set_same _ _ _ _ Hk). rewrite orb_true_r. reflexivity.
  - rewrite (get_set_other _ _ _ _ Hk). rewrite orb_false_r. reflexivity.
Qed.

Lemma length_set_present m k v :
  JsMap.has m k = true -> length (JsMap.set m k v) = length m.
Proof.
  unfold JsMap.has. induction m as [|[k0 v0] rest IH]; simpl; [discriminate|].
  destruct (JsMap.sameValueZero k0 k) eqn:H0; simpl; [reflexivity|].
  intros H. rewrite IH; [reflexivity | exact H].
Qed.

End MapFacts.

(** ** The upload handler, path by path *)

Lemma cleanupUploaded_returns env f s :
  fst (cleanupUploaded env f s) = Return tt.
Proof.
  unfold cleanupUploaded, tryCatch, Fs.unlinkSync, consoleWarn.
  destruct (bool_decide (path f ∈ uploads s));
    [destruct (unlinkFault env (path f))|]; reflexivity.
Qed.

Lemma cleanupAfterError_returns env file s :
  fst (cleanupAfterError env file s) = Return tt.
Proof.
  unfold cleanupAfterError. destruct file as [f|]; [|reflexivity].
  destruct (JsString.isEmpty (path f)); [reflexivity|].
  unfold bind, tryCatch, Fs.existsSync, Fs.unlinkSync, consoleWarn, ret.
  destruct (bool_decide (path f ∈ uploads s)) eqn:Hp; [|reflexivity].
  rewrite Hp. destruct (unlinkFault env (path f)); reflexivity.
Qed.

Lemma hackrx_upload_no_file env s :
  hackrx_upload env None s = (Return (respondError 400 "No PDF file uploaded"), s).
Proof. reflexivity. Qed.

Lemma hackrx_upload_not_pdf env f s :
  notPdf f = true ->
  hackrx_upload env (Some f) s
  = (Return (respondError 400 "Only PDF files are supported"), s).
Proof.
  intros H. unfold hackrx_upload, tryCatch, ret. rewrite H. reflexivity.
Qed.

Lemma hackrx_upload_indexing env f s :
  notPdf f = false -> JsString.isEmpty (path f) = false ->
  let call := PostUpload (path f) (originalname f) in
  let s1 := logCall call (mlApi env call) s in
  let failed message :=
    (Return (respondError 500 message), snd (cleanupAfterError env (Some f) s1)) in
  hackrx_upload env (Some f) s =
    match mlApi env call with
    | Rejected response message =>
        failed (forwarded "ML API upload failed: " response message)
    | Fulfilled data =>
        match Js.getProp data "pdf_id" with
        | None => failed (Js.typeErrorRead data "pdf_id")
        | Some id =>
            if Js.truthy id then
              if Js.printable id then
                (Return (mkResponse 200
                           (JObj [("pdf_id", id); ("message", JStr uploadedMessage)])),
                 snd (cleanupUploaded env f
                        (putCache id
                           (mkCacheEntry (fileInfoOf f) (clock env) data
                                         (originalname f))
                           s1)))
              else failed Js.cannotConvert
            else failed "ML API did not return a pdf_id in response"
        end
    end.
Proof.
  intros Hpdf Hpath call s1 failed.
  unfold hackrx_upload, uploadPDFToMLAPI.
  unfold bind, tryCatch at 1 2, throw, ret, readProp, cacheSet, axiosPost,
    template.
  rewrite Hpdf. cbn [fileInfoOf fi_path fi_originalName]. rewrite Hpath.
  fold call. destruct (mlApi env call) as [data|response message] eqn:Hml.
  - fold s1. destruct (Js.getProp data "pdf_id") as [id|] eqn:Hid.
    + unfold ret. destruct (Js.truthy id) eqn:Htruthy; cbn [negb].
      * destruct (Js.printable id) eqn:Hprint.
        -- pose proof (cleanupUploaded_returns env f
             (putCache id (mkCacheEntry (fileInfoOf f) (clock env) data
                                        (originalname f)) s1)) as Hc.
           unfold fileInfoOf in Hc.
           destruct (cleanupUploaded env f _) as [o s2] eqn:Hrun.
           cbn [fst] in Hc. subst o. reflexivity.
        -- unfold failed.
           pose proof (cleanupAfterError_returns env (Some f) s1) as Hc.
           destruct (cleanupAfterError env (Some f) s1) as [o s2].
           cbn [fst] in Hc. subst o. reflexivity.
      * unfold throw. unfold failed.
        pose proof (cleanupAfterError_returns env (Some f) s1) as Hc.
        destruct (cleanupAfterError env (Some f) s1) as [o s2].
        cbn [fst] in Hc. subst o. reflexivity.
    + unfold throw, failed.
      pose proof (cleanupAfterError_returns env (Some f) s1) as Hc.
      destruct (cleanupAfterError env (Some f) s1) as [o s2].
      cbn [fst] in Hc. subst o. reflexivity.
  - fold s1. unfold failed, forwarded, upstreamText.
    cbn [errMessage].
    pose proof (cleanupAfterError_returns env (Some f) s1) as Hc.
    destruct (Js.printable (reportedOrMessage (mkError response message)));
      destruct (cleanupAfterError env (Some f) s1) as [o s2];
      cbn [fst] in Hc; subst o; reflexivity.
Qed.

Lemma hackrx_upload_no_path env f s :
  notPdf f = false -> JsString.isEmpty (path f) = true ->
  hackrx_upload env (Some f) s
  = (Return (respondError 500
       "ML API upload failed: File information is required for ML API upload"), s).
Proof.
  intros Hpdf Hpath.
  unfold hackrx_upload, uploadPDFToMLAPI, cleanupAfterError.
  unfold bind, tryCatch, throw, ret.
  rewrite Hpdf. cbn [fileInfoOf fi_path]. rewrite Hpath. reflexivity.
Qed.

Lemma cleanupUploaded_keeps env f s :
  pdfCache (snd (cleanupUploaded env f s)) = pdfCache s /\
  network (snd (cleanupUploaded env f s)) = network s.
Proof.
  unfold cleanupUploaded, tryCatch, Fs.unlinkSync, consoleWarn.
  destruct (bool_decide (path f ∈ uploads s));
    [destruct (unlinkFault env (path f))|]; split; reflexivity.
Qed.

Lemma cleanupAfterError_keeps env file s :
  pdfCache (snd (cleanupAfterError env file s)) = pdfCache s /\
  network (snd (cleanupAfterError env file s)) = network s.
Proof.
  unfold cleanupAfterError. destruct file as [f|]; [|split; reflexivity].
  destruct (JsString.isEmpty (path f)); [split; reflexivity|].
  unfold bind, tryCatch, Fs.existsSync, Fs.unlinkSync, consoleWarn, ret.
  destruct (bool_decide (path f ∈ uploads s)) eqn:Hp; [|split; reflexivity].
  rewrite Hp. destruct (unlinkFault env (path f)); split; reflexivity.
Qed.

(** What the best-effort deletion leaves behind, on the success path. *)
Lemma cleanupUploaded_effect env f s :
  let s' := snd (cleanupUploaded env f s) in
  let label := "Failed to cleanup uploaded file:" in
  (path f ∈ uploads s -> unlinkFault env (path f) = None ->
   uploads s' = uploads s ∖ {[path f]} /\ warnings s' = warnings s) /\
  (forall e, path f ∈ uploads s -> unlinkFault env (path f) = Some e ->
   uploads s' = uploads s /\ warnings s' = (warnings s ++ [(label ++ " " ++ e)%string])%list) /\
  (path f ∉ uploads s ->
   uploads s' = uploads s /\
   warnings s' = (warnings s ++ [(label ++ " " ++ Fs.enoent (path f))%string])%list).
Proof.
  unfold cleanupUploaded, tryCatch, Fs.unlinkSync, consoleWarn.
  destruct (bool_decide (path f ∈ uploads s)) eqn:Hp;
    [apply bool_decide_eq_true in Hp | apply bool_decide_eq_false in Hp];
    destruct (unlinkFault env (path f)) eqn:Hf;
    repeat split; intros; simplify_eq; done.
Qed.

(** What the best-effort deletion leaves behind, in the [catch] clause. *)
Lemma cleanupAfterError_effect env f s :
  JsString.isEmpty (path f) = false ->
  let s' := snd (cleanupAfterError env (Some f) s) in
  let label := "Failed to cleanup file after error:" in
  (path f ∈ uploads s -> unlinkFault env (path f) = None ->
   uploads s' = uploads s ∖ {[path f]} /\ warnings s' = warnings s) /\
  (forall e, path f ∈ uploads s -> unlinkFault env (path f) = Some e ->
   uploads s' = uploads s /\ warnings s' = (warnings s ++ [(label ++ " " ++ e)%string])%list) /\
  (path f ∉ uploads s -> s' = s).
Proof.
  intros Hpath.
  unfold cleanupAfterError. rewrite Hpath.
  unfold bind, tryCatch, Fs.existsSync, Fs.unlinkSync, consoleWarn, ret.
  destruct (bool_decide (path f ∈ uploads s)) eqn:Hp; rewrite ?Hp;
    [apply bool_decide_eq_true in Hp | apply bool_decide_eq_false in Hp];
    destruct (unlinkFault env (path f)) eqn:Hf;
    repeat split; intros; simplify_eq; done.
Qed.

(** ** The query handler, path by path *)

Lemma hackrx_query_paths env req s :
  hackrx_query env req s =
    if negb (Js.truthy (body_pdf_id req))
    then (Return (respondError 400 "pdf_id is required"), s)
    else
      match body_question req with
      | JStr q =>
          if JsString.isEmpty (JsString.trim q)
          then (Return (respondError 400 "question is required"), s)
          else if negb (JsMap.has (pdfCache s) (body_pdf_id req))
          then
            if Js.printable (body_pdf_id req)
            then (Return (respondError 404 (notFoundMessage (body_pdf_id req))), s)
            else (Return (respondError 500 Js.cannotConvert), s)
          else
            let call := PostQuery (body_pdf_id req) (JsString.trim q) in
            (Return
               match mlApi env call with
               | Rejected response message =>
                   respondError 500
                     (forwarded "ML API query failed: " response message)
               | Fulfilled data =>
                   match extractAnswer data with
                   | Return answerText =>
                       mkResponse 200
                         (JObj [("answer", JObj [("answer", answerText)])])
                   | Throw e => respondError 500 (errMessage e)
                   end
               end,
             logCall call (mlApi env call) s)
      | other =>
          if Js.truthy other
          then (Return (respondError 500 "question.trim is not a function"), s)
          else (Return (respondError 400 "question is required"), s)
      end.
Proof.
  unfold hackrx_query, queryPDFFromMLAPI, callTrim, readCache, liftOutcome,
    axiosPost, template.
  unfold bind, tryCatch, throw, ret.
  destruct (Js.truthy (body_pdf_id req)) eqn:Hid; cbn [negb]; [|reflexivity].
  destruct (body_question req) as [| |b|n|q|items|props] eqn:Hq;
    cbn [Js.truthy negb]; try reflexivity.
  - destruct b; reflexivity.
  - destruct (n =? 0); reflexivity.
  - destruct q as [|c q']; [reflexivity|].
    cbn [JsString.isEmpty negb].
    destruct (JsString.isEmpty (JsString.trim (String c q'))) eqn:Ht;
      [reflexivity|].
    destruct (JsMap.has (pdfCache s) (body_pdf_id req)) eqn:Hhas;
      cbn [negb orb]; [|destruct (Js.printable (body_pdf_id req)); reflexivity].
    destruct (mlApi env _) as [data|response message].
    + destruct (extractAnswer data); reflexivity.
    + unfold forwarded, upstreamText. cbn [errMessage].
      destruct (Js.printable (reportedOrMessage (mkError response message)));
        reflexivity.
Qed.

(** ** The cache holds exactly what was indexed *)

Lemma hasOwn_false_lookup (k : string) (props : list (string * JsValue)) :
  Js.hasOwn (JObj props) k = false -> Js.lookupProp k props = JUndefined.
Proof.
  simpl. induction props as [|[k0 v0] rest IH]; simpl; [reflexivity|].
  destruct (String.eqb k k0); simpl; [discriminate | exact IH].
Qed.

Lemma hasOwn_false_falsy (data : JsValue) (k : string) :
  Js.hasOwn data k = false -> Js.truthy (Js.getPropOpt data k) = false.
Proof.
  destruct data; try reflexivity. intros H.
  unfold Js.getPropOpt. simpl. rewrite (hasOwn_false_lookup _ _ H). reflexivity.
Qed.

Lemma getProp_getPropOpt (v x : JsValue) (k : string) :
  Js.getProp v k = Some x -> Js.getPropOpt v k = x.
Proof. unfold Js.getPropOpt. intros ->. reflexivity. Qed.

Lemma getProp_none_getPropOpt (v : JsValue) (k : string) :
  Js.getProp v k = None -> Js.getPropOpt v k = JUndefined.
Proof. unfold Js.getPropOpt. intros ->. reflexivity. Qed.

(** A value that cannot be printed is an array or an object, and as a
    key it equals no key. *)
Lemma unprintable_matches_nothing (id k : JsValue) :
  Js.printable id = false -> JsMap.sameValueZero id k = false.
Proof. destruct id; intros H; try discriminate H; reflexivity. Qed.

Lemma primitive_printable (id : JsValue) :
  JsMap.isPrimitive id = true -> Js.printable id = true.
Proof. destruct id; intros H; try discriminate H; reflexivity. Qed.

(** One request: the calls it adds to the log and what it does to the
    cache. *)
Lemma hackrx_upload_cache_step (env : Env) (file : option MulterFile) (s : Server) :
  exists new : list (NetCall * AxiosOutcome),
    network (snd (hackrx_upload env file s)) = (network s ++ new)%list /\
    forall k,
      JsMap.has (pdfCache (snd (hackrx_upload env file s))) k
      = JsMap.has (pdfCache s) k || existsb (indexedAs k) new.
Proof.
  destruct file as [f|].
  2:{ rewrite hackrx_upload_no_file. no_call_made. }
  destruct (notPdf f) eqn:Hpdf.
  { rewrite (hackrx_upload_not_pdf _ _ _ Hpdf). no_call_made. }
  destruct (JsString.isEmpty (path f)) eqn:Hpath.
  { rewrite (hackrx_upload_no_path _ _ _ Hpdf Hpath). no_call_made. }
  rewrite (hackrx_upload_indexing _ _ _ Hpdf Hpath).
  set (call := PostUpload (path f) (originalname f)).
  exists [(call, mlApi env call)].
  destruct (mlApi env call) as [data|response message] eqn:Hml; cbn zeta.
  - destruct (Js.getProp data "pdf_id") as [id|] eqn:Hid.
    + destruct (Js.truthy id) eqn:Htruthy;
        [destruct (Js.printable id) eqn:Hprint|]; cbn [snd].
      * destruct (cleanupUploaded_keeps env f
          (putCache id (mkCacheEntry (fileInfoOf f) (clock env) data (originalname f))
             (logCall call (Fulfilled data) s))) as [Hc Hn].
        rewrite Hc, Hn. split; [reflexivity|]. intros k.
        cbn [putCache pdfCache logCall existsb indexedAs call].
        rewrite has_set, (getProp_getPropOpt _ _ _ Hid), Htruthy.
        rewrite orb_false_r. reflexivity.
      * destruct (cleanupAfterError_keeps env (Some f)
                    (logCall call (Fulfilled data) s)) as [Hc Hn].
        rewrite Hc, Hn. split; [reflexivity|]. intros k.
        cbn [pdfCache logCall existsb indexedAs call].
        rewrite (getProp_getPropOpt _ _ _ Hid), Htruthy.
        rewrite (unprintable_matches_nothing _ k Hprint).
        rewrite orb_false_r. reflexivity.
      * destruct (cleanupAfterError_keeps env (Some f)
                    (logCall call (Fulfilled data) s)) as [Hc Hn].
        rewrite Hc, Hn. split; [reflexivity|]. intros k.
        cbn [pdfCache logCall existsb indexedAs call].
        rewrite (getProp_getPropOpt _ _ _ Hid), Htruthy.
        rewrite orb_false_r. reflexivity.
    + cbn [snd].
      destruct (cleanupAfterError_keeps env (Some f)
                  (logCall call (Fulfilled data) s)) as [Hc Hn].
      rewrite Hc, Hn. split; [reflexivity|]. intros k.
      cbn [pdfCache logCall existsb indexedAs call].
      rewrite (getProp_none_getPropOpt _ _ Hid).
      rewrite orb_false_r. reflexivity.
  - cbn [snd].
    destruct (cleanupAfterError_keeps env (Some f)
                (logCall call (Rejected response message) s)) as [Hc Hn].
    rewrite Hc, Hn. split; [reflexivity|]. intros k.
    cbn [pdfCache logCall existsb indexedAs call].
    rewrite orb_false_r. reflexivity.
Qed.

Lemma hackrx_query_cache_step (env : Env) (req : QueryBody) (s : Server) :
  pdfCache (snd (hackrx_query env req s)) = pdfCache s /\
  exists new : list (NetCall * AxiosOutcome),
    network (snd (hackrx_query env req s)) = (network s ++ new)%list /\
    forall k, existsb (indexedAs k) new = false.
Proof.
  rewrite hackrx_query_paths.
  assert (Hsame : forall r : Outcome HttpResponse,
             pdfCache (snd (r, s)) = pdfCache s /\
             exists new : list (NetCall * AxiosOutcome), network (snd (r, s)) = (network s ++ new)%list /\
                         forall k, existsb (indexedAs k) new = false).
  { intros r. split; [reflexivity|]. exists []. simpl. rewrite app_nil_r.
    split; reflexivity. }
  destruct (negb (Js.truthy (body_pdf_id req))); [apply Hsame|].
  destruct (body_question req) as [| |b|n|q|items|props];
    try (destruct (Js.truthy _); apply Hsame).
  destruct (JsString.isEmpty (JsString.trim q)); [apply Hsame|].
  destruct (negb (JsMap.has (pdfCache s) (body_pdf_id req)));
    [destruct (Js.printable (body_pdf_id req)); apply Hsame|].
  cbn zeta. cbn [snd logCall pdfCache network]. split; [reflexivity|].
  eexists. split; [reflexivity|]. intros k. reflexivity.
Qed.

Lemma serve_cache_step (env : Env) (r : Request) (s : Server) :
  exists new : list (NetCall * AxiosOutcome),
    network (snd (serve env r s)) = (network s ++ new)%list /\
    forall k,
      JsMap.has (pdfCache (snd (serve env r s))) k
      = JsMap.has (pdfCache s) k || existsb (indexedAs k) new.
Proof.
  destruct r as [part|req|]; cbn [serve].
  - unfold post_hackrx_upload. destruct part as [f|].
    + destruct (negb (fileFilter f)).
      { no_call_made. }
      destruct (fileSizeLimit <=? size f).
      { no_call_made. }
      unfold bind, Fs.store.
      apply (hackrx_upload_cache_step env (Some f)
               (mkServer (pdfCache s) ({[path f]} ∪ uploads s) (network s) (warnings s))).
    + apply hackrx_upload_cache_step.
  - destruct (hackrx_query_cache_step env req s) as [Hc [new [Hn Hnew]]].
    exists new. split; [exact Hn|]. intros k. rewrite Hc, Hnew, orb_false_r.
    reflexivity.
  - no_call_made.
Qed.

Lemma run_cache_invariant (reqs : list (Env * Request)) (s : Server) :
  (forall k, JsMap.has (pdfCache s) k = existsb (indexedAs k) (network s)) ->
  forall k,
    JsMap.has (pdfCache (run reqs s)) k
    = existsb (indexedAs k) (network (run reqs s)).
Proof.
  revert s. induction reqs as [|[env r] rest IH]; intros s Hinv; [exact Hinv|].
  cbn [run]. apply IH. intros k.
  destruct (serve_cache_step env r s) as [new [Hn Hk]].
  rewrite Hk, Hn, existsb_app, Hinv. reflexivity.
Qed.

Lemma reachable_cache_invariant (reqs : list (Env * Request)) (k : JsValue) :
  JsMap.has (pdfCache (run reqs initialServer)) k
  = existsb (indexedAs k) (network (run reqs initialServer)).
Proof. apply run_cache_invariant. intros k'. reflexivity. Qed.

(** C2: in every state the server can reach, the cache holds a record
    under an identifier exactly when an earlier indexing call succeeded and
    returned that identifier; and a single request changes the cache only
    if it is an upload whose indexing call succeeded with an identifier,
    in which case it sets the record under that identifier. *)
Theorem cache_holds_exactly_the_indexed (reqs : list (Env * Request)) :
  (forall k : JsValue,
     JsMap.has (pdfCache (run reqs initialServer)) k = true <->
     exists entry, In entry (network (run reqs initialServer))
                   /\ indexedAs k entry = true) /\
  (forall (env : Env) (r : Request) (s : Server),
     pdfCache (snd (serve env r s)) = pdfCache s \/
     exists f data id,
       r = Upload (Some f) /\
       mlApi env (PostUpload (path f) (originalname f)) = Fulfilled data /\
       Js.getProp data "pdf_id" = Some id /\ Js.truthy id = true /\
       pdfCache (snd (serve env r s))
       = JsMap.set (pdfCache s) id
           (mkCacheEntry (fileInfoOf f) (clock env) data (originalname f))).
Proof.
  split.
  - intros k. rewrite reachable_cache_invariant. apply existsb_exists.
  - intros env r s. destruct r as [part|req|]; cbn [serve].
    + unfold post_hackrx_upload. destruct part as [f|]; [|left; reflexivity].
      destruct (negb (fileFilter f)); [left; reflexivity|].
      destruct (fileSizeLimit <=? size f); [left; reflexivity|].
      unfold bind, Fs.store.
      set (s0 := mkServer (pdfCache s) ({[path f]} ∪ uploads s) (network s) (warnings s)).
      destruct (notPdf f) eqn:Hpdf.
      { left. rewrite (hackrx_upload_not_pdf _ _ _ Hpdf). reflexivity. }
      destruct (JsString.isEmpty (path f)) eqn:Hpath.
      { left. rewrite (hackrx_upload_no_path _ _ _ Hpdf Hpath). reflexivity. }
      rewrite (hackrx_upload_indexing _ _ _ Hpdf Hpath). cbn zeta.
      destruct (mlApi env (PostUpload (path f) (originalname f)))
        as [data|response message] eqn:Hml.
      * destruct (Js.getProp data "pdf_id") as [id|] eqn:Hid.
        -- destruct (Js.truthy id) eqn:Htruthy;
             [destruct (Js.printable id)|]; cbn [snd].
           ++ right. exists f, data, id. repeat split; try assumption.
              rewrite (proj1 (cleanupUploaded_keeps _ _ _)). reflexivity.
           ++ left. rewrite (proj1 (cleanupAfterError_keeps _ _ _)). reflexivity.
           ++ left. rewrite (proj1 (cleanupAfterError_keeps _ _ _)). reflexivity.
        -- left. cbn [snd].
           rewrite (proj1 (cleanupAfterError_keeps _ _ _)). reflexivity.
      * left. cbn [snd].
        rewrite (proj1 (cleanupAfterError_keeps _ _ _)). reflexivity.
    + left. apply hackrx_query_cache_step.
    + left. reflexivity.
Qed.

(** ** Queries *)

Lemma nonempty_not_isEmpty (t : string) :
  t <> EmptyString -> JsString.isEmpty t = false.
Proof. destruct t; [congruence | reflexivity]. Qed.

(** C3 (as amended): for every non-empty identifier under which no
    indexing call has succeeded and every question text that is not blank
    after trimming, the query is answered 404 with a message that names the
    identifier and tells the caller to upload first; the server is left as
    it was, so no call to the ML service is made. *)
Theorem unknown_identifier_not_found
    (env : Env) (reqs : list (Env * Request)) (id question : string) :
  id <> EmptyString ->
  JsString.trim question <> EmptyString ->
  existsb (indexedAs (JStr id)) (network (run reqs initialServer)) = false ->
  hackrx_query env (mkQueryBody (JStr id) (JStr question)) (run reqs initialServer)
  = (Return
       (respondError 404
          ("PDF with id '" ++ id
           ++ "' not found. Please upload the PDF first using /hackrx/upload.")),
     run reqs initialServer).
Proof.
  intros Hid Hq Hnever.
  rewrite hackrx_query_paths. cbn [body_pdf_id body_question Js.truthy].
  rewrite (nonempty_not_isEmpty _ Hid), (nonempty_not_isEmpty _ Hq).
  cbn [negb].
  rewrite reachable_cache_invariant, Hnever. reflexivity.
Qed.

Lemma unknown_identifier_not_found_witness :
  hackrx_query Sample.env
    (mkQueryBody (JStr "does-not-exist") (JStr "What is covered?"))
    Sample.afterPolicy
  = (Return
       (respondError 404
          "PDF with id 'does-not-exist' not found. Please upload the PDF first using /hackrx/upload."),
     Sample.afterPolicy).
Proof.
  apply (unknown_identifier_not_found Sample.env
           [(Sample.env, Upload (Some Sample.policy))]
           "does-not-exist" "What is covered?").
  - discriminate.
  - vm_compute. discriminate.
  - vm_compute. reflexivity.
Defined.

(** C3 (as stated) fails: with a blank question text the query for a
    never-indexed identifier is refused with 400, not answered 404. *)
Lemma blank_question_is_not_not_found :
  existsb (indexedAs (JStr "does-not-exist")) (network initialServer) = false /\
  hackrx_query Sample.env (mkQueryBody (JStr "does-not-exist") (JStr "   "))
    initialServer
  = (Return (respondError 400 "question is required"), initialServer) /\
  status (respondError 400 "question is required") <> 404.
Proof.
  split; [reflexivity|]. split; [reflexivity | discriminate].
Qed.

(** C7 (as amended): a query whose identifier is empty or missing (no
    trimming is applied to it), or whose question text is missing or empty
    after trimming, is refused with 400 whatever the cache holds, and the
    server is left as it was: no cache lookup decides and no call to the ML
    service is made. *)
Theorem invalid_query_rejected (env : Env) (req : QueryBody) :
  Js.truthy (body_pdf_id req) = false \/
  Js.truthy (body_question req) = false \/
  (exists q, body_question req = JStr q /\ JsString.trim q = EmptyString) ->
  exists message,
    (message = "pdf_id is required" \/ message = "question is required") /\
    forall s : Server,
      hackrx_query env req s = (Return (respondError 400 message), s).
Proof.
  intros Hbad.
  destruct (Js.truthy (body_pdf_id req)) eqn:Hid.
  - exists "question is required". split; [right; reflexivity|]. intros s.
    rewrite hackrx_query_paths, Hid. cbn [negb].
    destruct Hbad as [Hbad|[Hq|[q [Hq Ht]]]]; [discriminate| |].
    + destruct (body_question req) as [| |b|n|q|items|props];
        try (rewrite Hq; reflexivity).
      destruct q; [reflexivity | discriminate].
    + rewrite Hq, Ht. reflexivity.
  - exists "pdf_id is required". split; [left; reflexivity|]. intros s.
    rewrite hackrx_query_paths, Hid. reflexivity.
Qed.

Lemma invalid_query_rejected_witness :
  JsString.trim "   " = EmptyString /\
  exists message,
    (message = "pdf_id is required" \/ message = "question is required") /\
    forall s : Server,
      hackrx_query Sample.env (mkQueryBody (JStr "abc123") (JStr "   ")) s
      = (Return (respondError 400 message), s).
Proof.
  split; [reflexivity|].
  apply (invalid_query_rejected Sample.env
           (mkQueryBody (JStr "abc123") (JStr "   "))).
  right. right. exists "   ". split; reflexivity.
Defined.

(** C7 (as stated) fails: an identifier that is empty only after trimming
    passes validation; the cache is consulted and the answer is 404. *)
Lemma blank_identifier_reaches_the_cache :
  JsString.trim "   " = EmptyString /\
  hackrx_query Sample.env (mkQueryBody (JStr "   ") (JStr "What is covered?"))
    initialServer
  = (Return (respondError 404 (notFoundMessage (JStr "   "))), initialServer) /\
  status (respondError 404 (notFoundMessage (JStr "   "))) <> 400.
Proof.
  split; [reflexivity|]. split; [reflexivity | discriminate].
Qed.

(** ** Uploads *)

(** C4: when the indexing call succeeds at the transport level but its
    body has no [pdf_id] field, the upload is answered 500 with an error
    message (the contract-violation message whenever the body is not
    [null]) and the cache is left as it was. *)
Theorem missing_identifier_is_error
    (env : Env) (f : MulterFile) (s : Server) (data : JsValue) :
  notPdf f = false ->
  JsString.isEmpty (path f) = false ->
  mlApi env (PostUpload (path f) (originalname f)) = Fulfilled data ->
  Js.hasOwn data "pdf_id" = false ->
  exists message,
    fst (hackrx_upload env (Some f) s) = Return (respondError 500 message) /\
    pdfCache (snd (hackrx_upload env (Some f) s)) = pdfCache s /\
    (forall x, Js.getProp data "pdf_id" = Some x ->
               message = "ML API did not return a pdf_id in response") /\
    (Js.getProp data "pdf_id" = None ->
     message = Js.typeErrorRead data "pdf_id").
Proof.
  intros Hpdf Hpath Hml Hlacks.
  rewrite (hackrx_upload_indexing _ _ _ Hpdf Hpath). cbn zeta. rewrite Hml.
  pose proof (hasOwn_false_falsy _ _ Hlacks) as Hfalsy.
  destruct (Js.getProp data "pdf_id") as [id|] eqn:Hid.
  - rewrite (getProp_getPropOpt _ _ _ Hid) in Hfalsy. rewrite Hfalsy.
    eexists. split; [reflexivity|]. cbn [snd].
    rewrite (proj1 (cleanupAfterError_keeps _ _ _)).
    split; [reflexivity|]. split; [intros; reflexivity | discriminate].
  - eexists. split; [reflexivity|]. cbn [snd].
    rewrite (proj1 (cleanupAfterError_keeps _ _ _)).
    split; [reflexivity|]. split; [discriminate | intros; reflexivity].
Qed.

Lemma missing_identifier_is_error_witness :
  exists message,
    fst (hackrx_upload
           (Sample.stubEnv (Fulfilled (JObj [("status", JStr "ok")])) Sample.coverage)
           (Some Sample.policy) initialServer)
    = Return (respondError 500 message) /\
    pdfCache (snd (hackrx_upload
           (Sample.stubEnv (Fulfilled (JObj [("status", JStr "ok")])) Sample.coverage)
           (Some Sample.policy) initialServer)) = [].
Proof.
  destruct (missing_identifier_is_error
              (Sample.stubEnv (Fulfilled (JObj [("status", JStr "ok")])) Sample.coverage)
              Sample.policy initialServer (JObj [("status", JStr "ok")])
              eq_refl eq_refl eq_refl eq_refl) as [message [Hr [Hc _]]].
  exists message. split; [exact Hr | exact Hc].
Defined.

Lemma has_reflexive {V : Type} (m : list (JsValue * V)) (k : JsValue) :
  JsMap.has m k = true -> JsMap.sameValueZero k k = true.
Proof.
  unfold JsMap.has. induction m as [|[k0 v0] rest IH]; simpl; [discriminate|].
  destruct (JsMap.sameValueZero k0 k) eqn:H0; [intros _ | exact IH].
  apply (sameValueZero_trans k k0 k); [|exact H0].
  rewrite sameValueZero_sym. exact H0.
Qed.

(** A key of the cache is a primitive value, so it can be printed. *)
Lemma cached_key_printable {V : Type} (m : list (JsValue * V)) (k : JsValue) :
  JsMap.has m k = true -> Js.printable k = true.
Proof.
  intros H. apply has_reflexive in H.
  destruct k; try discriminate H; reflexivity.
Qed.

(** C5: a successful upload whose identifier is already cached answers 200
    and leaves under that identifier exactly the record built from this
    upload (its file metadata, the time of this upload, the raw response of
    this indexing call): nothing of the old record remains, no entry is
    added, and the records under other identifiers are untouched. *)
Theorem reupload_overwrites
    (env : Env) (f : MulterFile) (s : Server) (data id : JsValue) :
  notPdf f = false ->
  JsString.isEmpty (path f) = false ->
  mlApi env (PostUpload (path f) (originalname f)) = Fulfilled data ->
  Js.getProp data "pdf_id" = Some id ->
  Js.truthy id = true ->
  JsMap.has (pdfCache s) id = true ->
  let s' := snd (hackrx_upload env (Some f) s) in
  fst (hackrx_upload env (Some f) s)
  = Return (mkResponse 200
              (JObj [("pdf_id", id); ("message", JStr uploadedMessage)])) /\
  JsMap.get (pdfCache s') id
  = Some (mkCacheEntry (fileInfoOf f) (clock env) data (originalname f)) /\
  length (pdfCache s') = length (pdfCache s) /\
  (forall k, JsMap.sameValueZero id k = false ->
             JsMap.get (pdfCache s') k = JsMap.get (pdfCache s) k).
Proof.
  intros Hpdf Hpath Hml Hid Htruthy Hhas s'. subst s'.
  rewrite (hackrx_upload_indexing _ _ _ Hpdf Hpath). cbn zeta.
  rewrite Hml, Hid, Htruthy, (cached_key_printable _ _ Hhas). cbn [fst snd].
  rewrite (proj1 (cleanupUploaded_keeps _ _ _)).
  cbn [putCache pdfCache logCall].
  split; [reflexivity|]. split; [|split].
  - apply get_set_same. eapply has_reflexive. exact Hhas.
  - apply length_set_present. exact Hhas.
  - intros k Hk. apply get_set_other. exact Hk.
Qed.

Lemma reupload_overwrites_witness :
  JsMap.has (pdfCache Sample.afterPolicy) (JStr "abc123") = true /\
  JsMap.get
    (pdfCache (snd (hackrx_upload
                      (mkEnv (mlApi Sample.env) (unlinkFault Sample.env)
                             "2025-09-20T10:00:00.000Z")
                      (Some Sample.notes) Sample.afterPolicy)))
    (JStr "abc123")
  = Some (mkCacheEntry (fileInfoOf Sample.notes) "2025-09-20T10:00:00.000Z"
            (JObj [("pdf_id", JStr "abc123")]) "notes.txt").
Proof.
  split; [reflexivity|].
  exact (proj1 (proj2 (reupload_overwrites
           (mkEnv (mlApi Sample.env) (unlinkFault Sample.env)
                  "2025-09-20T10:00:00.000Z")
           Sample.notes Sample.afterPolicy
           (JObj [("pdf_id", JStr "abc123")]) (JStr "abc123")
           eq_refl eq_refl eq_refl eq_refl eq_refl eq_refl))).
Defined.

Lemma notPdf_true_iff (f : MulterFile) :
  notPdf f = true <->
  mimetype f <> "application/pdf" /\
  JsString.endsWith (JsString.toLowerCase (originalname f)) ".pdf" = false.
Proof.
  unfold notPdf. rewrite andb_true_iff, !negb_true_iff.
  rewrite String.eqb_neq. reflexivity.
Qed.

Lemma notPdf_false_iff (f : MulterFile) :
  notPdf f = false <->
  mimetype f = "application/pdf" \/
  JsString.endsWith (JsString.toLowerCase (originalname f)) ".pdf" = true.
Proof.
  unfold notPdf. rewrite andb_false_iff, !negb_false_iff.
  rewrite String.eqb_eq. reflexivity.
Qed.

(** C8 (as amended): the handler refuses an upload with 400, leaving the
    server as it was (no call to the ML service), when no file was
    supplied, or when neither the declared media type is [application/pdf]
    nor the file name ends in [.pdf] (case-insensitive).  When either of
    the two indicates a PDF the file is forwarded: the indexing call is
    made.  Through the route, a file that fails the type test never causes
    a call either; it is answered 400 when multer's filter accepted it and
    500 when the filter refused it. *)
Theorem upload_validation (env : Env) (s : Server) :
  hackrx_upload env None s
  = (Return (respondError 400 "No PDF file uploaded"), s) /\
  (forall f : MulterFile,
     mimetype f <> "application/pdf" ->
     JsString.endsWith (JsString.toLowerCase (originalname f)) ".pdf" = false ->
     hackrx_upload env (Some f) s
     = (Return (respondError 400 "Only PDF files are supported"), s)) /\
  (forall f : MulterFile,
     mimetype f = "application/pdf" \/
     JsString.endsWith (JsString.toLowerCase (originalname f)) ".pdf" = true ->
     JsString.isEmpty (path f) = false ->
     network (snd (hackrx_upload env (Some f) s))
     = (network s
        ++ [(PostUpload (path f) (originalname f),
             mlApi env (PostUpload (path f) (originalname f)))])%list) /\
  (forall f : MulterFile,
     mimetype f <> "application/pdf" ->
     JsString.endsWith (JsString.toLowerCase (originalname f)) ".pdf" = false ->
     network (snd (post_hackrx_upload env (Some f) s)) = network s /\
     pdfCache (snd (post_hackrx_upload env (Some f) s)) = pdfCache s /\
     exists message,
       fst (post_hackrx_upload env (Some f) s)
       = Return (respondError (if fileFilter f then 400 else 500) message)).
Proof.
  split; [apply hackrx_upload_no_file|]. split; [|split].
  - intros f Hm He. apply hackrx_upload_not_pdf.
    apply notPdf_true_iff. split; assumption.
  - intros f Hpdf Hpath. apply notPdf_false_iff in Hpdf.
    rewrite (hackrx_upload_indexing _ _ _ Hpdf Hpath). cbn zeta.
    destruct (mlApi env (PostUpload (path f) (originalname f)))
      as [data|response message].
    + destruct (Js.getProp data "pdf_id") as [id|].
      * destruct (Js.truthy id); [destruct (Js.printable id)|]; cbn [snd].
        -- rewrite (proj2 (cleanupUploaded_keeps _ _ _)). reflexivity.
        -- rewrite (proj2 (cleanupAfterError_keeps _ _ _)). reflexivity.
        -- rewrite (proj2 (cleanupAfterError_keeps _ _ _)). reflexivity.
      * cbn [snd]. rewrite (proj2 (cleanupAfterError_keeps _ _ _)). reflexivity.
    + cbn [snd]. rewrite (proj2 (cleanupAfterError_keeps _ _ _)). reflexivity.
  - intros f Hm He.
    assert (Hnot : notPdf f = true) by (apply notPdf_true_iff; split; assumption).
    unfold post_hackrx_upload.
    destruct (fileFilter f); cbn [negb].
    + destruct (fileSizeLimit <=? size f).
      * split; [reflexivity|]. split; [reflexivity|]. eexists. reflexivity.
      * unfold bind, Fs.store. rewrite (hackrx_upload_not_pdf _ _ _ Hnot).
        split; [reflexivity|]. split; [reflexivity|]. eexists. reflexivity.
    + split; [reflexivity|]. split; [reflexivity|]. eexists. reflexivity.
Qed.

Lemma upload_validation_witness :
  hackrx_upload Sample.env (Some Sample.photo) initialServer
  = (Return (respondError 400 "Only PDF files are supported"), initialServer).
Proof.
  apply (proj1 (proj2 (upload_validation Sample.env initialServer))).
  - discriminate.
  - reflexivity.
Defined.

(** C8 (as stated) fails: a file declared [application/pdf] and named
    [notes.txt] does not have both indications of a PDF, yet it passes
    multer's filter and the handler's test, the indexing call is made and
    the upload is answered 200. *)
Lemma declared_pdf_with_other_extension_is_indexed :
  fileFilter Sample.notes = true /\
  JsString.endsWith (JsString.toLowerCase (originalname Sample.notes)) ".pdf" = false /\
  fst (post_hackrx_upload Sample.env (Some Sample.notes) initialServer)
  = Return (mkResponse 200
              (JObj [("pdf_id", JStr "abc123"); ("message", JStr uploadedMessage)])) /\
  network (snd (post_hackrx_upload Sample.env (Some Sample.notes) initialServer))
  = [(PostUpload (path Sample.notes) "notes.txt", Sample.indexed)].
Proof.
  repeat split; vm_compute; reflexivity.
Qed.

Lemma upstreamText_reported (data : JsValue) (reported message : string) :
  reported <> EmptyString ->
  Js.getPropOpt data "error" = JStr reported ->
  upstreamText (Some data) message = reported.
Proof.
  intros Hne Hrep. unfold upstreamText, reportedOrMessage.
  cbn [errResponse errMessage]. rewrite Hrep. cbn [Js.truthy].
  rewrite (nonempty_not_isEmpty _ Hne). reflexivity.
Qed.

Lemma upstreamText_transport (response : option JsValue) (message : string) :
  match response with
  | None => True
  | Some data => Js.truthy (Js.getPropOpt data "error") = false
  end ->
  upstreamText response message = message.
Proof.
  unfold upstreamText, reportedOrMessage. cbn [errResponse errMessage].
  destruct response as [data|]; [intros ->|intros _]; reflexivity.
Qed.

(** What the handler leaves in the upload directory and on the console
    once the indexing call has been made, whatever its outcome. *)
Lemma hackrx_upload_releases (env : Env) (f : MulterFile) (s : Server) :
  notPdf f = false ->
  JsString.isEmpty (path f) = false ->
  let s' := snd (hackrx_upload env (Some f) s) in
  (path f ∈ uploads s -> unlinkFault env (path f) = None ->
   uploads s' = uploads s ∖ {[path f]} /\ warnings s' = warnings s) /\
  (forall e, path f ∈ uploads s -> unlinkFault env (path f) = Some e ->
   uploads s' = uploads s /\
   exists label,
     warnings s' = (warnings s ++ [(label ++ " " ++ e)%string])%list).
Proof.
  intros Hpdf Hpath s'. subst s'.
  rewrite (hackrx_upload_indexing _ _ _ Hpdf Hpath). cbn zeta.
  set (call := PostUpload (path f) (originalname f)).
  pose proof (cleanupAfterError_effect env f (logCall call (mlApi env call) s) Hpath)
    as [Herr1 [Herr2 _]].
  cbn [logCall uploads warnings] in Herr1, Herr2.
  assert (Hfail : forall message,
    let s' := snd (Return (respondError 500 message),
                   snd (cleanupAfterError env (Some f)
                          (logCall call (mlApi env call) s))) in
    (path f ∈ uploads s -> unlinkFault env (path f) = None ->
     uploads s' = uploads s ∖ {[path f]} /\ warnings s' = warnings s) /\
    (forall e, path f ∈ uploads s -> unlinkFault env (path f) = Some e ->
     uploads s' = uploads s /\
     exists label,
       warnings s' = (warnings s ++ [(label ++ " " ++ e)%string])%list)).
  { intros message. cbn [snd]. split.
    - exact Herr1.
    - intros e Hin Hf. destruct (Herr2 e Hin Hf) as [Hu Hw].
      split; [exact Hu|]. eexists. exact Hw. }
  destruct (mlApi env call) as [data|response message] eqn:Hml;
    [|apply Hfail].
  destruct (Js.getProp data "pdf_id") as [id|]; [|apply Hfail].
  destruct (Js.truthy id); [|apply Hfail].
  destruct (Js.printable id); [|apply Hfail].
  cbn [snd].
  pose proof (cleanupUploaded_effect env f
    (putCache id (mkCacheEntry (fileInfoOf f) (clock env) data (originalname f))
       (logCall call (Fulfilled data) s))) as [Hok1 [Hok2 _]].
  cbn [putCache logCall uploads warnings] in Hok1, Hok2.
  split.
  - exact Hok1.
  - intros e Hin Hf. destruct (Hok2 e Hin Hf) as [Hu Hw].
    split; [exact Hu|]. eexists. exact Hw.
Qed.

Lemma hackrx_upload_ignores_unlink_faults (env env' : Env) (f : MulterFile) (s : Server) :
  notPdf f = false ->
  JsString.isEmpty (path f) = false ->
  mlApi env' = mlApi env -> clock env' = clock env ->
  fst (hackrx_upload env' (Some f) s) = fst (hackrx_upload env (Some f) s) /\
  pdfCache (snd (hackrx_upload env' (Some f) s))
  = pdfCache (snd (hackrx_upload env (Some f) s)).
Proof.
  intros Hpdf Hpath Hml Hclock.
  rewrite !(hackrx_upload_indexing _ _ _ Hpdf Hpath). cbn zeta.
  rewrite Hml, Hclock.
  destruct (mlApi env (PostUpload (path f) (originalname f)))
    as [data|response message]; cbn [fst snd].
  - destruct (Js.getProp data "pdf_id") as [id|]; cbn [fst snd].
    + destruct (Js.truthy id); [destruct (Js.printable id)|]; cbn [fst snd].
      * rewrite !(proj1 (cleanupUploaded_keeps _ _ _)). split; reflexivity.
      * rewrite !(proj1 (cleanupAfterError_keeps _ _ _)). split; reflexivity.
      * rewrite !(proj1 (cleanupAfterError_keeps _ _ _)). split; reflexivity.
    + rewrite !(proj1 (cleanupAfterError_keeps _ _ _)). split; reflexivity.
  - rewrite !(proj1 (cleanupAfterError_keeps _ _ _)). split; reflexivity.
Qed.

(** The handling of an indexing failure.  On every upload that reaches the
    indexing call, (1) a failed call is answered 500 with the prefix
    [ML API upload failed: ] followed by the error text reported in the
    service's response body when there is one, and by the transport error
    text otherwise (or, when the reported error cannot be printed, with the
    TypeError of printing it), and the cache is left as it was; (2) whatever the
    outcome of the call (failure or success), the staged file is deleted
    when the file system allows it, and when it does not, one warning is
    written and nothing else changes; (3) the response and the cache do not
    depend on whether the deletion fails. *)
Lemma index_failure_cleans_up_and_propagates
    (env : Env) (f : MulterFile) (s : Server) :
  notPdf f = false ->
  JsString.isEmpty (path f) = false ->
  let call := PostUpload (path f) (originalname f) in
  let s' := snd (hackrx_upload env (Some f) s) in
  (forall response message,
     mlApi env call = Rejected response message ->
     fst (hackrx_upload env (Some f) s)
     = Return (respondError 500
                 (forwarded "ML API upload failed: " response message)) /\
     pdfCache s' = pdfCache s) /\
  (forall data reported message,
     reported <> EmptyString ->
     Js.getPropOpt data "error" = JStr reported ->
     upstreamText (Some data) message = reported) /\
  (forall message, upstreamText None message = message) /\
  (path f ∈ uploads s -> unlinkFault env (path f) = None ->
   uploads s' = uploads s ∖ {[path f]} /\ warnings s' = warnings s) /\
  (forall e, path f ∈ uploads s -> unlinkFault env (path f) = Some e ->
   uploads s' = uploads s /\
   exists label,
     warnings s' = (warnings s ++ [(label ++ " " ++ e)%string])%list) /\
  (forall env' : Env,
     mlApi env' = mlApi env -> clock env' = clock env ->
     fst (hackrx_upload env' (Some f) s) = fst (hackrx_upload env (Some f) s) /\
     pdfCache (snd (hackrx_upload env' (Some f) s)) = pdfCache s').
Proof.
  intros Hpdf Hpath call s'.
  split; [|split; [|split; [|split; [|split]]]].
  - intros response message Hml. subst s'.
    rewrite (hackrx_upload_indexing _ _ _ Hpdf Hpath). cbn zeta.
    fold call. rewrite Hml. cbn [fst snd].
    rewrite (proj1 (cleanupAfterError_keeps _ _ _)). split; reflexivity.
  - apply upstreamText_reported.
  - intros message. apply (upstreamText_transport None). exact I.
  - apply (hackrx_upload_releases env f s Hpdf Hpath).
  - apply (hackrx_upload_releases env f s Hpdf Hpath).
  - intros env' Hml Hclock.
    apply hackrx_upload_ignores_unlink_faults; assumption.
Qed.

Lemma index_failure_example :
  fst (hackrx_upload
         (Sample.stubEnv
            (Rejected (Some (JObj [("error", JStr "index build failed")]))
                      "Request failed with status code 500")
            Sample.coverage)
         (Some Sample.policy)
         (mkServer [] {[path Sample.policy]} [] []))
  = Return (respondError 500 "ML API upload failed: index build failed").
Proof.
  exact (proj1 (proj1 (index_failure_cleans_up_and_propagates
           (Sample.stubEnv
              (Rejected (Some (JObj [("error", JStr "index build failed")]))
                        "Request failed with status code 500")
              Sample.coverage)
           Sample.policy
           (mkServer [] {[path Sample.policy]} [] [])
           eq_refl eq_refl)
         (Some (JObj [("error", JStr "index build failed")]))
         "Request failed with status code 500" eq_refl)).
Qed.

(** Through the route, an upload that reaches the indexing call leaves no
    staged file behind when the file system allows the deletion. *)
Lemma staged_file_released_after_indexing (env : Env) (f : MulterFile) (s : Server) :
  fileFilter f = true ->
  (fileSizeLimit <=? size f) = false ->
  notPdf f = false ->
  JsString.isEmpty (path f) = false ->
  unlinkFault env (path f) = None ->
  path f ∉ uploads (snd (post_hackrx_upload env (Some f) s)).
Proof.
  intros Hfilter Hsize Hpdf Hpath Hfault.
  unfold post_hackrx_upload. rewrite Hfilter, Hsize. cbn [negb].
  unfold bind, Fs.store.
  set (s0 := mkServer (pdfCache s) ({[path f]} ∪ uploads s) (network s) (warnings s)).
  destruct (hackrx_upload_releases env f s0 Hpdf Hpath) as [Hgone _].
  assert (Hin : path f ∈ uploads s0).
  { cbn [s0 uploads]. apply elem_of_union. left.
    apply elem_of_singleton. reflexivity. }
  destruct (Hgone Hin Hfault) as [Hu _]. rewrite Hu.
  intros Hstill. apply elem_of_difference in Hstill.
  destruct Hstill as [_ Hstill]. apply Hstill.
  apply elem_of_singleton. reflexivity.
Qed.

(** C9: the claim that the staged file is released on every path fails on
    the handler's early return.  An image that multer accepts and stages
    is refused by the type test with 400; no indexing call is made, the
    deletion would have been allowed, and the staged file is still in the
    upload directory when the response is sent.  (The paths through the
    indexing call do release it: [staged_file_released_after_indexing].) *)
Theorem refused_upload_leaves_staged_file :
  fileFilter Sample.photo = true /\
  fst (post_hackrx_upload Sample.env (Some Sample.photo) initialServer)
  = Return (respondError 400 "Only PDF files are supported") /\
  network (snd (post_hackrx_upload Sample.env (Some Sample.photo) initialServer)) = [] /\
  unlinkFault Sample.env (path Sample.photo) = None /\
  path Sample.photo
    ∈ uploads (snd (post_hackrx_upload Sample.env (Some Sample.photo) initialServer)).
Proof.
  split; [reflexivity|]. split; [reflexivity|]. split; [reflexivity|].
  split; [reflexivity|].
  change (path Sample.photo ∈ {[path Sample.photo]} ∪ uploads initialServer).
  apply elem_of_union. left. apply elem_of_singleton. reflexivity.
Qed.

(** ** The batch client *)

Section BatchFacts.

Import Client ClientSpec.

Variable Backend : Type.
Variable post : BackendCall -> Backend -> AxiosOutcome * Backend.
Variable now : string.

Lemma replay_calls (b : Backend) (calls : list BackendCall) :
  map fst (fst (replay post b calls)) = calls.
Proof.
  revert b. induction calls as [|c rest IH]; intros b; [reflexivity|].
  cbn [replay]. destruct (post c b) as [r b1]. specialize (IH b1).
  destruct (replay post b1 rest) as [log b2]. cbn [fst map] in *.
  rewrite IH. reflexivity.
Qed.

Lemma replay_cons (b : Backend) (c : BackendCall) (calls : list BackendCall) :
  replay post b (c :: calls)
  = ((c, fst (post c b)) :: fst (replay post (snd (post c b)) calls),
     snd (replay post (snd (post c b)) calls)).
Proof.
  cbn [replay]. destruct (post c b) as [r b1]. cbn [fst snd].
  destruct (replay post b1 calls) as [log b2]. reflexivity.
Qed.

(** The test of the loop keeps a question exactly when it is not empty
    after trimming: an empty question trims to the empty text. *)
Lemma nonBlank_not_skipped (q : string) : nonBlank q = negb (skipped q).
Proof.
  unfold nonBlank, skipped. destruct q as [|c q]; reflexivity.
Qed.

Lemma filter_nonBlank_kept (qs : Questions) :
  List.filter nonBlank (questionArrayOf qs) = kept qs.
Proof.
  unfold kept. destruct qs as [q|l]; cbn [questionArrayOf questionList];
    apply filter_ext; intros q'; apply nonBlank_not_skipped.
Qed.

Lemma pdfIdOf_printable (o : AxiosOutcome) (id : JsValue) :
  pdfIdOf o = Return id -> Js.printable id = true.
Proof.
  unfold pdfIdOf. destruct o as [data|response message]; [|discriminate].
  destruct (Js.getProp data "pdf_id") as [v|]; [|discriminate].
  destruct (Js.printable v) eqn:Hv; [|discriminate].
  intros H. injection H as <-. exact Hv.
Qed.

(** One turn of the loop, for an identifier that can be printed. *)
Lemma askEach_cons (pdf_id : JsValue) (question : string) (rest : list string)
    (acc : list JsValue) (w : World Backend) :
  Js.printable pdf_id = true ->
  askEach Backend post pdf_id (question :: rest) acc w =
    if nonBlank question then
      let c := CallQuery pdf_id (JsString.trim question) in
      let w1 := (snd (post c (fst w)),
                 (snd w ++ [(c, fst (post c (fst w)))])%list) in
      match answerOf (fst (post c (fst w))) with
      | Return inner =>
          askEach Backend post pdf_id rest (acc ++ [wrapAnswer inner])%list w1
      | Throw e => (Throw e, w1)
      end
    else askEach Backend post pdf_id rest acc w.
Proof.
  intros Hprint. cbn [askEach]. destruct (nonBlank question); [|reflexivity].
  unfold queryPDFFromHackRX, bind, template, apiPost, readProp, ret, throw,
    answerOf.
  rewrite Hprint. cbn zeta.
  destruct (post (CallQuery pdf_id (JsString.trim question)) (fst w))
    as [[data|response message] b1]; cbn [fst snd]; [|reflexivity].
  destruct (Js.getProp data "answer") as [outer|]; [|reflexivity].
  destruct (Js.getProp outer "answer") as [inner|]; reflexivity.
Qed.

Lemma askEach_spec (pdf_id : JsValue) (questionArray : list string) :
  Js.printable pdf_id = true ->
  forall (acc : list JsValue) (w : World Backend),
  exists n : nat,
    (n <= length (map JsString.trim (List.filter nonBlank questionArray)))%nat /\
    let sent :=
      replay post (fst w)
        (map (CallQuery pdf_id)
             (firstn n (map JsString.trim (List.filter nonBlank questionArray)))) in
    snd (askEach Backend post pdf_id questionArray acc w)
    = (snd sent, (snd w ++ fst sent)%list) /\
    match fst (askEach Backend post pdf_id questionArray acc w) with
    | Return collected =>
        n = length (map JsString.trim (List.filter nonBlank questionArray)) /\
        exists inners,
          map (fun entry => answerOf (snd entry)) (fst sent) = map Return inners /\
          collected = (acc ++ map wrapAnswer inners)%list
    | Throw e =>
        exists done last,
          fst sent = (done ++ [last])%list /\
          Forall answered done /\
          answerOf (snd last) = Throw e
    end.
Proof.
  intros Hprint.
  induction questionArray as [|question rest IH]; intros acc w.
  - exists 0%nat. cbn. split; [lia|]. rewrite app_nil_r.
    split; [destruct w; reflexivity|]. split; [reflexivity|].
    exists []. rewrite app_nil_r. split; reflexivity.
  - rewrite (askEach_cons _ _ _ _ _ Hprint). cbn [List.filter].
    destruct (nonBlank question) eqn:Hq; [|apply IH].
    cbn zeta. cbn [map length].
    set (c := CallQuery pdf_id (JsString.trim question)).
    destruct (answerOf (fst (post c (fst w)))) as [inner|e] eqn:Hans.
    + destruct (IH (acc ++ [wrapAnswer inner])%list
                   (snd (post c (fst w)),
                    (snd w ++ [(c, fst (post c (fst w)))])%list))
        as [n [Hn [Hstate Hres]]].
      exists (S n). split; [lia|]. cbn [firstn map]. fold c.
      rewrite replay_cons. cbn [fst snd] in *.
      rewrite Hstate, <- app_assoc. split; [reflexivity|].
      destruct (fst (askEach Backend post pdf_id rest _ _)) as [collected|e].
      * destruct Hres as [Hlen [inners [Hsent Hcol]]].
        split; [lia|]. exists (inner :: inners). cbn [map snd].
        rewrite Hsent, Hans. split; [reflexivity|].
        rewrite Hcol, <- app_assoc. reflexivity.
      * destruct Hres as [done [last [Hlog [Hdone Hlast]]]].
        exists ((c, fst (post c (fst w))) :: done), last. rewrite Hlog.
        split; [reflexivity|]. split; [|exact Hlast].
        constructor; [|exact Hdone]. exists inner. exact Hans.
    + exists 1%nat. split; [lia|]. cbn [firstn map]. fold c.
      rewrite replay_cons. cbn [replay fst snd].
      split; [reflexivity|].
      exists [], (c, fst (post c (fst w))).
      split; [reflexivity|]. split; [constructor | exact Hans].
Qed.

(** The body of [analyzeDocument], step by step. *)
Lemma analyzeDocument_steps (file : File) (qs : Questions) (w : World Backend) :
  analyzeDocument Backend post now file qs w =
    let upload := post (CallUpload file) (fst w) in
    let w1 := (snd upload, (snd w ++ [(CallUpload file, fst upload)])%list) in
    match pdfIdOf (fst upload) with
    | Throw e => (Throw e, w1)
    | Return pdf_id =>
        match fst (askEach Backend post pdf_id (questionArrayOf qs) [] w1) with
        | Return collected =>
            (Return (mkChatResponse true collected now (name file) (type file)
                       (fsize file) (List.filter nonBlank (questionArrayOf qs))),
             snd (askEach Backend post pdf_id (questionArrayOf qs) [] w1))
        | Throw e =>
            (Throw e, snd (askEach Backend post pdf_id (questionArrayOf qs) [] w1))
        end
    end.
Proof.
  unfold analyzeDocument, uploadPDFToHackRX, apiPost, readProp, pdfIdOf.
  unfold tryCatch, bind, template, ret, throw. cbn zeta.
  destruct (post (CallUpload file) (fst w)) as [[data|response message] b1];
    cbn [fst snd]; [|reflexivity].
  destruct (Js.getProp data "pdf_id") as [pdf_id|]; [|reflexivity].
  destruct (Js.printable pdf_id); [|reflexivity].
  destruct (askEach Backend post pdf_id (questionArrayOf qs) [] _)
    as [[collected|e] w2]; reflexivity.
Qed.

(** C6: the batch sends the upload once, first; when the upload step
    fails (the request is rejected, the body has no [pdf_id] to read, or
    the identifier cannot be printed), that error is the result and
    nothing else is sent.  Otherwise it sends the questions that are not
    empty after trimming, trimmed, in input order, one after the other,
    each to the backend as the previous request left it.  When all are
    answered the result lists the answers in that order and the questions
    kept, untrimmed.  When one fails, it is the last request sent, every
    earlier one was answered, and the result is that question's error: no
    list of answers is returned. *)
Theorem analyzeDocument_batch (file : File) (qs : Questions) (b : Backend) :
  let result := analyzeDocument Backend post now file qs (b, []) in
  let upload := post (CallUpload file) b in
  match pdfIdOf (fst upload) with
  | Throw e =>
      result = (Throw e, (snd upload, [(CallUpload file, fst upload)]))
  | Return pdf_id =>
      exists n : nat,
        (n <= length (asked qs))%nat /\
        let sent :=
          replay post (snd upload)
            (map (CallQuery pdf_id) (firstn n (asked qs))) in
        snd result = (snd sent, (CallUpload file, fst upload) :: fst sent) /\
        map fst (fst sent) = map (CallQuery pdf_id) (firstn n (asked qs)) /\
        match fst result with
        | Return r =>
            n = length (asked qs) /\
            (exists inners,
               map (fun entry => answerOf (snd entry)) (fst sent)
               = map Return inners /\
               answers r = map wrapAnswer inners) /\
            success r = true /\
            questions r = kept qs
        | Throw e =>
            exists done last,
              fst sent = (done ++ [last])%list /\
              Forall answered done /\
              answerOf (snd last) = Throw e
        end
  end.
Proof.
  cbn zeta. rewrite analyzeDocument_steps. cbn zeta. cbn [fst snd app].
  destruct (pdfIdOf (fst (post (CallUpload file) b))) as [pdf_id|e] eqn:Hid;
    [|reflexivity].
  destruct (askEach_spec pdf_id (questionArrayOf qs)
              (pdfIdOf_printable _ _ Hid) []
              (snd (post (CallUpload file) b),
               [(CallUpload file, fst (post (CallUpload file) b))]))
    as [n [Hn [Hstate Hres]]].
  rewrite filter_nonBlank_kept in Hn, Hstate, Hres.
  fold (asked qs) in Hn, Hstate, Hres. cbn [fst snd app] in Hstate, Hres.
  exists n. split; [exact Hn|]. rewrite replay_calls.
  destruct (fst (askEach Backend post pdf_id (questionArrayOf qs) [] _))
    as [collected|e]; cbn [fst snd].
  - split; [exact Hstate|]. split; [reflexivity|].
    destruct Hres as [Hlen [inners [Hsent Hcol]]].
    split; [exact Hlen|].
    split; [|split; [reflexivity | apply filter_nonBlank_kept]].
    exists inners. split; [exact Hsent | exact Hcol].
  - split; [exact Hstate|]. split; [reflexivity | exact Hres].
Qed.

End BatchFacts.

(** The batch [Q1, Q2] against a backend that fails on [Q2]: the result is
    the error of [Q2], and [Q1] was asked and answered before it. *)
Example batch_fails_on_second_question :
  Client.analyzeDocument unit Sample.failsOnQ2 "2025-09-19T09:13:00.594Z"
    Sample.policyFile (Client.Many ["Q1"; "  "; " Q2 "; "Q3"]) (tt, [])
  = (Throw (mkError (Some (errorBody "ML API query failed: timeout"))
                    "Request failed with status code 500"),
     (tt,
      [(Client.CallUpload Sample.policyFile, Sample.indexed);
       (Client.CallQuery (JStr "abc123") "Q1",
        Fulfilled (JObj [("answer", JObj [("answer", JStr "Q1")])]));
       (Client.CallQuery (JStr "abc123") "Q2",
        Rejected (Some (errorBody "ML API query failed: timeout"))
                 "Request failed with status code 500")])).
Proof. reflexivity. Qed.

Lemma analyzeDocument_batch_witness :
  exists n : nat,
    (n <= 3)%nat /\
    snd (Client.analyzeDocument unit Sample.failsOnQ2 "2025-09-19T09:13:00.594Z"
           Sample.policyFile (Client.Many ["Q1"; "  "; " Q2 "; "Q3"]) (tt, []))
    = (snd (ClientSpec.replay Sample.failsOnQ2 tt
              (map (Client.CallQuery (JStr "abc123"))
                   (firstn n ["Q1"; "Q2"; "Q3"]))),
       (Client.CallUpload Sample.policyFile, Sample.indexed)
       :: fst (ClientSpec.replay Sample.failsOnQ2 tt
                 (map (Client.CallQuery (JStr "abc123"))
                      (firstn n ["Q1"; "Q2"; "Q3"])))).
Proof.
  destruct (analyzeDocument_batch unit Sample.failsOnQ2 "2025-09-19T09:13:00.594Z"
              Sample.policyFile (Client.Many ["Q1"; "  "; " Q2 "; "Q3"]) tt)
    as [n [Hn [Hstate _]]].
  exists n. split; [exact Hn | exact Hstate].
Defined.

(** The questions sent for the input [Q1], a blank, [ Q2 ], an empty text
    and [Q3]: the blank and the empty one are skipped, the others are
    trimmed and keep their order. *)
Example asked_example :
  ClientSpec.asked
    (Client.Many ["Q1"; "  "; " Q2 "; EmptyString; "Q3"]) = ["Q1"; "Q2"; "Q3"] /\
  ClientSpec.kept
    (Client.Many ["Q1"; "  "; " Q2 "; EmptyString; "Q3"]) = ["Q1"; " Q2 "; "Q3"] /\
  ClientSpec.asked (Client.One "  why?  ") = ["why?"] /\
  ClientSpec.asked (Client.One "   ") = [].
Proof. repeat split; reflexivity. Qed.

(** An upload answered with an identifier that cannot be printed: the
    batch stops at the log line that prints it, with that TypeError, and
    no question is sent. *)
Example batch_stops_on_unprintable_identifier :
  Client.analyzeDocument unit
    (fun call b => (Fulfilled (JObj [("pdf_id", JObj [("toString", JNum 1)])]), b))
    "2025-09-19T09:13:00.594Z" Sample.policyFile (Client.One "Q1") (tt, [])
  = (Throw (newError Js.cannotConvert),
     (tt,
      [(Client.CallUpload Sample.policyFile,
        Fulfilled (JObj [("pdf_id", JObj [("toString", JNum 1)])]))])).
Proof. reflexivity. Qed.


(** * Further properties of the server *)

(** ** Every request is answered *)

Lemma hackrx_upload_responds (env : Env) (file : option MulterFile) (s : Server) :
  exists resp,
    fst (hackrx_upload env file s) = Return resp /\
    (status resp = 200 \/ status resp = 400 \/ status resp = 500).
Proof.
  destruct file as [f|].
  2:{ rewrite hackrx_upload_no_file. eexists. split; [reflexivity|]. auto. }
  destruct (notPdf f) eqn:Hpdf.
  { rewrite (hackrx_upload_not_pdf _ _ _ Hpdf).
    eexists. split; [reflexivity|]. auto. }
  destruct (JsString.isEmpty (path f)) eqn:Hpath.
  { rewrite (hackrx_upload_no_path _ _ _ Hpdf Hpath).
    eexists. split; [reflexivity|]. auto. }
  rewrite (hackrx_upload_indexing _ _ _ Hpdf Hpath). cbn zeta.
  destruct (mlApi env _) as [data|response message].
  - destruct (Js.getProp data "pdf_id") as [id|].
    + destruct (Js.truthy id); [destruct (Js.printable id)|];
        eexists; (split; [reflexivity|]); auto.
    + eexists. split; [reflexivity|]. auto.
  - eexists. split; [reflexivity|]. auto.
Qed.

Lemma hackrx_query_responds (env : Env) (req : QueryBody) (s : Server) :
  exists resp,
    fst (hackrx_query env req s) = Return resp /\
    (status resp = 200 \/ status resp = 400 \/ status resp = 404
     \/ status resp = 500).
Proof.
  rewrite hackrx_query_paths.
  destruct (negb (Js.truthy (body_pdf_id req))).
  { eexists. split; [reflexivity|]. auto. }
  destruct (body_question req) as [| |b|n|q|items|props];
    try (destruct (Js.truthy _); eexists; (split; [reflexivity|]); auto; fail).
  destruct (JsString.isEmpty (JsString.trim q)).
  { eexists. split; [reflexivity|]. auto. }
  destruct (negb (JsMap.has (pdfCache s) (body_pdf_id req))).
  { destruct (Js.printable (body_pdf_id req));
      eexists; (split; [reflexivity|]); auto 6. }
  cbn zeta. destruct (mlApi env _) as [data|response message].
  - destruct (extractAnswer data); eexists; (split; [reflexivity|]); auto 6.
  - eexists. split; [reflexivity|]. auto 6.
Qed.

(** X1: whatever the request, the environment and the state, the server
    answers: no handler lets an exception escape, and the status is one of
    200, 400, 404 and 500. *)
Theorem every_request_is_answered (env : Env) (r : Request) (s : Server) :
  exists resp,
    fst (serve env r s) = Return resp /\
    (status resp = 200 \/ status resp = 400 \/ status resp = 404
     \/ status resp = 500).
Proof.
  destruct r as [part|req|]; cbn [serve].
  - unfold post_hackrx_upload. destruct part as [f|].
    + destruct (negb (fileFilter f)).
      { eexists. split; [reflexivity|]. auto 6. }
      destruct (fileSizeLimit <=? size f).
      { eexists. split; [reflexivity|]. auto. }
      unfold bind, Fs.store.
      destruct (hackrx_upload_responds env (Some f)
                  (mkServer (pdfCache s) ({[path f]} ∪ uploads s) (network s)
                            (warnings s))) as [resp [Hr Hs]].
      exists resp. split; [exact Hr|]. intuition.
    + destruct (hackrx_upload_responds env None s) as [resp [Hr Hs]].
      exists resp. split; [exact Hr|]. intuition.
  - apply hackrx_query_responds.
  - eexists. split; [reflexivity|]. auto.
Qed.

(** ** What a query does to the server *)

(** X2: a query never changes the cache or the upload directory, and it
    writes no [console.warn] line (the lines of [console.log] and
    [console.error] are not recorded).  It calls [axios.post] at most
    once, and only for an identifier that is in the cache and a question
    that is a string, not blank; the call is given the identifier and the
    trimmed question. *)
Theorem query_touches_nothing_but_the_log (env : Env) (req : QueryBody) (s : Server) :
  let s' := snd (hackrx_query env req s) in
  pdfCache s' = pdfCache s /\
  uploads s' = uploads s /\
  warnings s' = warnings s /\
  (network s' = network s \/
   exists q,
     body_question req = JStr q /\
     JsString.trim q <> EmptyString /\
     JsMap.has (pdfCache s) (body_pdf_id req) = true /\
     network s'
     = (network s
        ++ [(PostQuery (body_pdf_id req) (JsString.trim q),
             mlApi env (PostQuery (body_pdf_id req) (JsString.trim q)))])%list).
Proof.
  cbn zeta. rewrite hackrx_query_paths.
  destruct (negb (Js.truthy (body_pdf_id req))); [auto|].
  destruct (body_question req) as [| |b|n|q|items|props];
    try (destruct (Js.truthy _); auto; fail).
  destruct (JsString.isEmpty (JsString.trim q)) eqn:Hblank; [auto|].
  destruct (negb (JsMap.has (pdfCache s) (body_pdf_id req))) eqn:Hhas;
    [destruct (Js.printable (body_pdf_id req)); auto|].
  cbn zeta. cbn [snd logCall pdfCache uploads warnings network].
  split; [reflexivity|]. split; [reflexivity|]. split; [reflexivity|].
  right. exists q. split; [reflexivity|]. split.
  - intros Hq. rewrite Hq in Hblank. discriminate.
  - split; [|reflexivity]. apply negb_false_iff. exact Hhas.
Qed.

(** X3: asking the same question again under the same environment gives
    the same response: the first query leaves behind nothing that the
    second one reads. *)
Theorem repeated_query_same_response (env : Env) (req : QueryBody) (s : Server) :
  fst (hackrx_query env req (snd (hackrx_query env req s)))
  = fst (hackrx_query env req s).
Proof.
  destruct (hackrx_query_cache_step env req s) as [Hcache _].
  rewrite (hackrx_query_paths env req (snd (hackrx_query env req s))).
  rewrite Hcache. rewrite (hackrx_query_paths env req s).
  destruct (negb (Js.truthy (body_pdf_id req))); [reflexivity|].
  destruct (body_question req) as [| |b|n|q|items|props];
    try (destruct (Js.truthy _); reflexivity).
  destruct (JsString.isEmpty (JsString.trim q)); [reflexivity|].
  destruct (negb (JsMap.has (pdfCache s) (body_pdf_id req)));
    [destruct (Js.printable (body_pdf_id req))|]; reflexivity.
Qed.

(** ** What the normaliser can return *)

Lemma numberToString_nonempty (n : Z) : Js.numberToString n <> EmptyString.
Proof.
  unfold Js.numberToString, NilZero.string_of_int.
  destruct (Z.to_int n) as [d|d]; [|discriminate].
  destruct d; discriminate.
Qed.

Lemma serialized_truthy_or_empty (v : JsValue) :
  v <> JUndefined ->
  Js.truthy (serialized v) = true \/ v = JStr EmptyString.
Proof.
  intros Hv. unfold serialized.
  destruct v as [| |b|n|t|items|props]; cbn; try congruence; auto.
  - destruct b; auto.
  - left. pose proof (numberToString_nonempty n) as Hn.
    destruct (Js.numberToString n); [congruence | reflexivity].
  - destruct t; auto.
Qed.

(** X4: the normaliser fails exactly when the body is [null] or
    [undefined]; otherwise the answer it returns is truthy, except that an
    empty-string body is returned as it is.  So the answer put into a 200
    response is never [undefined], [null], [false] or [0]. *)
Theorem extracted_answer_is_never_nullish (mlResponse : JsValue) :
  ((exists e, extractAnswer mlResponse = Throw e) <->
   mlResponse = JNull \/ mlResponse = JUndefined) /\
  (forall a, extractAnswer mlResponse = Return a ->
     Js.truthy a = true \/
     (mlResponse = JStr EmptyString /\ a = JStr EmptyString)).
Proof.
  split.
  - split.
    + intros [e He].
      destruct (Js.getProp mlResponse "answer") as [answer|] eqn:Hget.
      * rewrite (extractAnswer_cases _ _ Hget) in He. discriminate.
      * destruct mlResponse; try discriminate; auto.
    + intros [-> | ->]; eexists; reflexivity.
  - intros a Ha.
    destruct (Js.getProp mlResponse "answer") as [answer|] eqn:Hget.
    2:{ unfold extractAnswer in Ha. rewrite Hget in Ha. discriminate. }
    rewrite (extractAnswer_cases _ _ Hget) in Ha.
    destruct (Js.truthy answer) eqn:Hanswer; cbn [andb] in Ha.
    + destruct (Js.truthy (Js.getPropOpt answer "answer")) eqn:Hnested;
        injection Ha as <-; auto.
    + destruct (Js.truthy (Js.getPropOpt mlResponse "response")) eqn:Hresp;
        injection Ha as <-; [auto|].
      destruct (serialized_truthy_or_empty mlResponse) as [Ht | ->]; auto.
      intros ->. discriminate.
Qed.

(** ** Queries against a cached identifier *)

(** X5: for an identifier in the cache and a question that is not blank,
    a failure of the ML call is answered 500.  The message is
    [ML API query failed: ] followed by the error reported in the
    service's response body when it has one, and by the transport message
    otherwise; when the reported error is a value that cannot be printed,
    the message is instead the TypeError of printing it, without the
    prefix.  A success is answered 200 with the normalised answer, or 500
    when the body is [null]. *)
Theorem query_outcome_is_forwarded
    (env : Env) (s : Server) (id : JsValue) (q : string) :
  Js.truthy id = true ->
  JsString.trim q <> EmptyString ->
  JsMap.has (pdfCache s) id = true ->
  let call := PostQuery id (JsString.trim q) in
  (forall response message,
     mlApi env call = Rejected response message ->
     fst (hackrx_query env (mkQueryBody id (JStr q)) s)
     = Return (respondError 500
                 (if Js.printable (reportedOrMessage (mkError response message))
                  then "ML API query failed: "
                       ++ Js.toString (reportedOrMessage (mkError response message))
                  else Js.cannotConvert))) /\
  (forall data answerText,
     mlApi env call = Fulfilled data ->
     extractAnswer data = Return answerText ->
     fst (hackrx_query env (mkQueryBody id (JStr q)) s)
     = Return (mkResponse 200 (JObj [("answer", JObj [("answer", answerText)])]))) /\
  (forall data,
     mlApi env call = Fulfilled data ->
     Js.getProp data "answer" = None ->
     fst (hackrx_query env (mkQueryBody id (JStr q)) s)
     = Return (respondError 500 (Js.typeErrorRead data "answer"))).
Proof.
  intros Hid Hq Hhas call.
  assert (Hpath : forall r,
    mlApi env call = r ->
    fst (hackrx_query env (mkQueryBody id (JStr q)) s)
    = Return match r with
             | Rejected response message =>
                 respondError 500
                   (forwarded "ML API query failed: " response message)
             | Fulfilled data =>
                 match extractAnswer data with
                 | Return answerText =>
                     mkResponse 200
                       (JObj [("answer", JObj [("answer", answerText)])])
                 | Throw e => respondError 500 (errMessage e)
                 end
             end).
  { intros r Hr. rewrite hackrx_query_paths.
    cbn [body_pdf_id body_question]. rewrite Hid, Hhas.
    rewrite (nonempty_not_isEmpty _ Hq). cbn [negb]. cbn zeta. fold call.
    rewrite Hr. reflexivity. }
  split; [|split].
  - intros response message Hml. exact (Hpath _ Hml).
  - intros data answerText Hml Hans. rewrite (Hpath _ Hml), Hans. reflexivity.
  - intros data Hml Hnull. rewrite (Hpath _ Hml).
    unfold extractAnswer. rewrite Hnull. reflexivity.
Qed.

Lemma query_outcome_is_forwarded_witness :
  fst (hackrx_query Sample.env
         (mkQueryBody (JStr "abc123") (JStr " What is covered? "))
         Sample.afterPolicy)
  = Return (mkResponse 200
              (JObj [("answer", JObj [("answer", JStr "Coverage X")])])).
Proof.
  exact (proj1 (proj2 (query_outcome_is_forwarded Sample.env Sample.afterPolicy
           (JStr "abc123") " What is covered? " eq_refl
           ltac:(vm_compute; discriminate) eq_refl))
         _ _ eq_refl eq_refl).
Defined.

(** X6: a question that is present but is not a string (a number, an
    array or an object of a JSON or nested form body) is not refused as
    invalid: calling [trim] on it throws, and the query is answered 500
    with that TypeError's text, without any call and without a look at the
    cache. *)
Theorem non_string_question_is_a_server_error
    (env : Env) (req : QueryBody) (s : Server) :
  Js.truthy (body_pdf_id req) = true ->
  Js.truthy (body_question req) = true ->
  Js.typeofString (body_question req) = false ->
  hackrx_query env req s
  = (Return (respondError 500 "question.trim is not a function"), s).
Proof.
  intros Hid Hq Hnot. rewrite hackrx_query_paths, Hid. cbn [negb].
  destruct (body_question req) as [| |b|n|q|items|props];
    try discriminate; rewrite ?Hq; reflexivity.
Qed.

Lemma non_string_question_is_a_server_error_witness :
  hackrx_query Sample.env (mkQueryBody (JStr "abc123") (JNum 42))
    Sample.afterPolicy
  = (Return (respondError 500 "question.trim is not a function"),
     Sample.afterPolicy).
Proof.
  apply (non_string_question_is_a_server_error Sample.env
           (mkQueryBody (JStr "abc123") (JNum 42)) Sample.afterPolicy);
    reflexivity.
Defined.

(** ** Uploads and the cache *)

Lemma length_set_absent {V : Type} (m : list (JsValue * V)) (k : JsValue) (v : V) :
  JsMap.has m k = false -> length (JsMap.set m k v) = S (length m).
Proof.
  unfold JsMap.has. induction m as [|[k0 v0] rest IH]; simpl; [reflexivity|].
  destruct (JsMap.sameValueZero k0 k); simpl; [discriminate|].
  intros H. rewrite IH; [reflexivity | exact H].
Qed.

Lemma not_primitive_matches_nothing (id k : JsValue) :
  JsMap.isPrimitive id = false -> JsMap.sameValueZero id k = false.
Proof. destruct id; try discriminate; reflexivity. Qed.

(** The state of a successful upload. *)
Lemma hackrx_upload_success (env : Env) (f : MulterFile) (s : Server)
    (data id : JsValue) :
  notPdf f = false ->
  JsString.isEmpty (path f) = false ->
  mlApi env (PostUpload (path f) (originalname f)) = Fulfilled data ->
  Js.getProp data "pdf_id" = Some id ->
  Js.truthy id = true ->
  Js.printable id = true ->
  fst (hackrx_upload env (Some f) s)
  = Return (mkResponse 200
              (JObj [("pdf_id", id); ("message", JStr uploadedMessage)])) /\
  pdfCache (snd (hackrx_upload env (Some f) s))
  = JsMap.set (pdfCache s) id
      (mkCacheEntry (fileInfoOf f) (clock env) data (originalname f)).
Proof.
  intros Hpdf Hpath Hml Hid Htruthy Hprint.
  rewrite (hackrx_upload_indexing _ _ _ Hpdf Hpath). cbn zeta.
  rewrite Hml, Hid, Htruthy, Hprint. cbn [fst snd].
  rewrite (proj1 (cleanupUploaded_keeps _ _ _)). split; reflexivity.
Qed.

(** X7: a successful upload under an identifier that is a primitive value
    and was not cached adds exactly one record; a lookup of the identifier
    then returns the record built from this upload, the records under
    other identifiers are untouched, and the response carries the
    identifier the service returned. *)
Theorem first_upload_adds_one_record
    (env : Env) (f : MulterFile) (s : Server) (data id : JsValue) :
  notPdf f = false ->
  JsString.isEmpty (path f) = false ->
  mlApi env (PostUpload (path f) (originalname f)) = Fulfilled data ->
  Js.getProp data "pdf_id" = Some id ->
  Js.truthy id = true ->
  JsMap.isPrimitive id = true ->
  JsMap.has (pdfCache s) id = false ->
  let s' := snd (hackrx_upload env (Some f) s) in
  fst (hackrx_upload env (Some f) s)
  = Return (mkResponse 200
              (JObj [("pdf_id", id); ("message", JStr uploadedMessage)])) /\
  JsMap.get (pdfCache s') id
  = Some (mkCacheEntry (fileInfoOf f) (clock env) data (originalname f)) /\
  length (pdfCache s') = S (length (pdfCache s)) /\
  (forall k, JsMap.sameValueZero id k = false ->
             JsMap.get (pdfCache s') k = JsMap.get (pdfCache s) k).
Proof.
  intros Hpdf Hpath Hml Hid Htruthy Hprim Hfresh s'. subst s'.
  destruct (hackrx_upload_success env f s data id Hpdf Hpath Hml Hid Htruthy
              (primitive_printable _ Hprim))
    as [Hresp Hcache].
  rewrite Hresp, Hcache. split; [reflexivity|]. split; [|split].
  - apply get_set_same. apply sameValueZero_refl. exact Hprim.
  - apply length_set_absent. exact Hfresh.
  - intros k Hk. apply get_set_other. exact Hk.
Qed.

Lemma first_upload_adds_one_record_witness :
  JsMap.get
    (pdfCache (snd (hackrx_upload Sample.env (Some Sample.policy) initialServer)))
    (JStr "abc123")
  = Some (mkCacheEntry (fileInfoOf Sample.policy) (clock Sample.env)
            (JObj [("pdf_id", JStr "abc123")]) "policy.pdf").
Proof.
  exact (proj1 (proj2 (first_upload_adds_one_record Sample.env Sample.policy
           initialServer (JObj [("pdf_id", JStr "abc123")]) (JStr "abc123")
           eq_refl eq_refl eq_refl eq_refl eq_refl eq_refl eq_refl))).
Defined.

(** X8: once an upload has succeeded under an identifier that is a string
    or a number, a query with that identifier and a question that is not
    blank is never refused as invalid or unknown: the handler makes the
    query call with the identifier and the trimmed question, and answers
    200 or 500. *)
Theorem indexed_document_is_queryable
    (env env' : Env) (f : MulterFile) (s : Server) (data id : JsValue)
    (q : string) :
  notPdf f = false ->
  JsString.isEmpty (path f) = false ->
  mlApi env (PostUpload (path f) (originalname f)) = Fulfilled data ->
  Js.getProp data "pdf_id" = Some id ->
  Js.truthy id = true ->
  writable id = true ->
  JsString.trim q <> EmptyString ->
  let s1 := snd (hackrx_upload env (Some f) s) in
  let call := PostQuery id (JsString.trim q) in
  exists resp,
    hackrx_query env' (mkQueryBody id (JStr q)) s1
    = (Return resp, logCall call (mlApi env' call) s1) /\
    (status resp = 200 \/ status resp = 500).
Proof.
  intros Hpdf Hpath Hml Hid Htruthy Hwrite Hq s1 call.
  assert (Hprim : JsMap.isPrimitive id = true)
    by (destruct id; try discriminate Hwrite; reflexivity).
  assert (Hhas : JsMap.has (pdfCache s1) id = true).
  { subst s1.
    rewrite (proj2 (hackrx_upload_success env f s data id Hpdf Hpath Hml Hid
                      Htruthy (primitive_printable _ Hprim))).
    rewrite has_set, (sameValueZero_refl _ Hprim). apply orb_true_r. }
  rewrite hackrx_query_paths. cbn [body_pdf_id body_question].
  rewrite Htruthy, Hhas, (nonempty_not_isEmpty _ Hq). cbn [negb]. cbn zeta.
  fold call. eexists. split; [reflexivity|].
  destruct (mlApi env' call) as [answer|response message]; [|auto].
  destruct (extractAnswer answer); auto.
Qed.

Lemma indexed_document_is_queryable_witness :
  exists resp,
    hackrx_query Sample.env (mkQueryBody (JStr "abc123") (JStr "What is covered?"))
      (snd (hackrx_upload Sample.env (Some Sample.policy) initialServer))
    = (Return resp,
       logCall (PostQuery (JStr "abc123") "What is covered?") Sample.coverage
         (snd (hackrx_upload Sample.env (Some Sample.policy) initialServer))) /\
    (status resp = 200 \/ status resp = 500).
Proof.
  exact (indexed_document_is_queryable Sample.env Sample.env Sample.policy
           initialServer (JObj [("pdf_id", JStr "abc123")]) (JStr "abc123")
           "What is covered?" eq_refl eq_refl eq_refl eq_refl eq_refl eq_refl
           ltac:(vm_compute; discriminate)).
Defined.

(** X9: when the service returns an identifier that is an array or an
    object, no later request can find a record of the upload: for every
    key, a lookup answers after the upload what it answered before.  When
    the identifier can be printed, the upload is still answered 200 with
    it and one record is stored, under a key that no request can present.
    When it cannot (an object with a property [toString], or an array
    holding one), the log line that prints it throws: the upload is
    answered 500 with that TypeError's text and nothing is stored. *)
Theorem object_identifier_is_never_found
    (env : Env) (f : MulterFile) (s : Server) (data id : JsValue) :
  notPdf f = false ->
  JsString.isEmpty (path f) = false ->
  mlApi env (PostUpload (path f) (originalname f)) = Fulfilled data ->
  Js.getProp data "pdf_id" = Some id ->
  JsMap.isPrimitive id = false ->
  let s' := snd (hackrx_upload env (Some f) s) in
  (forall k, JsMap.get (pdfCache s') k = JsMap.get (pdfCache s) k) /\
  (Js.printable id = true ->
   fst (hackrx_upload env (Some f) s)
   = Return (mkResponse 200
               (JObj [("pdf_id", id); ("message", JStr uploadedMessage)])) /\
   length (pdfCache s') = S (length (pdfCache s))) /\
  (Js.printable id = false ->
   fst (hackrx_upload env (Some f) s)
   = Return (respondError 500 Js.cannotConvert) /\
   pdfCache s' = pdfCache s).
Proof.
  intros Hpdf Hpath Hml Hid Hprim s'. subst s'.
  assert (Htruthy : Js.truthy id = true) by (destruct id; try discriminate; reflexivity).
  assert (Hstopped : Js.printable id = false ->
    fst (hackrx_upload env (Some f) s)
    = Return (respondError 500 Js.cannotConvert) /\
    pdfCache (snd (hackrx_upload env (Some f) s)) = pdfCache s).
  { intros Hprint. rewrite (hackrx_upload_indexing _ _ _ Hpdf Hpath). cbn zeta.
    rewrite Hml, Hid, Htruthy, Hprint. cbn [fst snd].
    rewrite (proj1 (cleanupAfterError_keeps _ _ _)). split; reflexivity. }
  assert (Hstored : Js.printable id = true ->
    fst (hackrx_upload env (Some f) s)
    = Return (mkResponse 200
                (JObj [("pdf_id", id); ("message", JStr uploadedMessage)])) /\
    length (pdfCache (snd (hackrx_upload env (Some f) s)))
    = S (length (pdfCache s)) /\
    forall k, JsMap.get (pdfCache (snd (hackrx_upload env (Some f) s))) k
              = JsMap.get (pdfCache s) k).
  { intros Hprint.
    destruct (hackrx_upload_success env f s data id Hpdf Hpath Hml Hid Htruthy
                Hprint) as [Hresp Hcache].
    rewrite Hresp, Hcache. split; [reflexivity|]. split.
    - apply length_set_absent. unfold JsMap.has.
      destruct (JsMap.get (pdfCache s) id) eqn:Hget; [|reflexivity].
      assert (Hh : JsMap.has (pdfCache s) id = true)
        by (unfold JsMap.has; rewrite Hget; reflexivity).
      apply has_reflexive in Hh.
      rewrite (not_primitive_matches_nothing _ _ Hprim) in Hh. discriminate.
    - intros k. apply get_set_other. apply not_primitive_matches_nothing.
      exact Hprim. }
  split; [|split].
  - intros k. destruct (Js.printable id) eqn:Hprint.
    + apply (proj2 (proj2 (Hstored eq_refl))).
    + rewrite (proj2 (Hstopped eq_refl)). reflexivity.
  - intros Hprint. destruct (Hstored Hprint) as [Hresp [Hlen _]].
    split; [exact Hresp | exact Hlen].
  - exact Hstopped.
Qed.

Lemma object_identifier_is_never_found_witness :
  JsMap.get
    (pdfCache (snd (hackrx_upload
       (Sample.stubEnv (Fulfilled (JObj [("pdf_id", JObj [("id", JNum 7)])]))
                       Sample.coverage)
       (Some Sample.policy) initialServer))) (JObj [("id", JNum 7)])
  = JsMap.get (pdfCache initialServer) (JObj [("id", JNum 7)]).
Proof.
  exact (proj1 (object_identifier_is_never_found
           (Sample.stubEnv (Fulfilled (JObj [("pdf_id", JObj [("id", JNum 7)])]))
                           Sample.coverage)
           Sample.policy initialServer
           (JObj [("pdf_id", JObj [("id", JNum 7)])]) (JObj [("id", JNum 7)])
           eq_refl eq_refl eq_refl eq_refl eq_refl) (JObj [("id", JNum 7)])).
Defined.

(** The service answers with the identifier [{toString: 1}]: the upload is
    answered 500 and the cache stays empty. *)
Example unprintable_identifier_example :
  let env := Sample.stubEnv
               (Fulfilled (JObj [("pdf_id", JObj [("toString", JNum 1)])]))
               Sample.coverage in
  fst (hackrx_upload env (Some Sample.policy) initialServer)
  = Return (respondError 500 "Cannot convert object to primitive value") /\
  pdfCache (snd (hackrx_upload env (Some Sample.policy) initialServer)) = [].
Proof. split; reflexivity. Qed.

(** X10: no request removes a record: an identifier that is in the cache
    is still in it after any sequence of requests, from any state. *)
Theorem cache_entries_are_never_removed
    (reqs : list (Env * Request)) (s : Server) (k : JsValue) :
  JsMap.has (pdfCache s) k = true ->
  JsMap.has (pdfCache (run reqs s)) k = true.
Proof.
  revert s. induction reqs as [|[env r] rest IH]; intros s Hk; [exact Hk|].
  cbn [run]. apply IH.
  destruct (serve_cache_step env r s) as [new [_ Hstep]].
  rewrite Hstep, Hk. reflexivity.
Qed.

Lemma cache_entries_are_never_removed_witness :
  JsMap.has
    (pdfCache (run [(Sample.env, Query (mkQueryBody (JStr "abc123") (JStr "Q")));
                    (Sample.env, Upload (Some Sample.photo))]
                   Sample.afterPolicy))
    (JStr "abc123") = true.
Proof.
  apply (cache_entries_are_never_removed
           [(Sample.env, Query (mkQueryBody (JStr "abc123") (JStr "Q")));
            (Sample.env, Upload (Some Sample.photo))]
           Sample.afterPolicy (JStr "abc123")).
  reflexivity.
Defined.

(** * The upload filter and file names *)

Section NameFacts.

Local Open Scope Z_scope.

Lemma chars_app (a b : string) :
  list_ascii_of_string (a ++ b)
  = (list_ascii_of_string a ++ list_ascii_of_string b)%list.
Proof. induction a as [|c a IH]; simpl; [reflexivity | rewrite IH; reflexivity]. Qed.

Lemma chars_length (a : string) :
  length (list_ascii_of_string a) = String.length a.
Proof. induction a as [|c a IH]; simpl; [reflexivity | rewrite IH; reflexivity]. Qed.

Lemma string_length_app (a b : string) :
  String.length (a ++ b) = (String.length a + String.length b)%nat.
Proof. induction a as [|c a IH]; simpl; [reflexivity | rewrite IH; reflexivity]. Qed.

Lemma substring_whole (b : string) : String.substring 0 (String.length b) b = b.
Proof. induction b as [|c b IH]; simpl; [reflexivity | rewrite IH; reflexivity]. Qed.

Lemma substring_app (a b : string) :
  String.substring (String.length a) (String.length b) (a ++ b) = b.
Proof. induction a as [|c a IH]; simpl; [apply substring_whole | exact IH]. Qed.

Lemma startsWith_nil (s : string) : JsString.startsWith s EmptyString = true.
Proof. destruct s; reflexivity. Qed.

(** No occurrence of a one-character string. *)
Lemma includes_char_false (c : ascii) (s : string) :
  JsString.includes s (String c EmptyString) = false ->
  Forall (fun x => x <> c) (list_ascii_of_string s).
Proof.
  induction s as [|x s IH]; simpl; intros H; [constructor|].
  apply orb_false_iff in H. destruct H as [Hx Hs].
  constructor; [|apply IH; exact Hs].
  intros ->. rewrite Ascii.eqb_refl, startsWith_nil in Hx. discriminate.
Qed.

Lemma scanLoop_app (l1 l2 : list ascii) (i : Z) (st : Path.Scan) :
  Path.scanLoop (l1 ++ l2) i st
  = Path.scanLoop l2 (i - Z.of_nat (length l1)) (Path.scanLoop l1 i st).
Proof.
  revert i st. induction l1 as [|c l1 IH]; intros i st.
  - simpl. rewrite Z.sub_0_r. reflexivity.
  - cbn [app Path.scanLoop length]. rewrite IH. f_equal. lia.
Qed.

Lemma neq_eqb_false (a b : ascii) : a <> b -> Ascii.eqb a b = false.
Proof. intros H. apply Ascii.eqb_neq. exact H. Qed.

(** Before any dot has been met, a character that is not a dot leaves
    [startDot] unset. *)
Lemma scanStep_keeps_no_dot (st : Path.Scan) (i : Z) (c : ascii) :
  c <> "."%char -> Path.startDot st = -1 ->
  Path.startDot (Path.scanStep st i c) = -1.
Proof.
  intros Hc Hst. unfold Path.scanStep.
  destruct (Path.stopped st); [exact Hst|].
  destruct (Ascii.eqb c "/"); [destruct (negb (Path.matchedSlash st)); exact Hst|].
  rewrite (neq_eqb_false _ _ Hc).
  destruct (Path.endIdx st =? -1); cbn [Path.startDot]; rewrite Hst; simpl;
    rewrite ?Hst; reflexivity.
Qed.

Lemma scanLoop_keeps_no_dot (chars : list ascii) (i : Z) (st : Path.Scan) :
  Forall (fun x => x <> "."%char) chars -> Path.startDot st = -1 ->
  Path.startDot (Path.scanLoop chars i st) = -1.
Proof.
  revert i st. induction chars as [|c chars IH]; intros i st Hall Hst;
    [exact Hst|].
  inversion Hall as [|? ? Hc Hrest]; subst. cbn [Path.scanLoop].
  apply IH; [exact Hrest|]. apply scanStep_keeps_no_dot; assumption.
Qed.

Lemma extname_without_dot (name : string) :
  JsString.includes name "." = false -> Path.extname name = EmptyString.
Proof.
  intros Hno. unfold Path.extname.
  rewrite scanLoop_keeps_no_dot; [reflexivity| |reflexivity].
  apply Forall_rev. apply includes_char_false. exact Hno.
Qed.

(** X11: a file whose name contains no dot is refused by multer's filter
    whatever its declared type: the request is answered 500 with
    [Invalid file type], nothing is staged and no call is made. *)
Theorem undotted_name_is_refused (env : Env) (f : MulterFile) (s : Server) :
  JsString.includes (originalname f) "." = false ->
  post_hackrx_upload env (Some f) s
  = (Return (respondError 500 "Invalid file type"), s).
Proof.
  intros Hno. unfold post_hackrx_upload, fileFilter.
  rewrite (extname_without_dot _ Hno).
  replace (allowedTypes_test (JsString.toLowerCase EmptyString)) with false
    by reflexivity.
  rewrite andb_false_r. reflexivity.
Qed.

Lemma undotted_name_is_refused_witness :
  post_hackrx_upload Sample.env
    (Some (mkMulterFile "README" "application/pdf" 2048 "file-1" "uploads/file-1"))
    initialServer
  = (Return (respondError 500 "Invalid file type"), initialServer).
Proof.
  apply (undotted_name_is_refused Sample.env
           (mkMulterFile "README" "application/pdf" 2048 "file-1" "uploads/file-1")
           initialServer).
  reflexivity.
Defined.

End NameFacts.

Section ExtensionFacts.

Local Open Scope Z_scope.

Lemma scan_ext_first (i : Z) (c : ascii) :
  c <> "."%char -> c <> "/"%char ->
  Path.scanStep Path.scanInit i c = Path.mkScan (-1) 0 (i + 1) false 0 false.
Proof.
  intros Hdot Hslash. unfold Path.scanStep, Path.scanInit. cbn.
  rewrite (neq_eqb_false _ _ Hdot), (neq_eqb_false _ _ Hslash). reflexivity.
Qed.

Lemma scan_ext_more (e j : Z) (c : ascii) :
  e <> -1 -> c <> "."%char -> c <> "/"%char ->
  Path.scanStep (Path.mkScan (-1) 0 e false 0 false) j c
  = Path.mkScan (-1) 0 e false 0 false.
Proof.
  intros He Hdot Hslash. unfold Path.scanStep. cbn.
  rewrite (neq_eqb_false _ _ Hdot), (neq_eqb_false _ _ Hslash).
  apply Z.eqb_neq in He. rewrite He. reflexivity.
Qed.

Lemma scan_ext_rest (chars : list ascii) (e j : Z) :
  e <> -1 ->
  Forall (fun x => x <> "."%char /\ x <> "/"%char) chars ->
  Path.scanLoop chars j (Path.mkScan (-1) 0 e false 0 false)
  = Path.mkScan (-1) 0 e false 0 false.
Proof.
  intros He. revert j. induction chars as [|c chars IH]; intros j Hall;
    [reflexivity|].
  inversion Hall as [|? ? [Hdot Hslash] Hrest]; subst. cbn [Path.scanLoop].
  rewrite (scan_ext_more e j c He Hdot Hslash). apply IH. exact Hrest.
Qed.

Lemma scan_ext (chars : list ascii) (i : Z) :
  chars <> [] -> 0 <= i ->
  Forall (fun x => x <> "."%char /\ x <> "/"%char) chars ->
  Path.scanLoop chars i Path.scanInit = Path.mkScan (-1) 0 (i + 1) false 0 false.
Proof.
  intros Hne Hi Hall. destruct chars as [|c chars]; [congruence|].
  inversion Hall as [|? ? [Hdot Hslash] Hrest]; subst. cbn [Path.scanLoop].
  rewrite (scan_ext_first i c Hdot Hslash).
  apply scan_ext_rest; [lia | exact Hrest].
Qed.

Lemma scan_dot (e d : Z) :
  e <> -1 ->
  Path.scanStep (Path.mkScan (-1) 0 e false 0 false) d "."%char
  = Path.mkScan d 0 e false 0 false.
Proof.
  intros He. unfold Path.scanStep. cbn.
  apply Z.eqb_neq in He. rewrite He. reflexivity.
Qed.

Lemma scan_base_step (d e p j : Z) (c : ascii) :
  d <> -1 -> e <> -1 -> c <> "/"%char ->
  exists p',
    Path.scanStep (Path.mkScan d 0 e false p false) j c
    = Path.mkScan d 0 e false p' false /\ (p' = 1 \/ p' = -1).
Proof.
  intros Hd He Hslash. unfold Path.scanStep. cbn.
  rewrite (neq_eqb_false _ _ Hslash).
  apply Z.eqb_neq in Hd, He. rewrite He. cbn. rewrite Hd. cbn.
  destruct (Ascii.eqb c "."); [|eexists; split; [reflexivity | auto]].
  destruct (p =? 1) eqn:Hp; cbn.
  - apply Z.eqb_eq in Hp. subst p. eexists. split; [reflexivity | auto].
  - eexists. split; [reflexivity | auto].
Qed.

Lemma scan_base (chars : list ascii) (d e : Z) :
  d <> -1 -> e <> -1 -> Forall (fun x => x <> "/"%char) chars ->
  forall (j p : Z),
    chars <> [] \/ p = 1 \/ p = -1 ->
    exists p',
      Path.scanLoop chars j (Path.mkScan d 0 e false p false)
      = Path.mkScan d 0 e false p' false /\ (p' = 1 \/ p' = -1).
Proof.
  intros Hd He. induction chars as [|c chars IH]; intros Hall j p Hp.
  - destruct Hp as [Hne|Hp]; [congruence|]. exists p. split; [reflexivity | exact Hp].
  - inversion Hall as [|? ? Hslash Hrest]; subst. cbn [Path.scanLoop].
    destruct (scan_base_step d e p j c Hd He Hslash) as [p1 [Hstep Hp1]].
    rewrite Hstep. apply IH; [exact Hrest | right; exact Hp1].
Qed.

Lemma rev_not_nil {A : Type} (l : list A) : l <> [] -> List.rev l <> [].
Proof.
  destruct l as [|a l]; [congruence|]. intros _ H.
  apply (f_equal (@length A)) in H. rewrite length_rev in H. discriminate.
Qed.

Lemma chars_not_nil (a : string) : a <> EmptyString -> list_ascii_of_string a <> [].
Proof. destruct a; [congruence | discriminate]. Qed.

Lemma Forall_and_both {A : Type} (P Q : A -> Prop) (l : list A) :
  Forall P l -> Forall Q l -> Forall (fun x => P x /\ Q x) l.
Proof.
  induction l as [|a l IH]; intros HP HQ; [constructor|].
  inversion HP; inversion HQ; subst. constructor; [split; assumption | auto].
Qed.

Lemma scan_name (base ext : string) :
  base <> EmptyString -> JsString.includes base "/" = false ->
  ext <> EmptyString ->
  JsString.includes ext "." = false -> JsString.includes ext "/" = false ->
  exists p',
    Path.scanLoop (List.rev (list_ascii_of_string (base ++ String "." ext)))
      (Z.of_nat (String.length (base ++ String "." ext)) - 1) Path.scanInit
    = Path.mkScan (Z.of_nat (String.length base)) 0
        (Z.of_nat (String.length base + S (String.length ext))) false p' false
    /\ (p' = 1 \/ p' = -1).
Proof.
  intros Hbase Hbslash Hext Hedot Heslash.
  rewrite chars_app. cbn [list_ascii_of_string]. rewrite rev_app_distr.
  cbn [List.rev]. rewrite !scanLoop_app.
  rewrite scan_ext.
  2:{ apply rev_not_nil, chars_not_nil. exact Hext. }
  2:{ rewrite string_length_app. cbn [String.length]. lia. }
  2:{ apply Forall_rev. apply Forall_and_both; apply includes_char_false; assumption. }
  cbn [Path.scanLoop]. rewrite scan_dot by lia.
  match goal with
  | |- context [Path.scanLoop ?l ?j (Path.mkScan ?d 0 ?e false 0 false)] =>
      assert (Hsb : exists p',
                Path.scanLoop l j (Path.mkScan d 0 e false 0 false)
                = Path.mkScan d 0 e false p' false /\ (p' = 1 \/ p' = -1));
        [apply scan_base | destruct Hsb as [p' [Hscan Hp']]]
  end.
  - rewrite length_rev, chars_length, string_length_app. cbn [String.length]. lia.
  - rewrite string_length_app. cbn [String.length]. lia.
  - apply Forall_rev. apply includes_char_false. exact Hbslash.
  - left. apply rev_not_nil, chars_not_nil. exact Hbase.
  - exists p'. split; [|exact Hp']. rewrite Hscan. f_equal.
    + rewrite length_rev, chars_length, string_length_app. cbn [String.length]. lia.
    + rewrite string_length_app. cbn [String.length]. lia.
Qed.

(** [path.extname] of [base.ext]. *)
Lemma extname_base_ext (base ext : string) :
  base <> EmptyString -> JsString.includes base "/" = false ->
  ext <> EmptyString ->
  JsString.includes ext "." = false -> JsString.includes ext "/" = false ->
  Path.extname (base ++ String "." ext) = String "." ext.
Proof.
  intros Hbase Hbslash Hext Hedot Heslash. unfold Path.extname.
  destruct (scan_name base ext Hbase Hbslash Hext Hedot Heslash)
    as [p' [Hscan Hp']].
  rewrite Hscan.
  cbn [Path.startDot Path.endIdx Path.preDotState Path.startPart].
  assert (Hle : (0 < String.length ext)%nat)
    by (destruct ext; [congruence | simpl; lia]).
  replace (Z.of_nat (String.length base) =? -1) with false
    by (symmetry; apply Z.eqb_neq; lia).
  replace (Z.of_nat (String.length base + S (String.length ext)) =? -1) with false
    by (symmetry; apply Z.eqb_neq; lia).
  replace (p' =? 0) with false by (symmetry; apply Z.eqb_neq; lia).
  replace (Z.of_nat (String.length base)
           =? Z.of_nat (String.length base + S (String.length ext)) - 1)
    with false by (symmetry; apply Z.eqb_neq; lia).
  rewrite andb_false_r. cbn [orb andb].
  rewrite Nat2Z.id.
  replace (Z.to_nat (Z.of_nat (String.length base + S (String.length ext))
                     - Z.of_nat (String.length base)))
    with (String.length (String "." ext)) by (cbn [String.length]; lia).
  apply (substring_app base (String "." ext)).
Qed.

End ExtensionFacts.

Section PdfNames.

Lemma toLowerCase_app (a b : string) :
  JsString.toLowerCase (a ++ b)
  = JsString.toLowerCase a ++ JsString.toLowerCase b.
Proof. induction a as [|c a IH]; simpl; [reflexivity | rewrite IH; reflexivity]. Qed.

Lemma rev_onto_app (a b acc : string) :
  JsString.rev_onto (a ++ b) acc = JsString.rev_onto b (JsString.rev_onto a acc).
Proof. revert acc. induction a as [|c a IH]; intros acc; simpl; [reflexivity | apply IH]. Qed.

Lemma string_app_assoc (a b c : string) : (a ++ b) ++ c = a ++ (b ++ c).
Proof.
  induction a as [|x a IH]; [reflexivity|].
  change ((String x a ++ b) ++ c) with (String x ((a ++ b) ++ c)).
  change (String x a ++ (b ++ c)) with (String x (a ++ (b ++ c))).
  rewrite IH. reflexivity.
Qed.

Lemma rev_onto_acc (p acc : string) :
  JsString.rev_onto p acc = JsString.rev_onto p EmptyString ++ acc.
Proof.
  revert acc. induction p as [|c p IH]; intros acc; simpl; [reflexivity|].
  rewrite (IH (String c acc)), (IH (String c EmptyString)).
  rewrite string_app_assoc. reflexivity.
Qed.

Lemma startsWith_prefix (p z : string) : JsString.startsWith (p ++ z) p = true.
Proof.
  induction p as [|c p IH]; simpl; [apply startsWith_nil|].
  rewrite Ascii.eqb_refl, IH. reflexivity.
Qed.

Lemma endsWith_suffix (x p : string) : JsString.endsWith (x ++ p) p = true.
Proof.
  unfold JsString.endsWith, JsString.rev.
  rewrite rev_onto_app, rev_onto_acc. apply startsWith_prefix.
Qed.

Lemma spelled_pdf (ext : string) :
  JsString.toLowerCase ext = "pdf" ->
  ext <> EmptyString /\
  JsString.includes ext "." = false /\ JsString.includes ext "/" = false.
Proof.
  destruct ext as [|a [|b [|c [|d rest]]]]; intros H;
    cbn [JsString.toLowerCase] in H; try discriminate H.
  injection H as Ha Hb Hc.
  assert (Hsep : forall x y : ascii,
            JsString.lowerChar x = y -> JsString.lowerChar "." <> y ->
            JsString.lowerChar "/" <> y ->
            Ascii.eqb "." x = false /\ Ascii.eqb "/" x = false).
  { intros x y Hx Hdot Hslash. split; apply Ascii.eqb_neq; intros <-; congruence. }
  destruct (Hsep a _ Ha) as [Ha1 Ha2]; [discriminate | discriminate|].
  destruct (Hsep b _ Hb) as [Hb1 Hb2]; [discriminate | discriminate|].
  destruct (Hsep c _ Hc) as [Hc1 Hc2]; [discriminate | discriminate|].
  cbn [JsString.includes JsString.startsWith].
  rewrite Ha1, Ha2, Hb1, Hb2, Hc1, Hc2.
  split; [discriminate|]. split; reflexivity.
Qed.

Lemma hackrx_upload_calls_once (env : Env) (f : MulterFile) (s : Server) :
  notPdf f = false ->
  JsString.isEmpty (path f) = false ->
  network (snd (hackrx_upload env (Some f) s))
  = (network s
     ++ [(PostUpload (path f) (originalname f),
          mlApi env (PostUpload (path f) (originalname f)))])%list.
Proof.
  intros Hpdf Hpath.
  rewrite (hackrx_upload_indexing _ _ _ Hpdf Hpath). cbn zeta.
  destruct (mlApi env (PostUpload (path f) (originalname f)))
    as [data|response message].
  - destruct (Js.getProp data "pdf_id") as [id|].
    + destruct (Js.truthy id); [destruct (Js.printable id)|]; cbn [snd].
      * rewrite (proj2 (cleanupUploaded_keeps _ _ _)). reflexivity.
      * rewrite (proj2 (cleanupAfterError_keeps _ _ _)). reflexivity.
      * rewrite (proj2 (cleanupAfterError_keeps _ _ _)). reflexivity.
    + cbn [snd]. rewrite (proj2 (cleanupAfterError_keeps _ _ _)). reflexivity.
  - cbn [snd]. rewrite (proj2 (cleanupAfterError_keeps _ _ _)). reflexivity.
Qed.

(** X12: a file named [base.pdf], with [pdf] in any letter case and a
    non-empty [base] without a slash, whose declared type passes the
    filter's type test and whose size is below the limit of 10485760
    bytes, gets through multer's filter and the handler's test whatever
    that declared type is: the request makes exactly the indexing call for
    it. *)
Theorem pdf_named_file_reaches_indexing
    (env : Env) (f : MulterFile) (s : Server) (base ext : string) :
  originalname f = base ++ String "." ext ->
  base <> EmptyString ->
  JsString.includes base "/" = false ->
  JsString.toLowerCase ext = "pdf" ->
  allowedTypes_test (mimetype f) || String.eqb (mimetype f) "text/plain" = true ->
  (size f < fileSizeLimit)%Z ->
  JsString.isEmpty (path f) = false ->
  fileFilter f = true /\
  network (snd (post_hackrx_upload env (Some f) s))
  = (network s
     ++ [(PostUpload (path f) (originalname f),
          mlApi env (PostUpload (path f) (originalname f)))])%list.
Proof.
  intros Hname Hbase Hslash Hext Hmime Hsize Hpath.
  destruct (spelled_pdf ext Hext) as [Hne [Hdot Hsl]].
  assert (Hfilter : fileFilter f = true).
  { unfold fileFilter. rewrite Hmime, Hname.
    rewrite (extname_base_ext base ext Hbase Hslash Hne Hdot Hsl).
    cbn [JsString.toLowerCase]. rewrite Hext. reflexivity. }
  assert (Hpdf : notPdf f = false).
  { unfold notPdf. rewrite Hname.
    change (base ++ String "." ext) with (base ++ (String "." ext)).
    rewrite toLowerCase_app. cbn [JsString.toLowerCase]. rewrite Hext.
    change (String (JsString.lowerChar ".") "pdf") with ".pdf".
    rewrite endsWith_suffix. apply andb_false_r. }
  split; [exact Hfilter|].
  unfold post_hackrx_upload. rewrite Hfilter. cbn [negb].
  replace (fileSizeLimit <=? size f)%Z with false
    by (symmetry; apply Z.leb_gt; exact Hsize).
  unfold bind, Fs.store.
  rewrite (hackrx_upload_calls_once env f _ Hpdf Hpath). reflexivity.
Qed.

Lemma pdf_named_file_reaches_indexing_witness :
  network (snd (post_hackrx_upload Sample.env
     (Some (mkMulterFile "Report.v2.PDF" "text/plain" 2048 "file-2.PDF"
                         "uploads/file-2.PDF"))
     initialServer))
  = [(PostUpload "uploads/file-2.PDF" "Report.v2.PDF", Sample.indexed)].
Proof.
  exact (proj2 (pdf_named_file_reaches_indexing Sample.env
           (mkMulterFile "Report.v2.PDF" "text/plain" 2048 "file-2.PDF"
                         "uploads/file-2.PDF")
           initialServer "Report.v2" "PDF"
           eq_refl ltac:(discriminate) eq_refl eq_refl eq_refl
           eq_refl eq_refl)).
Defined.

End PdfNames.

(** * The legacy analysis client *)

Section LegacyFacts.

Import Legacy.

Variable mlApi : AnalyzeCall -> AxiosOutcome.

(** One turn of [forEach] on a string. *)
Lemma keepValid_string (who q : string) (valid : list string) (log : Log) :
  keepValid who (JStr q) valid log
  = (Return (if Client.nonBlank q then (valid ++ [JsString.trim q])%list else valid),
     log).
Proof.
  unfold keepValid, Client.nonBlank. cbn [Js.truthy].
  destruct (JsString.isEmpty q); cbn [negb andb]; [reflexivity|].
  destruct (JsString.isEmpty (JsString.trim q)); reflexivity.
Qed.

Lemma forEachQuestion_strings (qs : list string) (valid : list string) (log : Log) :
  forEachQuestion (map JStr qs) valid log
  = (Return (valid ++ map JsString.trim (List.filter Client.nonBlank qs))%list, log).
Proof.
  revert valid. induction qs as [|q qs IH]; intros valid.
  - cbn. rewrite app_nil_r. reflexivity.
  - cbn [map forEachQuestion List.filter]. unfold bind.
    rewrite keepValid_string. destruct (Client.nonBlank q).
    + rewrite IH. cbn [map]. rewrite <- app_assoc. reflexivity.
    + apply IH.
Qed.

Lemma valid_questions_asked (qs : list string) :
  map JsString.trim (List.filter Client.nonBlank qs)
  = ClientSpec.asked (Client.Many qs).
Proof.
  unfold ClientSpec.asked, ClientSpec.kept. cbn [ClientSpec.questionList].
  f_equal. apply filter_ext. intros q. unfold Client.nonBlank, ClientSpec.skipped.
  destruct q; reflexivity.
Qed.

(** X13: given a stored file and an array of strings of which at least one
    is not empty after trimming, [callMLAPI] posts one request carrying
    the file and exactly those questions, trimmed and in order.  It
    returns the body on success.  On failure it throws an error whose
    message is [ML API request failed: ] followed by the error reported in
    the response body, or by the transport message when there is none; when
    the reported error is a value that cannot be printed, what is thrown
    is the TypeError of printing it. *)
Theorem callMLAPI_posts_valid_questions
    (info : FileInfo) (qs : list string) (log : Log) :
  JsString.isEmpty (fi_path info) = false ->
  ClientSpec.asked (Client.Many qs) <> [] ->
  let call :=
    mkAnalyzeCall (fi_path info) (fi_originalName info)
                  (ClientSpec.asked (Client.Many qs)) in
  callMLAPI mlApi (JArr (map JStr qs)) (Some info) log
  = (match mlApi call with
     | Fulfilled data => Return data
     | Rejected response message =>
         Throw (newError
                  (if Js.printable (reportedOrMessage (mkError response message))
                   then "ML API request failed: "
                        ++ Js.toString (reportedOrMessage (mkError response message))
                   else Js.cannotConvert))
     end,
     (log ++ [(call, mlApi call)])%list).
Proof.
  intros Hpath Hvalid call. subst call.
  rewrite <- valid_questions_asked in *.
  unfold callMLAPI, tryCatch, bind. rewrite Hpath.
  assert (Hnonempty : isEmptyArray (JArr (map JStr qs)) = false).
  { destruct qs; [contradiction Hvalid; reflexivity | reflexivity]. }
  rewrite Hnonempty. cbn [Js.truthy negb orb].
  rewrite forEachQuestion_strings. cbn [app].
  destruct (List.filter Client.nonBlank qs) as [|q rest] eqn:Hf;
    [contradiction Hvalid; reflexivity|].
  cbn [map]. unfold axiosPost.
  destruct (mlApi _) as [data|response message]; [reflexivity|].
  unfold template, throw.
  destruct (Js.printable (reportedOrMessage (mkError response message)));
    reflexivity.
Qed.

Lemma own_error_text (message : string) :
  Js.toString (reportedOrMessage (newError message)) = message.
Proof. reflexivity. Qed.

(** X14: [callMLAPI] posts nothing when the file is missing or has no
    path, when the questions are missing or an empty array, or when none
    of the questions is left after trimming.  Its own refusal is caught by
    its own [catch] clause, so every one of these errors reaches the caller
    with the prefix [ML API request failed: ]. *)
Theorem callMLAPI_refuses_without_call (log : Log) :
  (forall questions fileInfo,
     match fileInfo with
     | None => True
     | Some info => JsString.isEmpty (fi_path info) = true
     end ->
     callMLAPI mlApi questions fileInfo log
     = (Throw (newError "ML API request failed: File is required for ML API call"),
        log)) /\
  (forall questions info,
     JsString.isEmpty (fi_path info) = false ->
     Js.truthy questions = false \/ questions = JArr [] ->
     callMLAPI mlApi questions (Some info) log
     = (Throw (newError
          "ML API request failed: At least one question is required for ML API call"),
        log)) /\
  (forall qs info,
     JsString.isEmpty (fi_path info) = false ->
     qs <> [] ->
     List.filter Client.nonBlank qs = [] ->
     callMLAPI mlApi (JArr (map JStr qs)) (Some info) log
     = (Throw (newError "ML API request failed: No valid questions provided"),
        log)).
Proof.
  split; [|split].
  - intros questions fileInfo Hfile. unfold callMLAPI, tryCatch, throw.
    destruct fileInfo as [info|]; [rewrite Hfile|]; reflexivity.
  - intros questions info Hpath Hq. unfold callMLAPI, tryCatch, throw.
    rewrite Hpath. destruct Hq as [Hq | ->]; [rewrite Hq|]; reflexivity.
  - intros qs info Hpath Hne Hblank. unfold callMLAPI, tryCatch, bind, throw.
    rewrite Hpath.
    assert (Hnonempty : isEmptyArray (JArr (map JStr qs)) = false).
    { destruct qs; [congruence | reflexivity]. }
    rewrite Hnonempty. cbn [Js.truthy negb orb].
    rewrite forEachQuestion_strings, Hblank. reflexivity.
Qed.

(** X15: in [simulateMLAPI] the question takes the place of the text: as
    soon as the question is truthy the text plays no part.  In particular a
    question that is not empty but blank makes the call fail with
    [No valid questions provided] whatever the text is, and nothing is
    posted.  Without a file the function throws its own message, without
    the prefix of [callMLAPI]. *)
Theorem simulateMLAPI_question_hides_text (text : JsValue) (log : Log) :
  (forall question info,
     Js.truthy question = true ->
     simulateMLAPI mlApi text question (Some info) log
     = callMLAPI mlApi (JArr [question]) (Some info) log) /\
  (forall q info,
     q <> EmptyString -> JsString.trim q = EmptyString ->
     JsString.isEmpty (fi_path info) = false ->
     simulateMLAPI mlApi text (JStr q) (Some info) log
     = (Throw (newError "ML API request failed: No valid questions provided"),
        log)) /\
  (forall question,
     simulateMLAPI mlApi text question None log
     = (Throw (newError "File is required. Please upload a document to analyze."),
        log)).
Proof.
  assert (Hfirst : forall question info,
     Js.truthy question = true ->
     simulateMLAPI mlApi text question (Some info) log
     = callMLAPI mlApi (JArr [question]) (Some info) log).
  { intros question info Hq. unfold simulateMLAPI, legacyQuestions.
    rewrite Hq. cbn [negb andb app]. rewrite andb_false_r. reflexivity. }
  split; [exact Hfirst|]. split.
  - intros q info Hq Hblank Hpath.
    rewrite Hfirst by (cbn; rewrite (nonempty_not_isEmpty _ Hq); reflexivity).
    unfold callMLAPI, tryCatch, bind, throw. rewrite Hpath.
    cbn [Js.truthy isEmptyArray negb orb forEachQuestion].
    unfold bind. rewrite keepValid_string.
    unfold Client.nonBlank. rewrite Hblank.
    cbn [JsString.isEmpty negb andb]. rewrite andb_false_r. reflexivity.
  - intros question. reflexivity.
Qed.

End LegacyFacts.

Lemma callMLAPI_posts_valid_questions_witness :
  Legacy.callMLAPI Demo.analysis
    (JArr (map JStr ["  What is covered? "; "   "; "Who pays?"]))
    (Some Demo.storedPolicy) []
  = (Return (JObj [("answers", JArr [JObj [("answer", JStr "Covered.")]])]),
     [(Legacy.mkAnalyzeCall (path Sample.policy) "policy.pdf"
         ["What is covered?"; "Who pays?"],
       Demo.analysis
         (Legacy.mkAnalyzeCall (path Sample.policy) "policy.pdf"
            ["What is covered?"; "Who pays?"]))]).
Proof.
  apply (callMLAPI_posts_valid_questions Demo.analysis Demo.storedPolicy
           ["  What is covered? "; "   "; "Who pays?"] []).
  - reflexivity.
  - vm_compute. discriminate.
Defined.

Lemma callMLAPI_refuses_without_call_witness :
  Legacy.callMLAPI Demo.analysis (JArr (map JStr ["   "; EmptyString]))
    (Some Demo.storedPolicy) []
  = (Throw (newError "ML API request failed: No valid questions provided"), []).
Proof.
  apply (proj2 (proj2 (callMLAPI_refuses_without_call Demo.analysis []))
           ["   "; EmptyString] Demo.storedPolicy).
  - reflexivity.
  - discriminate.
  - reflexivity.
Defined.

Lemma simulateMLAPI_question_hides_text_witness :
  Legacy.simulateMLAPI Demo.analysis (JStr "What is covered?") (JStr "  ")
    (Some Demo.storedPolicy) []
  = (Throw (newError "ML API request failed: No valid questions provided"), []).
Proof.
  apply (proj1 (proj2 (simulateMLAPI_question_hides_text Demo.analysis
                         (JStr "What is covered?") []))
           "  " Demo.storedPolicy).
  - discriminate.
  - reflexivity.
  - reflexivity.
Defined.

(** * More on the batch client *)

Section BatchMore.

Import Client ClientSpec.

Variable Backend : Type.
Variable post : BackendCall -> Backend -> AxiosOutcome * Backend.
Variable now : string.

Lemma replay_length (b : Backend) (calls : list BackendCall) :
  length (fst (replay post b calls)) = length calls.
Proof.
  rewrite <- (replay_calls Backend post b calls) at 2.
  rewrite length_map. reflexivity.
Qed.

(** X16: when the batch succeeds, the answers and the questions of its
    result line up.  [questions] lists the questions that are not empty
    after trimming, as they were given and in input order.  After the
    upload, one request was sent for each of them, in that order, carrying
    the identifier of the upload and the question trimmed; every one was
    answered, and [answers] holds, at the same position, the
    [{answer: ...}] object made of the [answer.answer] of that request's
    body.  So there are as many answers as questions, and one request more
    than that. *)
Theorem batch_answers_match_questions
    (file : File) (qs : Questions) (b : Backend) (r : ChatResponse) :
  fst (analyzeDocument Backend post now file qs (b, [])) = Return r ->
  let upload := post (CallUpload file) b in
  exists (pdf_id : JsValue) (inners : list JsValue)
         (queries : list (BackendCall * AxiosOutcome)),
    pdfIdOf (fst upload) = Return pdf_id /\
    success r = true /\
    questions r = kept qs /\
    snd (snd (analyzeDocument Backend post now file qs (b, [])))
    = (CallUpload file, fst upload) :: queries /\
    queries
    = fst (replay post (snd upload)
             (map (fun q => CallQuery pdf_id (JsString.trim q)) (questions r))) /\
    map fst queries
    = map (fun q => CallQuery pdf_id (JsString.trim q)) (questions r) /\
    map (fun entry => answerOf (snd entry)) queries = map Return inners /\
    answers r = map wrapAnswer inners /\
    length (answers r) = length (questions r).
Proof.
  rewrite analyzeDocument_steps. cbn zeta. cbn [fst snd app].
  destruct (pdfIdOf (fst (post (CallUpload file) b))) as [pdf_id|e] eqn:Hid;
    [|discriminate].
  destruct (askEach_spec Backend post pdf_id (questionArrayOf qs)
              (pdfIdOf_printable _ _ Hid) []
              (snd (post (CallUpload file) b),
               [(CallUpload file, fst (post (CallUpload file) b))]))
    as [n [Hn [Hstate Hres]]].
  rewrite filter_nonBlank_kept in Hn, Hstate, Hres.
  cbn [fst snd app] in Hstate, Hres.
  destruct (fst (askEach Backend post pdf_id (questionArrayOf qs) [] _))
    as [collected|e]; [|discriminate].
  intros Hr. injection Hr as <-.
  cbn [success questions answers fst snd].
  destruct Hres as [Hlen [inners [Hsent Hcol]]]. cbn [app] in Hcol. subst collected.
  rewrite Hlen, firstn_all, map_map in Hstate, Hsent.
  rewrite filter_nonBlank_kept.
  assert (Hcount : length inners = length (kept qs)).
  { apply (f_equal (@length _)) in Hsent.
    rewrite !length_map, replay_length, length_map in Hsent.
    symmetry. exact Hsent. }
  exists pdf_id, inners,
    (fst (replay post (snd (post (CallUpload file) b))
            (map (fun q => CallQuery pdf_id (JsString.trim q)) (kept qs)))).
  split; [reflexivity|]. split; [reflexivity|]. split; [reflexivity|].
  split; [rewrite Hstate; reflexivity|]. split; [reflexivity|].
  split; [apply replay_calls|]. split; [exact Hsent|].
  split; [reflexivity|]. rewrite length_map. exact Hcount.
Qed.


(** X17: a batch in which every question is empty after trimming still
    uploads the document: exactly one request is sent.  When its answer
    has an identifier that can be printed, the result is a success with no
    answers and no questions; otherwise the result is the error of the
    upload step (that of the request, that of reading [pdf_id] off a body
    that is [null], or the TypeError of printing the identifier). *)
Theorem blank_batch_still_uploads (file : File) (qs : Questions) (b : Backend) :
  kept qs = [] ->
  let upload := post (CallUpload file) b in
  analyzeDocument Backend post now file qs (b, [])
  = (match pdfIdOf (fst upload) with
     | Return _ =>
         Return (mkChatResponse true [] now (name file) (type file) (fsize file) [])
     | Throw e => Throw e
     end,
     (snd upload, [(CallUpload file, fst upload)])).
Proof.
  intros Hblank upload. subst upload.
  rewrite analyzeDocument_steps. cbn zeta. cbn [fst snd app].
  destruct (pdfIdOf (fst (post (CallUpload file) b))) as [pdf_id|e] eqn:Hid;
    [|reflexivity].
  destruct (askEach_spec Backend post pdf_id (questionArrayOf qs)
              (pdfIdOf_printable _ _ Hid) []
              (snd (post (CallUpload file) b),
               [(CallUpload file, fst (post (CallUpload file) b))]))
    as [n [Hn [Hstate Hres]]].
  rewrite <- filter_nonBlank_kept in Hblank.
  rewrite Hblank in Hn, Hstate, Hres. cbn [map length] in Hn.
  assert (n = 0%nat) by lia. subst n.
  cbn [firstn map replay fst snd app] in Hstate, Hres.
  rewrite Hstate, Hblank.
  destruct (fst (askEach Backend post pdf_id (questionArrayOf qs) [] _))
    as [collected|e].
  - destruct Hres as [_ [inners [Hsent Hcol]]].
    destruct inners; [|discriminate]. subst collected. reflexivity.
  - destruct Hres as [done [last [Hsent _]]]. destruct done; discriminate.
Qed.


(** X18: the batch does not check the identifier it gets.  When the upload
    answer is a body without [pdf_id], the first question is sent all the
    same, with [undefined] as the identifier. *)
Theorem missing_identifier_is_sent_as_undefined
    (file : File) (qs : Questions) (b : Backend) (data : JsValue)
    (first : string) (others : list string) :
  fst (post (CallUpload file) b) = Fulfilled data ->
  Js.getProp data "pdf_id" = Some JUndefined ->
  asked qs = first :: others ->
  let b1 := snd (post (CallUpload file) b) in
  exists later,
    snd (snd (analyzeDocument Backend post now file qs (b, [])))
    = (CallUpload file, Fulfilled data)
      :: (CallQuery JUndefined first, fst (post (CallQuery JUndefined first) b1))
      :: later.
Proof.
  intros Hup Hid Hasked b1. subst b1.
  rewrite analyzeDocument_steps. cbn zeta. cbn [fst snd app].
  rewrite Hup. cbn [pdfIdOf]. rewrite Hid. cbn [Js.printable].
  destruct (askEach_spec Backend post JUndefined (questionArrayOf qs) eq_refl []
              (snd (post (CallUpload file) b),
               [(CallUpload file, Fulfilled data)]))
    as [n [Hn [Hstate Hres]]].
  rewrite filter_nonBlank_kept in Hn, Hstate, Hres.
  fold (asked qs) in Hn, Hstate, Hres. rewrite Hasked in Hn, Hstate, Hres.
  cbn [fst snd app] in Hstate, Hres.
  assert (Hlog :
    snd (snd (askEach Backend post JUndefined (questionArrayOf qs) []
                (snd (post (CallUpload file) b),
                 [(CallUpload file, Fulfilled data)])))
    = (CallUpload file, Fulfilled data)
      :: fst (replay post (snd (post (CallUpload file) b))
                (map (CallQuery JUndefined) (firstn n (first :: others)))))
    by (rewrite Hstate; reflexivity).
  destruct n as [|n].
  - exfalso. cbn [firstn map replay fst] in Hres.
    destruct (fst (askEach Backend post JUndefined (questionArrayOf qs) [] _))
      as [collected|e].
    + destruct Hres as [Hlen _]. discriminate.
    + destruct Hres as [done [last [Hsent _]]]. destruct done; discriminate.
  - cbn [firstn map] in Hlog. rewrite replay_cons in Hlog. cbn [fst] in Hlog.
    eexists.
    destruct (fst (askEach Backend post JUndefined (questionArrayOf qs) [] _));
      cbn [snd]; exact Hlog.
Qed.

End BatchMore.

Lemma batch_answers_match_questions_witness :
  exists r,
    fst (Client.analyzeDocument unit Sample.failsOnQ2 "2025-09-19T09:13:00.594Z"
           Sample.policyFile (Client.Many [" Q1 "; "  "; "Q3"]) (tt, [])) = Return r /\
    Client.questions r = [" Q1 "; "Q3"] /\
    Client.answers r
    = [JObj [("answer", JStr "Q1")]; JObj [("answer", JStr "Q3")]] /\
    exists pdf_id inners queries,
      map fst queries
      = map (fun q => Client.CallQuery pdf_id (JsString.trim q))
            (Client.questions r) /\
      map (fun entry => ClientSpec.answerOf (snd entry)) queries
      = map Return inners /\
      Client.answers r = map ClientSpec.wrapAnswer inners.
Proof.
  eexists. split; [reflexivity|]. split; [reflexivity|]. split; [reflexivity|].
  destruct (batch_answers_match_questions unit Sample.failsOnQ2
              "2025-09-19T09:13:00.594Z" Sample.policyFile
              (Client.Many [" Q1 "; "  "; "Q3"]) tt _ eq_refl)
    as [pdf_id [inners [queries [_ [_ [_ [_ [_ [Hcalls [Hans [Hwrap _]]]]]]]]]]].
  exists pdf_id, inners, queries.
  split; [exact Hcalls|]. split; [exact Hans | exact Hwrap].
Defined.

Lemma blank_batch_still_uploads_witness :
  Client.analyzeDocument unit Sample.failsOnQ2 "2025-09-19T09:13:00.594Z"
    Sample.policyFile (Client.Many ["  "; EmptyString]) (tt, [])
  = (Return (Client.mkChatResponse true [] "2025-09-19T09:13:00.594Z" "policy.pdf"
               "application/pdf" 2048 []),
     (tt, [(Client.CallUpload Sample.policyFile, Sample.indexed)])).
Proof.
  apply (blank_batch_still_uploads unit Sample.failsOnQ2 "2025-09-19T09:13:00.594Z"
           Sample.policyFile (Client.Many ["  "; EmptyString]) tt).
  reflexivity.
Defined.

Lemma missing_identifier_is_sent_as_undefined_witness :
  exists later,
    snd (snd (Client.analyzeDocument unit Demo.forgetful "2025-09-19T09:13:00.594Z"
                Sample.policyFile (Client.One " What is covered? ") (tt, [])))
    = (Client.CallUpload Sample.policyFile, Fulfilled (JObj [("message", JStr "stored")]))
      :: (Client.CallQuery JUndefined "What is covered?",
          fst (Demo.forgetful (Client.CallQuery JUndefined "What is covered?") tt))
      :: later.
Proof.
  exact (missing_identifier_is_sent_as_undefined unit Demo.forgetful
           "2025-09-19T09:13:00.594Z" Sample.policyFile
           (Client.One " What is covered? ") tt
           (JObj [("message", JStr "stored")]) "What is covered?" []
           eq_refl eq_refl eq_refl).
Defined.

(** * Trimming twice *)

Section TrimFacts.

Lemma string_app_nil (s : string) : s ++ EmptyString = s.
Proof.
  induction s as [|c s IH]; [reflexivity|].
  change (String c s ++ EmptyString) with (String c (s ++ EmptyString)).
  rewrite IH. reflexivity.
Qed.

Lemma rev_onto_rev_onto (s a b : string) :
  JsString.rev_onto (JsString.rev_onto s a) b = JsString.rev_onto a (s ++ b).
Proof.
  revert a b. induction s as [|c s IH]; intros a b; [reflexivity|].
  cbn [JsString.rev_onto]. rewrite IH. reflexivity.
Qed.

Lemma rev_rev (s : string) : JsString.rev (JsString.rev s) = s.
Proof.
  unfold JsString.rev. rewrite rev_onto_rev_onto. cbn [JsString.rev_onto].
  apply string_app_nil.
Qed.

Lemma rev_cons (c : ascii) (r : string) :
  JsString.rev (String c r) = JsString.rev r ++ String c EmptyString.
Proof. unfold JsString.rev. cbn [JsString.rev_onto]. apply rev_onto_acc. Qed.

Lemma rev_snoc (y : string) (c : ascii) :
  JsString.rev (y ++ String c EmptyString) = String c (JsString.rev y).
Proof. unfold JsString.rev. rewrite rev_onto_app. reflexivity. Qed.

Lemma trimStart_trimStart (s : string) :
  JsString.trimStart (JsString.trimStart s) = JsString.trimStart s.
Proof.
  induction s as [|c r IH]; [reflexivity|].
  cbn [JsString.trimStart]. destruct (JsString.isWhiteSpace c) eqn:Hc; [exact IH|].
  cbn [JsString.trimStart]. rewrite Hc. reflexivity.
Qed.

Lemma trimStart_snoc (x : string) (c : ascii) :
  JsString.isWhiteSpace c = false ->
  exists y, JsString.trimStart (x ++ String c EmptyString) = y ++ String c EmptyString.
Proof.
  intros Hc. induction x as [|a x IH].
  - exists EmptyString.
    change (EmptyString ++ String c EmptyString) with (String c EmptyString).
    cbn [JsString.trimStart]. rewrite Hc. reflexivity.
  - change (String a x ++ String c EmptyString)
      with (String a (x ++ String c EmptyString)).
    cbn [JsString.trimStart]. destruct (JsString.isWhiteSpace a); [exact IH|].
    exists (String a x). reflexivity.
Qed.

Lemma trimEnd_keeps_head (c : ascii) (r : string) :
  JsString.isWhiteSpace c = false ->
  exists y, JsString.trimEnd (String c r) = String c y.
Proof.
  intros Hc. unfold JsString.trimEnd. rewrite rev_cons.
  destruct (trimStart_snoc (JsString.rev r) c Hc) as [y Hy].
  rewrite Hy, rev_snoc. eexists. reflexivity.
Qed.

Lemma trimStart_trim (s : string) :
  JsString.trimStart (JsString.trim s) = JsString.trim s.
Proof.
  unfold JsString.trim. induction s as [|c r IH]; [reflexivity|].
  cbn [JsString.trimStart]. destruct (JsString.isWhiteSpace c) eqn:Hc; [exact IH|].
  destruct (trimEnd_keeps_head c r Hc) as [y Hy]. rewrite Hy.
  cbn [JsString.trimStart]. rewrite Hc. reflexivity.
Qed.

Lemma trimEnd_trimEnd (u : string) :
  JsString.trimEnd (JsString.trimEnd u) = JsString.trimEnd u.
Proof. unfold JsString.trimEnd. rewrite rev_rev, trimStart_trimStart. reflexivity. Qed.

(** [trim] does nothing to a string that it has produced. *)
Lemma trim_trim (s : string) : JsString.trim (JsString.trim s) = JsString.trim s.
Proof.
  unfold JsString.trim at 1. rewrite trimStart_trim.
  unfold JsString.trim. apply trimEnd_trimEnd.
Qed.

Lemma nonBlank_trim (q : string) :
  Client.nonBlank q = true -> Client.nonBlank (JsString.trim q) = true.
Proof.
  unfold Client.nonBlank. rewrite trim_trim. intros H.
  apply andb_true_iff in H. destruct H as [_ H]. rewrite H. reflexivity.
Qed.

Lemma trimmed_questions_stay (qs : list string) :
  map JsString.trim
    (List.filter Client.nonBlank (map JsString.trim (List.filter Client.nonBlank qs)))
  = map JsString.trim (List.filter Client.nonBlank qs).
Proof.
  induction qs as [|q qs IH]; [reflexivity|].
  cbn [List.filter]. destruct (Client.nonBlank q) eqn:Hq; [|exact IH].
  cbn [map List.filter]. rewrite (nonBlank_trim _ Hq). cbn [map].
  rewrite trim_trim, IH. reflexivity.
Qed.

Lemma questionFields_asked (qs : Client.Questions) :
  ClientLegacy.questionFields qs = ClientSpec.asked qs.
Proof.
  unfold ClientSpec.asked. rewrite <- filter_nonBlank_kept.
  destruct qs as [q|l]; [|reflexivity].
  unfold ClientLegacy.questionFields. cbn.
  destruct (Client.nonBlank q); reflexivity.
Qed.

(** X19: the question fields that [analyzeDocumentLegacy] puts into its
    form are the questions that the batch [analyzeDocument] asks, and they
    pass the validation of [callMLAPI] unchanged: given a stored file and
    at least one such field, [callMLAPI] posts exactly those fields. *)
Theorem legacy_questions_survive_revalidation
    (mlApi : Legacy.AnalyzeCall -> AxiosOutcome) (info : FileInfo)
    (qs : Client.Questions) (log : Legacy.Log) :
  JsString.isEmpty (fi_path info) = false ->
  ClientLegacy.questionFields qs <> [] ->
  ClientLegacy.questionFields qs = ClientSpec.asked qs /\
  snd (Legacy.callMLAPI mlApi (JArr (map JStr (ClientLegacy.questionFields qs)))
         (Some info) log)
  = (log
     ++ [(Legacy.mkAnalyzeCall (fi_path info) (fi_originalName info)
            (ClientLegacy.questionFields qs),
          mlApi (Legacy.mkAnalyzeCall (fi_path info) (fi_originalName info)
                   (ClientLegacy.questionFields qs)))])%list.
Proof.
  intros Hpath Hne. split; [apply questionFields_asked|].
  rewrite questionFields_asked in *. unfold ClientSpec.asked in *.
  rewrite <- filter_nonBlank_kept in *.
  unfold Legacy.callMLAPI, tryCatch, bind. rewrite Hpath.
  assert (Hnonempty :
            Legacy.isEmptyArray
              (JArr (map JStr (map JsString.trim
                                 (List.filter Client.nonBlank
                                    (Client.questionArrayOf qs))))) = false).
  { destruct (map JsString.trim _); [congruence | reflexivity]. }
  rewrite Hnonempty. cbn [Js.truthy negb orb].
  rewrite forEachQuestion_strings. cbn [app].
  rewrite trimmed_questions_stay.
  destruct (map JsString.trim _) as [|q rest] eqn:Hg; [congruence|].
  unfold Legacy.axiosPost.
  destruct (mlApi _) as [data|response message]; [reflexivity|].
  unfold template, throw.
  destruct (Js.printable (reportedOrMessage (mkError response message)));
    reflexivity.
Qed.

End TrimFacts.

Lemma legacy_questions_survive_revalidation_witness :
  snd (Legacy.callMLAPI Demo.analysis
         (JArr (map JStr (ClientLegacy.questionFields
                            (Client.Many [" What is covered? "; "  "]))))
         (Some Demo.storedPolicy) [])
  = [(Legacy.mkAnalyzeCall (path Sample.policy) "policy.pdf" ["What is covered?"],
      Demo.analysis
        (Legacy.mkAnalyzeCall (path Sample.policy) "policy.pdf" ["What is covered?"]))].
Proof.
  apply (proj2 (legacy_questions_survive_revalidation Demo.analysis Demo.storedPolicy
                  (Client.Many [" What is covered? "; "  "]) []
                  eq_refl ltac:(vm_compute; discriminate))).
Defined.

(** * The file picker against the server's filter *)

Lemma picker_types (ty : string) :
  existsb (String.eqb ty) Ui.allowedTypes = true -> In ty Ui.allowedTypes.
Proof.
  intros H. apply existsb_exists in H. destruct H as [x [Hin Hx]].
  apply String.eqb_eq in Hx. subst x. exact Hin.
Qed.

(** X20: a file that the picker's [validateFile] accepts has at most
    10485760 bytes, which is one byte more than the server takes: sent to
    the upload route, a file of exactly that size that passes the filter
    is answered 400 [File too large], and nothing is staged or called.
    The declared type of an accepted file fails the MIME test of the
    server's [fileFilter] exactly when it is one of the three legacy Office
    types (Word, Excel, PowerPoint): such a file is offered by the picker
    and refused by the server whatever its name. *)
Theorem picker_accepts_what_the_filter_refuses (file : Client.File) :
  Ui.validateFile file = None ->
  Client.fsize file <= 10485760 /\
  (forall (env : Env) (part : MulterFile) (s : Server),
      size part = Client.fsize file ->
      fileFilter part = true ->
      Client.fsize file = 10485760 ->
      post_hackrx_upload env (Some part) s
      = (Return (respondError 400 "File too large"), s)) /\
  ((allowedTypes_test (Client.type file)
    || String.eqb (Client.type file) "text/plain") = false
   <-> In (Client.type file)
          ["application/msword"; "application/vnd.ms-excel";
           "application/vnd.ms-powerpoint"]) /\
  (forall part : MulterFile,
      mimetype part = Client.type file ->
      In (Client.type file)
         ["application/msword"; "application/vnd.ms-excel";
          "application/vnd.ms-powerpoint"] ->
      fileFilter part = false).
Proof.
  unfold Ui.validateFile. intros H.
  destruct (existsb (String.eqb (Client.type file)) Ui.allowedTypes) eqn:Hty;
    cbn [negb] in H; [|discriminate].
  destruct (Ui.maxFileSize <? Client.fsize file) eqn:Hsize; [discriminate|].
  apply Z.ltb_ge in Hsize. apply picker_types in Hty.
  assert (Hiff :
    (allowedTypes_test (Client.type file)
     || String.eqb (Client.type file) "text/plain") = false
    <-> In (Client.type file)
           ["application/msword"; "application/vnd.ms-excel";
            "application/vnd.ms-powerpoint"]).
  { generalize dependent (Client.type file). intros ty Hty.
    unfold Ui.allowedTypes in Hty. cbn [In] in Hty.
    repeat match goal with
           | Hor : _ \/ _ |- _ => destruct Hor as [Hor|Hor]
           end;
      try contradiction; subst ty;
      (split;
       [ intros Htest; vm_compute in Htest; try discriminate Htest;
         cbn [In]; auto
       | intros Hin; cbn [In] in Hin;
         repeat match goal with
                | Hor : _ \/ _ |- _ => destruct Hor as [Hor|Hor]
                end;
         try contradiction; try discriminate; reflexivity ]). }
  split; [exact Hsize|]. split; [|split; [exact Hiff|]].
  - intros env part s Hpart Hfilter Hlimit. unfold post_hackrx_upload.
    rewrite Hfilter, Hpart, Hlimit. reflexivity.
  - intros part Hmime Hin. unfold fileFilter. rewrite Hmime.
    apply Hiff in Hin. rewrite Hin. reflexivity.
Qed.

Lemma picker_accepts_what_the_filter_refuses_witness :
  fileFilter (mkMulterFile "letter.doc" "application/msword" 4096
                           "file-1.doc" "uploads/file-1.doc") = false.
Proof.
  apply (proj2 (proj2 (proj2 (picker_accepts_what_the_filter_refuses
                                Demo.wordDocument eq_refl)))
               (mkMulterFile "letter.doc" "application/msword" 4096
                             "file-1.doc" "uploads/file-1.doc") eq_refl).
  cbn. auto.
Defined.

(** A PDF of exactly 10485760 bytes: the picker accepts it and the upload
    route refuses it. *)
Example file_at_the_limit :
  Ui.validateFile (Client.mkFile "big.pdf" "application/pdf" 10485760) = None /\
  post_hackrx_upload Sample.env
    (Some (mkMulterFile "big.pdf" "application/pdf" 10485760 "file-9.pdf"
                        "uploads/file-9.pdf")) initialServer
  = (Return (respondError 400 "File too large"), initialServer).
Proof. split; reflexivity. Qed.

(** * What the chat window shows *)

Lemma mapAnswer_wrapped (inners : list JsValue) :
  Ui.mapAnswer (map ClientSpec.wrapAnswer inners) = Return inners.
Proof.
  induction inners as [|a l IH]; [reflexivity|].
  cbn [map Ui.mapAnswer]. rewrite IH. reflexivity.
Qed.

(** X21: [extractMessageContent] shows a string as it is; it shows the
    [answers] that the batch [analyzeDocument] builds (one object
    [{answer: x}] per question) as the texts of the answers separated by a
    blank line, a missing or null answer as the empty text, provided every
    answer can be printed; when one cannot, [join] throws the TypeError of
    printing it.  It shows the apology for every other value whose
    [answers] is falsy; and it throws on [null], which passes the [typeof]
    test. *)
Theorem extractMessageContent_shapes :
  (forall text, Ui.extractMessageContent (JStr text) = Return text) /\
  (forall inners rest,
      Ui.extractMessageContent
        (JObj (("answers", JArr (map ClientSpec.wrapAnswer inners)) :: rest))
      = if forallb Js.printable inners
        then Return (Js.join Ui.blankLine (map Ui.elementText inners))
        else Throw (newError Js.cannotConvert)) /\
  (forall response,
      response <> JNull ->
      Js.typeofString response = false ->
      Js.truthy (Js.getPropOpt response "answers") = false ->
      Ui.extractMessageContent response = Return Ui.unformatted) /\
  (exists error, Ui.extractMessageContent JNull = Throw error).
Proof.
  split; [reflexivity|]. split; [|split].
  - intros inners rest. unfold Ui.extractMessageContent.
    cbn. rewrite mapAnswer_wrapped. reflexivity.
  - intros response Hnull Hstr Hfalsy. unfold Ui.extractMessageContent.
    destruct response as [| |b|n|t|items|props]; try reflexivity;
      try congruence; try (cbn in Hstr; discriminate Hstr).
    unfold Js.getPropOpt in Hfalsy. cbn [Js.getProp] in Hfalsy.
    cbn [Ui.typeofObject Js.getProp andb]. rewrite Hfalsy. reflexivity.
  - eexists. reflexivity.
Qed.

Lemma failureText_400 (message : string) :
  Ui.failureText (respondError 400 message)
  = Some (Return ("Invalid request: "
                  ++ (if JsString.isEmpty message then "Please check your input."
                      else message))).
Proof. destruct message; reflexivity. Qed.

Lemma failureText_404 (message : string) :
  Ui.failureText (respondError 404 message)
  = Some (Return "The requested endpoint was not found. Please check your server configuration.").
Proof. reflexivity. Qed.

Lemma failureText_500 (message : string) :
  Ui.failureText (respondError 500 message)
  = Some (Return (if JsString.isEmpty message then "An internal error occurred."
                  else message)).
Proof. destruct message; reflexivity. Qed.

(** X22: what the chat window shows for the answer of [/hackrx/query].
    The handler always answers; a fulfilled request has status 200; a 400
    is shown as [Invalid request: ] followed by the server's text; a 404
    is shown as the fixed text about a missing endpoint, so the server's
    message naming the unknown identifier is never displayed; a 500 is
    shown as the server's own text, which is never empty. *)
Theorem query_failure_as_displayed (env : Env) (req : QueryBody) (s : Server) :
  exists r,
    fst (hackrx_query env req s) = Return r /\
    match Ui.failureText r with
    | None => status r = 200
    | Some shown =>
        (status r = 400 /\
         (shown = Return "Invalid request: pdf_id is required"
          \/ shown = Return "Invalid request: question is required"))
        \/ (r = respondError 404 (notFoundMessage (body_pdf_id req)) /\
            shown = Return "The requested endpoint was not found. Please check your server configuration.")
        \/ (exists text, r = respondError 500 text /\ shown = Return text)
    end.
Proof.
  rewrite hackrx_query_paths.
  destruct (Js.truthy (body_pdf_id req)); cbn [negb].
  2:{ eexists. split; [reflexivity|]. rewrite failureText_400.
      left. split; [reflexivity|]. left. reflexivity. }
  assert (H400 : exists r,
             Return (respondError 400 "question is required") = Return r /\
             match Ui.failureText r with
             | None => status r = 200
             | Some shown =>
                 (status r = 400 /\
                  (shown = Return "Invalid request: pdf_id is required"
                   \/ shown = Return "Invalid request: question is required"))
                 \/ (r = respondError 404 (notFoundMessage (body_pdf_id req)) /\
                     shown = Return "The requested endpoint was not found. Please check your server configuration.")
                 \/ (exists text, r = respondError 500 text /\ shown = Return text)
             end).
  { eexists. split; [reflexivity|]. rewrite failureText_400.
    left. split; [reflexivity|]. right. reflexivity. }
  assert (H500 : forall text, text <> EmptyString -> exists r,
             Return (respondError 500 text) = Return r /\
             match Ui.failureText r with
             | None => status r = 200
             | Some shown =>
                 (status r = 400 /\
                  (shown = Return "Invalid request: pdf_id is required"
                   \/ shown = Return "Invalid request: question is required"))
                 \/ (r = respondError 404 (notFoundMessage (body_pdf_id req)) /\
                     shown = Return "The requested endpoint was not found. Please check your server configuration.")
                 \/ (exists text, r = respondError 500 text /\ shown = Return text)
             end).
  { intros text Htext. eexists. split; [reflexivity|]. rewrite failureText_500.
    right. right. exists text. split; [reflexivity|].
    destruct text; [congruence | reflexivity]. }
  destruct (body_question req) as [| |b|n|q|items|props];
    cbn [Js.truthy fst]; try exact H400.
  - destruct b; [apply H500; discriminate | exact H400].
  - destruct (negb (n =? 0)); [apply H500; discriminate | exact H400].
  - destruct (JsString.isEmpty (JsString.trim q)); [exact H400|].
    destruct (negb (JsMap.has (pdfCache s) (body_pdf_id req))).
    + destruct (Js.printable (body_pdf_id req)); cbn [fst];
        [|apply H500; discriminate].
      eexists. split; [reflexivity|]. rewrite failureText_404.
      right. left. split; reflexivity.
    + cbn [fst].
      destruct (mlApi env _) as [data|response message].
      * destruct (extractAnswer data) as [answerText|e] eqn:Hx.
        -- eexists. split; [reflexivity|]. reflexivity.
        -- apply H500.
           destruct (Js.getProp data "answer") eqn:Hget.
           ++ rewrite (extractAnswer_cases _ _ Hget) in Hx. discriminate.
           ++ unfold extractAnswer in Hx. rewrite Hget in Hx.
              inversion Hx. discriminate.
      * apply H500. unfold forwarded.
        destruct (Js.printable _); discriminate.
  - apply H500. discriminate.
  - apply H500. discriminate.
Qed.

(** * The chat endpoint *)

Lemma includes_unfold (s p : string) :
  JsString.includes s p
  = JsString.startsWith s p
    || match s with
       | EmptyString => false
       | String _ r => JsString.includes r p
       end.
Proof. destruct s; reflexivity. Qed.

Lemma includes_middle (a m b : string) : JsString.includes (a ++ m ++ b) m = true.
Proof.
  induction a as [|c a IH].
  - change (EmptyString ++ m ++ b) with (m ++ b).
    rewrite includes_unfold, startsWith_prefix. reflexivity.
  - change (String c a ++ m ++ b) with (String c (a ++ m ++ b)).
    rewrite includes_unfold, IH. apply orb_true_r.
Qed.

(** X23: [/api/chat] refuses a falsy message with 400 [Message is
    required].  A truthy message that cannot be printed (an object with a
    property [toString], or an array holding one) makes the replies throw,
    and is answered 500 with the text of that TypeError.  For any other
    message the route answers 200 with [success] true and a reply that
    quotes the message, whichever of the four replies is drawn, and that
    the chat window shows unchanged; a truthy conversation id is echoed
    and a falsy one is replaced by a generated id that starts with
    [conv_]. *)
Theorem chat_reply_quotes_the_message (env : Chat.ChatEnv) (req : Chat.ChatBody) :
  if Js.truthy (Chat.message req) then
    if negb (Js.printable (Chat.message req))
    then Chat.chat env req
         = respondError 500 "Cannot convert object to primitive value"
    else
    let r := Chat.chat env req in
    status r = 200 /\
    Js.getProp (body r) "success" = Some (JBool true) /\
    (exists reply,
        Js.getProp (body r) "response" = Some (JStr reply) /\
        JsString.includes reply (Chat.quoted (Chat.message req)) = true /\
        Ui.extractMessageContent (JStr reply) = Return reply) /\
    (if Js.truthy (Chat.conversation_id req)
     then Js.getProp (body r) "conversation_id" = Some (Chat.conversation_id req)
     else exists rest,
         Js.getProp (body r) "conversation_id" = Some (JStr ("conv_" ++ rest)))
  else Chat.chat env req = respondError 400 "Message is required".
Proof.
  unfold Chat.chat.
  destruct (Js.truthy (Chat.message req)); cbn [negb]; [|reflexivity].
  destruct (Js.printable (Chat.message req)); cbn [negb]; [|reflexivity].
  cbn zeta. split; [reflexivity|]. split; [reflexivity|]. split.
  - eexists. split; [reflexivity|]. split; [|reflexivity].
    unfold Chat.responses. destruct (Chat.pick env); apply includes_middle.
  - destruct (Js.truthy (Chat.conversation_id req)); [reflexivity|].
    eexists. reflexivity.
Qed.

(** * The chat window *)

Section WindowFacts.

Variable Backend : Type.
Variable post : ChatWindow.ApiCall -> Backend
                -> (Ui.Failure + JsValue) * Backend.
Variable clock : ChatWindow.Clock.

Local Abbreviation Screen := (ChatWindow.Screen Backend).
Local Abbreviation Act := (ChatWindow.Act Backend).
Local Abbreviation mkScreen := (ChatWindow.mkScreen Backend).
Local Abbreviation ui := (ChatWindow.ui Backend).
Local Abbreviation backend := (ChatWindow.backend Backend).
Local Abbreviation sent := (ChatWindow.sent Backend).
Local Abbreviation andThen := (ChatWindow.andThen Backend).
Local Abbreviation addMessage := (ChatWindow.addMessage Backend clock).
Local Abbreviation apiPost := (ChatWindow.apiPost Backend post).
Local Abbreviation tryBlock := (ChatWindow.tryBlock Backend post clock).
Local Abbreviation catchBlock := (ChatWindow.catchBlock Backend clock).
Local Abbreviation finallyBlock := (ChatWindow.finallyBlock Backend).
Local Abbreviation processInput := (ChatWindow.processInput Backend post clock).
Local Abbreviation handleSend := (ChatWindow.handleSend Backend post clock).
Local Abbreviation fire := (ChatWindow.fire Backend post clock).
Local Abbreviation play := (ChatWindow.play Backend post clock).
Local Abbreviation Touch := (ChatWindow.Touch clock).
Local Abbreviation numbered := (ChatWindow.numbered clock).
Local Abbreviation idOf := (ChatWindow.idOf clock).

(** ** Every handler is a sequence of single changes *)

Section Stepping.

Variable R : Screen -> Screen -> Prop.
Hypothesis R_refl : forall sc, R sc sc.
Hypothesis R_trans : forall a b c, R a b -> R b c -> R a c.
Hypothesis R_touch :
  forall sc u', Touch (ui sc) u' -> R sc (mkScreen u' (backend sc) (sent sc)).
Hypothesis R_post :
  forall sc call,
    R sc (mkScreen (ui sc) (snd (post call (backend sc)))
            (sent sc ++ [(call, fst (post call (backend sc)))])).

Lemma done_steps {A} (a : A) sc : R sc (snd (ChatWindow.done Backend a sc)).
Proof. apply R_refl. Qed.

Lemma raise_steps {A} e sc : R sc (snd (ChatWindow.raise Backend (A := A) e sc)).
Proof. apply R_refl. Qed.

Lemma andThen_steps {A B} (m : Act A) (f : A -> Act B) :
  (forall sc, R sc (snd (m sc))) ->
  (forall a sc, R sc (snd (f a sc))) ->
  forall sc, R sc (snd (andThen m f sc)).
Proof.
  intros Hm Hf sc. unfold ChatWindow.andThen.
  specialize (Hm sc). destruct (m sc) as [[e|a] sc1]; cbn [snd] in *.
  - exact Hm.
  - eapply R_trans; [exact Hm | apply Hf].
Qed.

Lemma liftOutcome_steps {A} (o : Outcome A) sc :
  R sc (snd (ChatWindow.liftOutcome Backend o sc)).
Proof. destruct o; apply R_refl. Qed.

Lemma readProp_steps v k sc : R sc (snd (ChatWindow.readProp Backend v k sc)).
Proof. unfold ChatWindow.readProp. destruct (Js.getProp v k); apply R_refl. Qed.

Lemma template_steps v sc : R sc (snd (ChatWindow.template Backend v sc)).
Proof. unfold ChatWindow.template. destruct (Js.printable v); apply R_refl. Qed.

Lemma apiPost_steps call sc : R sc (snd (apiPost call sc)).
Proof.
  unfold ChatWindow.apiPost. specialize (R_post sc call).
  destruct (post call (backend sc)) as [r b']. exact R_post.
Qed.

Lemma addMessage_steps content sender type sc :
  R sc (snd (addMessage content sender type sc)).
Proof.
  destruct sc as [[m0 t0 l0 c0 f0 w0 p0 n0 k0] b0 s0].
  apply (R_touch (mkScreen (ChatWindow.mkUi m0 t0 l0 c0 f0 w0 p0 n0 k0) b0 s0)).
  constructor.
Qed.

Lemma setIsLoading_steps b sc : R sc (snd (ChatWindow.setIsLoading Backend b sc)).
Proof.
  destruct sc as [[m0 t0 l0 c0 f0 w0 p0 n0 k0] b0 s0].
  apply (R_touch (mkScreen (ChatWindow.mkUi m0 t0 l0 c0 f0 w0 p0 n0 k0) b0 s0)).
  constructor.
Qed.

Lemma setInputText_steps t sc : R sc (snd (ChatWindow.setInputText Backend t sc)).
Proof.
  destruct sc as [[m0 t0 l0 c0 f0 w0 p0 n0 k0] b0 s0].
  apply (R_touch (mkScreen (ChatWindow.mkUi m0 t0 l0 c0 f0 w0 p0 n0 k0) b0 s0)).
  constructor.
Qed.

Lemma setConversationId_steps c sc :
  R sc (snd (ChatWindow.setConversationId Backend c sc)).
Proof.
  destruct sc as [[m0 t0 l0 c0 f0 w0 p0 n0 k0] b0 s0].
  apply (R_touch (mkScreen (ChatWindow.mkUi m0 t0 l0 c0 f0 w0 p0 n0 k0) b0 s0)).
  constructor.
Qed.

Lemma setSelectedFile_steps f sc :
  R sc (snd (ChatWindow.setSelectedFile Backend f sc)).
Proof.
  destruct sc as [[m0 t0 l0 c0 f0 w0 p0 n0 k0] b0 s0].
  apply (R_touch (mkScreen (ChatWindow.mkUi m0 t0 l0 c0 f0 w0 p0 n0 k0) b0 s0)).
  constructor.
Qed.

Lemma setShowFileUpload_steps b sc :
  R sc (snd (ChatWindow.setShowFileUpload Backend b sc)).
Proof.
  destruct sc as [[m0 t0 l0 c0 f0 w0 p0 n0 k0] b0 s0].
  apply (R_touch (mkScreen (ChatWindow.mkUi m0 t0 l0 c0 f0 w0 p0 n0 k0) b0 s0)).
  constructor.
Qed.

Lemma setCurrentPdfId_steps p sc :
  R sc (snd (ChatWindow.setCurrentPdfId Backend p sc)).
Proof.
  destruct sc as [[m0 t0 l0 c0 f0 w0 p0 n0 k0] b0 s0].
  apply (R_touch (mkScreen (ChatWindow.mkUi m0 t0 l0 c0 f0 w0 p0 n0 k0) b0 s0)).
  constructor.
Qed.

Lemma setUploadedFileName_steps n sc :
  R sc (snd (ChatWindow.setUploadedFileName Backend n sc)).
Proof.
  destruct sc as [[m0 t0 l0 c0 f0 w0 p0 n0 k0] b0 s0].
  apply (R_touch (mkScreen (ChatWindow.mkUi m0 t0 l0 c0 f0 w0 p0 n0 k0) b0 s0)).
  constructor.
Qed.

Lemma tryCatchFinally_steps {A} (m : Act A) handler finalizer :
  (forall sc, R sc (snd (m sc))) ->
  (forall e sc, R sc (snd (handler e sc))) ->
  (forall sc, R sc (snd (finalizer sc))) ->
  forall sc, R sc (snd (ChatWindow.tryCatchFinally Backend m handler finalizer sc)).
Proof.
  intros Hm Hh Hf sc. unfold ChatWindow.tryCatchFinally.
  specialize (Hm sc). destruct (m sc) as [[e|a] sc1]; cbn [snd] in Hm.
  - specialize (Hh e sc1). destruct (handler e sc1) as [r sc2]; cbn [snd] in Hh.
    specialize (Hf sc2). destruct (finalizer sc2) as [[e'|x] sc3]; cbn [snd] in *;
      eauto.
  - specialize (Hf sc1). destruct (finalizer sc1) as [[e'|x] sc3]; cbn [snd] in *;
      eauto.
Qed.

Ltac steps :=
  repeat first
    [ apply done_steps | apply raise_steps | apply liftOutcome_steps
    | apply readProp_steps | apply template_steps
    | apply apiPost_steps | apply addMessage_steps
    | apply setIsLoading_steps | apply setInputText_steps
    | apply setConversationId_steps | apply setSelectedFile_steps
    | apply setShowFileUpload_steps | apply setCurrentPdfId_steps
    | apply setUploadedFileName_steps
    | apply andThen_steps; [intros ? | intros ? ?]
    | match goal with
      | |- R _ (snd ((if ?c then _ else _) _)) => destruct c
      | |- R _ (snd ((match ?t with
                      | ChatWindow.TextInput => _
                      | ChatWindow.VoiceInput => _
                      end) _)) => destruct t
      end
    | progress intros ].

Lemma tryBlock_steps seen trimmed inputType sc :
  R sc (snd (tryBlock seen trimmed inputType sc)).
Proof.
  unfold ChatWindow.tryBlock.
  unfold ChatWindow.uploadPDFToHackRX, ChatWindow.queryPDFFromHackRX,
    ChatWindow.sendMessage.
  destruct (ChatWindow.selectedFile seen) as [file|]; revert sc; steps.
Qed.

Lemma catchBlock_steps e sc : R sc (snd (catchBlock e sc)).
Proof. unfold ChatWindow.catchBlock. revert sc. steps. Qed.

Lemma finallyBlock_steps t sc : R sc (snd (finallyBlock t sc)).
Proof. unfold ChatWindow.finallyBlock. revert sc. steps. Qed.

Lemma processInput_steps seen input inputType sc :
  R sc (snd (processInput seen input inputType sc)).
Proof.
  unfold ChatWindow.processInput. cbv zeta.
  destruct (_ && _); [apply R_refl|].
  revert sc. steps. apply tryCatchFinally_steps; intros.
  - apply tryBlock_steps.
  - apply catchBlock_steps.
  - apply finallyBlock_steps.
Qed.

Lemma handleSend_steps sc : R sc (snd (handleSend sc)).
Proof.
  unfold ChatWindow.handleSend. cbv zeta.
  destruct (_ || _); [apply R_refl | apply processInput_steps].
Qed.

Lemma fire_steps e sc : R sc (snd (fire e sc)).
Proof.
  destruct e as [value|file| | |transcript]; cbn [ChatWindow.fire].
  - apply setInputText_steps.
  - apply setSelectedFile_steps.
  - destruct (ChatWindow.clearShown _); [|apply R_refl].
    unfold ChatWindow.clearPdf. revert sc. steps.
  - apply handleSend_steps.
  - apply setInputText_steps.
Qed.

Lemma play_steps events sc : R sc (play events sc).
Proof.
  revert sc. induction events as [|e rest IH]; intros sc; cbn [ChatWindow.play].
  - apply R_refl.
  - eapply R_trans; [apply fire_steps | apply IH].
Qed.

End Stepping.

(** ** Message identifiers *)

Lemma uint_digits (d : Decimal.uint) :
  Forall (fun c => c <> "-"%char)
         (list_ascii_of_string (NilEmpty.string_of_uint d)).
Proof. induction d; cbn; constructor; (discriminate || assumption). Qed.

Lemma numberToString_digits (n : Z) :
  0 <= n ->
  Forall (fun c => c <> "-"%char) (list_ascii_of_string (Js.numberToString n)).
Proof.
  intros Hn. unfold Js.numberToString. destruct n as [|p|p]; [| |lia].
  - cbn. constructor; [discriminate | constructor].
  - cbn [Z.to_int NilZero.string_of_int].
    destruct (Pos.to_uint p);
      try (match goal with
           | |- context [NilZero.string_of_uint ?x] => exact (uint_digits x)
           end).
    cbn. constructor; [discriminate | constructor].
Qed.

Lemma to_int_proper (n : Z) :
  Z.to_int n <> Decimal.Pos Decimal.Nil /\ Z.to_int n <> Decimal.Neg Decimal.Nil.
Proof.
  destruct n as [|p|p]; cbn; split; try discriminate;
    intros [= H]; exact (Unsigned.to_uint_nonnil p H).
Qed.

Lemma numberToString_inj (n m : Z) :
  Js.numberToString n = Js.numberToString m -> n = m.
Proof.
  unfold Js.numberToString. intros H.
  apply (f_equal NilZero.int_of_string) in H.
  destruct (to_int_proper n) as [Hn1 Hn2]. destruct (to_int_proper m) as [Hm1 Hm2].
  rewrite !NilZero.isi in H by assumption.
  injection H as H. apply DecimalZ.to_int_inj. exact H.
Qed.

(** What follows the last dash of a string. *)
Lemma after_last_dash (a b x y : string) :
  Forall (fun c => c <> "-"%char) (list_ascii_of_string x) ->
  Forall (fun c => c <> "-"%char) (list_ascii_of_string y) ->
  a ++ "-" ++ x = b ++ "-" ++ y -> x = y.
Proof.
  intros Hx Hy. revert b. induction a as [|c a IH]; intros [|c' b] H.
  - injection H as H. exact H.
  - change (EmptyString ++ "-" ++ x) with (String "-" x) in H.
    change (String c' b ++ "-" ++ y) with (String c' (b ++ "-" ++ y)) in H.
    injection H as _ H. subst x. exfalso.
    clear -Hx. induction b as [|z b IHb].
    + inversion Hx as [|? ? Hne _]. apply Hne. reflexivity.
    + change (String z b ++ "-" ++ y) with (String z (b ++ "-" ++ y)) in Hx.
      inversion Hx. auto.
  - change (EmptyString ++ "-" ++ y) with (String "-" y) in H.
    change (String c a ++ "-" ++ x) with (String c (a ++ "-" ++ x)) in H.
    injection H as _ H. subst y. exfalso.
    clear -Hy. induction a as [|z a IHa].
    + inversion Hy as [|? ? Hne _]. apply Hne. reflexivity.
    + change (String z a ++ "-" ++ x) with (String z (a ++ "-" ++ x)) in Hy.
      inversion Hy. auto.
  - change (String c a ++ "-" ++ x) with (String c (a ++ "-" ++ x)) in H.
    change (String c' b ++ "-" ++ y) with (String c' (b ++ "-" ++ y)) in H.
    injection H as _ H. exact (IH b H).
Qed.

Lemma idOf_inj : Injective (fun i : nat => idOf (Z.of_nat i)).
Proof.
  intros i j H. unfold ChatWindow.idOf in H.
  apply after_last_dash in H; try (apply numberToString_digits; lia).
  apply numberToString_inj in H. lia.
Qed.

Lemma numbered_touch u u' : Touch u u' -> numbered u -> numbered u'.
Proof.
  intros Ht [Hc Hids]. destruct Ht as [content sender type|t l c f w p n].
  - unfold ChatWindow.numbered.
    cbn [ChatWindow.messages ChatWindow.messageIdCounter].
    rewrite length_app. cbn [length]. split; [lia|].
    rewrite Nat.add_1_r. unfold ChatWindow.upTo in *.
    rewrite seq_S, !map_app, Hids. cbn [map ChatWindow.newMessage ChatWindow.msg_id].
    unfold ChatWindow.idOf. rewrite Hc.
    replace (Z.of_nat (1 + length (ChatWindow.messages u)))
      with (Z.of_nat (length (ChatWindow.messages u)) + 1) by lia.
    reflexivity.
  - exact (conj Hc Hids).
Qed.

Lemma numbered_distinct u :
  numbered u -> List.NoDup (map ChatWindow.msg_id (ChatWindow.messages u)).
Proof.
  intros [_ Hids]. rewrite Hids. unfold ChatWindow.upTo. rewrite map_map.
  apply Injective_map_NoDup; [exact idOf_inj | apply seq_NoDup].
Qed.

(** X24: the identifiers of the messages are pairwise distinct, whatever
    the user does and whatever the backend and the clock answer, also
    when the clock stands still: each message gets its identifier from its
    own value of the counter. *)
Theorem message_ids_are_distinct (events : list ChatWindow.Event) (b : Backend) :
  List.NoDup
    (map ChatWindow.msg_id
         (ChatWindow.messages
            (ui (play events (mkScreen ChatWindow.initialUi b []))))).
Proof.
  apply numbered_distinct.
  apply (play_steps (fun a c => numbered (ui a) -> numbered (ui c))).
  - auto.
  - auto.
  - intros sc u' Ht. apply numbered_touch. exact Ht.
  - auto.
  - split; reflexivity.
Qed.

(** X25: the conversation is append-only.  Whatever the user does and
    whatever the backend answers, the messages shown before are still
    there, unchanged and in the same order, followed by the new ones; the
    counter has moved by the number of new messages; and the requests sent
    before are followed by the new ones. *)
Theorem conversation_is_append_only (events : list ChatWindow.Event) (sc : Screen) :
  exists added more,
    ChatWindow.messages (ui (play events sc))
    = (ChatWindow.messages (ui sc) ++ added)%list
    /\ ChatWindow.messageIdCounter (ui (play events sc))
       = ChatWindow.messageIdCounter (ui sc) + Z.of_nat (length added)
    /\ sent (play events sc) = (sent sc ++ more)%list.
Proof.
  apply (play_steps (fun a c =>
    exists added more,
      ChatWindow.messages (ui c) = (ChatWindow.messages (ui a) ++ added)%list
      /\ ChatWindow.messageIdCounter (ui c)
         = ChatWindow.messageIdCounter (ui a) + Z.of_nat (length added)
      /\ sent c = (sent a ++ more)%list)).
  - intros a. exists [], []. rewrite !app_nil_r. cbn. split; [reflexivity|].
    split; [lia | reflexivity].
  - intros a c e (l1 & m1 & H1 & H2 & H3) (l2 & m2 & H4 & H5 & H6).
    exists (l1 ++ l2)%list, (m1 ++ m2)%list.
    rewrite H4, H1, H5, H2, H6, H3, !app_assoc, length_app.
    split; [reflexivity|]. split; [lia | reflexivity].
  - intros a u' Ht. destruct Ht as [content sender type|t l c f w p n].
    + eexists [_], []. cbn. rewrite app_nil_r. split; [reflexivity|].
      split; reflexivity.
    + exists [], []. cbn. rewrite !app_nil_r. split; [reflexivity|].
      split; [lia | reflexivity].
  - intros a call. exists [], [(call, fst (post call (backend a)))]. cbn.
    rewrite app_nil_r. split; [reflexivity|]. split; [lia | reflexivity].
Qed.

(** ** One input *)

Lemma finallyBlock_runs t sc :
  finallyBlock t sc
  = (inr tt,
     mkScreen
       (ChatWindow.mkUi
          (ChatWindow.messages (ui sc))
          (match t with
           | ChatWindow.TextInput => EmptyString
           | ChatWindow.VoiceInput => ChatWindow.inputText (ui sc)
           end)
          false (ChatWindow.conversationId (ui sc)) None false
          (ChatWindow.currentPdfId (ui sc)) (ChatWindow.uploadedFileName (ui sc))
          (ChatWindow.messageIdCounter (ui sc)))
       (backend sc) (sent sc)).
Proof. destruct sc as [[m0 t0 l0 c0 f0 w0 p0 n0 k0] b0 s0], t; reflexivity. Qed.

Lemma tryCatchFinally_releases {A} (m : Act A) handler t sc :
  let sc' := snd (ChatWindow.tryCatchFinally Backend m handler (finallyBlock t) sc) in
  ChatWindow.isLoading (ui sc') = false
  /\ ChatWindow.selectedFile (ui sc') = None
  /\ ChatWindow.showFileUpload (ui sc') = false
  /\ (t = ChatWindow.TextInput -> ChatWindow.inputText (ui sc') = EmptyString).
Proof.
  unfold ChatWindow.tryCatchFinally.
  destruct (m sc) as [[e|a] sc1]; [destruct (handler e sc1) as [r sc2]|];
    rewrite finallyBlock_runs; cbn; (repeat split); intros ->; reflexivity.
Qed.

(** X26: [processInput] does nothing at all for a blank input without a
    file.  For any other input it leaves the window ready for the next
    one, however the requests end and even when the [catch] block itself
    throws: the loading flag is off, no file is selected, the file picker
    is closed, and a typed input has been cleared. *)
Theorem processInput_leaves_the_window_ready
    (seen : ChatWindow.UiState) (input : string)
    (inputType : ChatWindow.InputType) (sc : Screen) :
  let sc' := snd (processInput seen input inputType sc) in
  if JsString.isEmpty (JsString.trim input)
     && match ChatWindow.selectedFile seen with Some _ => false | None => true end
  then processInput seen input inputType sc = (inr tt, sc)
  else ChatWindow.isLoading (ui sc') = false
       /\ ChatWindow.selectedFile (ui sc') = None
       /\ ChatWindow.showFileUpload (ui sc') = false
       /\ (inputType = ChatWindow.TextInput
           -> ChatWindow.inputText (ui sc') = EmptyString).
Proof.
  unfold ChatWindow.processInput. cbv zeta.
  destruct (_ && _); [reflexivity|].
  unfold ChatWindow.andThen, ChatWindow.addMessage, ChatWindow.setIsLoading,
    ChatWindow.update.
  apply tryCatchFinally_releases.
Qed.

Lemma catchBlock_sends_nothing e sc :
  sent (snd (catchBlock e sc)) = sent sc
  /\ backend (snd (catchBlock e sc)) = backend sc.
Proof.
  unfold ChatWindow.catchBlock, ChatWindow.andThen, ChatWindow.liftOutcome.
  destruct (Ui.errorMessageFor e); split; reflexivity.
Qed.

Lemma tryCatchFinally_sent (m : Act unit) t sc :
  sent (snd (ChatWindow.tryCatchFinally Backend m catchBlock (finallyBlock t) sc))
  = sent (snd (m sc)).
Proof.
  unfold ChatWindow.tryCatchFinally.
  destruct (m sc) as [[e|a] sc1]; cbn [snd].
  - pose proof (catchBlock_sends_nothing e sc1) as [Hs _].
    destruct (catchBlock e sc1) as [r sc2]. cbn [snd] in Hs.
    rewrite finallyBlock_runs. cbn. exact Hs.
  - rewrite finallyBlock_runs. reflexivity.
Qed.

(** X27: the requests of one input.  With a file selected the input
    uploads the file and then, if the upload answer is not an error,
    [null] or [undefined], if the [pdf_id] read off that answer can be
    printed and if there is a question, asks the question under that
    [pdf_id], whatever it is; a [pdf_id] that cannot be printed stops the
    input at the log line that prints it.  Without a file a question goes
    to the document held in [currentPdfId] if that is truthy, provided it
    can be printed, and to the chat if it is falsy, where a falsy
    conversation id is sent as [undefined].  Nothing else is sent: at most
    two requests, none from the [catch] block. *)
Theorem processInput_requests
    (seen : ChatWindow.UiState) (input : string)
    (inputType : ChatWindow.InputType) (sc : Screen) :
  let trimmed := JsString.trim input in
  sent (snd (processInput seen input inputType sc))
  = (sent sc
     ++ match ChatWindow.selectedFile seen with
        | Some file =>
            let upload := ChatWindow.Hackrx (Client.CallUpload file) in
            let r := post upload (backend sc) in
            (upload, fst r)
            :: match fst r with
               | inr data =>
                   match Js.getProp data "pdf_id" with
                   | Some pdf_id =>
                       if negb (Js.printable pdf_id) then []
                       else if JsString.isEmpty trimmed then []
                       else
                         let query :=
                           ChatWindow.Hackrx (Client.CallQuery pdf_id trimmed) in
                         [(query, fst (post query (snd r)))]
                   | None => []
                   end
               | inl _ => []
               end
        | None =>
            if JsString.isEmpty trimmed then []
            else if Js.truthy (ChatWindow.currentPdfId seen)
                    && negb (Js.printable (ChatWindow.currentPdfId seen))
            then []
            else
              let call :=
                if Js.truthy (ChatWindow.currentPdfId seen)
                then ChatWindow.Hackrx
                       (Client.CallQuery (ChatWindow.currentPdfId seen) trimmed)
                else ChatWindow.SendMessage trimmed
                       (if Js.truthy (ChatWindow.conversationId seen)
                        then ChatWindow.conversationId seen else JUndefined) in
              [(call, fst (post call (backend sc)))]
        end)%list.
Proof.
  destruct sc as [[m0 t0 l0 c0 f0 w0 p0 n0 k0] b0 s0].
  cbv zeta. unfold ChatWindow.processInput. cbv zeta.
  cbn [ChatWindow.ui ChatWindow.backend ChatWindow.sent].
  destruct (ChatWindow.selectedFile seen) as [file|] eqn:Hfile.
  - rewrite andb_false_r.
    unfold ChatWindow.andThen at 1 2.
    unfold ChatWindow.addMessage at 1, ChatWindow.setIsLoading,
      ChatWindow.update.
    cbn [fst snd ChatWindow.ui ChatWindow.backend ChatWindow.sent].
    rewrite tryCatchFinally_sent.
    unfold ChatWindow.tryBlock. rewrite Hfile.
    unfold ChatWindow.uploadPDFToHackRX, ChatWindow.queryPDFFromHackRX,
      ChatWindow.andThen, ChatWindow.addMessage, ChatWindow.setCurrentPdfId,
      ChatWindow.setUploadedFileName, ChatWindow.update, ChatWindow.apiPost,
      ChatWindow.readProp, ChatWindow.template, ChatWindow.done,
      ChatWindow.raise.
    cbn [ChatWindow.ui ChatWindow.backend ChatWindow.sent fst snd].
    destruct (post (ChatWindow.Hackrx (Client.CallUpload file)) b0)
      as [[e|data] b1]; cbn [fst snd ChatWindow.sent]; [reflexivity|].
    destruct (Js.getProp data "pdf_id") as [pdf_id|];
      cbn [ChatWindow.ui ChatWindow.backend ChatWindow.sent fst snd];
      [|reflexivity].
    destruct (Js.printable pdf_id);
      cbn [negb ChatWindow.ui ChatWindow.backend ChatWindow.sent fst snd];
      [|reflexivity].
    destruct (JsString.isEmpty (JsString.trim input));
      cbn [negb ChatWindow.ui ChatWindow.backend ChatWindow.sent fst snd];
      [reflexivity|].
    destruct (post _ b1) as [[e|queryResult] b2]; cbn [fst snd ChatWindow.sent];
      [rewrite <- app_assoc; reflexivity|].
    destruct (Js.getProp queryResult "answer") as [outer|]; cbn [fst snd ChatWindow.sent];
      [|rewrite <- app_assoc; reflexivity].
    destruct (Js.getProp outer "answer") as [inner|]; cbn [fst snd ChatWindow.sent];
      rewrite <- app_assoc; reflexivity.
  - rewrite andb_true_r.
    destruct (JsString.isEmpty (JsString.trim input)) eqn:Hblank.
    { cbn. rewrite app_nil_r. reflexivity. }
    unfold ChatWindow.andThen at 1 2.
    unfold ChatWindow.addMessage at 1, ChatWindow.setIsLoading,
      ChatWindow.update.
    cbn [fst snd ChatWindow.ui ChatWindow.backend ChatWindow.sent].
    rewrite tryCatchFinally_sent.
    unfold ChatWindow.tryBlock. rewrite Hfile, Hblank. cbn [negb andb].
    unfold ChatWindow.queryPDFFromHackRX, ChatWindow.sendMessage,
      ChatWindow.andThen, ChatWindow.addMessage, ChatWindow.setConversationId,
      ChatWindow.update, ChatWindow.apiPost,
      ChatWindow.readProp, ChatWindow.template, ChatWindow.liftOutcome,
      ChatWindow.done, ChatWindow.raise.
    cbn [ChatWindow.ui ChatWindow.backend ChatWindow.sent fst snd].
    destruct (Js.truthy (ChatWindow.currentPdfId seen));
      cbn [andb ChatWindow.ui ChatWindow.backend ChatWindow.sent fst snd].
    + destruct (Js.printable (ChatWindow.currentPdfId seen));
        cbn [negb ChatWindow.ui ChatWindow.backend ChatWindow.sent fst snd];
        [|rewrite app_nil_r; reflexivity].
      destruct (post _ b0) as [[e|queryResult] b1]; cbn [fst snd ChatWindow.sent];
        [reflexivity|].
      destruct (Js.getProp queryResult "answer") as [outer|]; cbn [fst snd ChatWindow.sent];
        [|reflexivity].
      destruct (Js.getProp outer "answer") as [inner|]; reflexivity.
    + destruct (post _ b0) as [[e|response] b1]; cbn [fst snd ChatWindow.sent];
        [reflexivity|].
      destruct (Js.getProp response "success") as [success|]; cbn [fst snd ChatWindow.sent];
        [|reflexivity].
      destruct (Js.truthy success);
        cbn [ChatWindow.ui ChatWindow.backend ChatWindow.sent fst snd];
        [|reflexivity].
      destruct (Js.getProp response "response") as [reply|]; cbn [fst snd ChatWindow.sent];
        [|reflexivity].
      destruct (Ui.extractMessageContent reply); cbn [fst snd ChatWindow.sent]; [|reflexivity].
      destruct (Js.getProp response "conversation_id") as [cid|]; cbn [fst snd ChatWindow.sent];
        [|reflexivity].
      destruct (_ && _);
        cbn [ChatWindow.ui ChatWindow.backend ChatWindow.sent fst snd];
        reflexivity.
Qed.

(** The run of an input that carries a file and a question, when the
    upload is fulfilled with a body that has properties. *)
Lemma processInput_file_then_question
    seen input inputType sc file uploadResult b1 pdf_id r b2 :
  ChatWindow.selectedFile seen = Some file ->
  JsString.isEmpty (JsString.trim input) = false ->
  post (ChatWindow.Hackrx (Client.CallUpload file)) (backend sc)
  = (inr uploadResult, b1) ->
  Js.getProp uploadResult "pdf_id" = Some pdf_id ->
  Js.printable pdf_id = true ->
  post (ChatWindow.Hackrx (Client.CallQuery pdf_id (JsString.trim input))) b1
  = (r, b2) ->
  let answer :=
    match r with
    | inr queryResult =>
        match Js.getProp queryResult "answer" with
        | Some outer =>
            match Js.getProp outer "answer" with
            | Some inner => inr inner
            | None =>
                inl (ChatWindow.plainError (Js.typeErrorRead outer "answer"))
            end
        | None =>
            inl (ChatWindow.plainError (Js.typeErrorRead queryResult "answer"))
        end
    | inl e => inl e
    end in
  let last :=
    match answer with
    | inr inner => [(inner, ChatWindow.ByAssistant)]
    | inl e =>
        match Ui.errorMessageFor e with
        | Return text => [(JStr text, ChatWindow.ByAssistant)]
        | Throw _ => []
        end
    end in
  let sc' := snd (processInput seen input inputType sc) in
  (exists added,
      ChatWindow.messages (ui sc') = (ChatWindow.messages (ui sc) ++ added)%list
      /\ map ChatWindow.shown added
         = ((JStr (JsString.trim input), ChatWindow.ByUser)
            :: (JStr ChatWindow.uploadingNotice, ChatWindow.ByAssistant)
            :: (JStr (ChatWindow.uploadedNotice (Client.name file)),
                ChatWindow.ByAssistant)
            :: last))
  /\ ChatWindow.currentPdfId (ui sc') = pdf_id
  /\ ChatWindow.uploadedFileName (ui sc') = Some (Client.name file)
  /\ backend sc' = b2.
Proof.
  destruct sc as [[m0 t0 l0 c0 f0 w0 p0 n0 k0] b0 s0].
  cbn [ChatWindow.ui ChatWindow.backend ChatWindow.sent ChatWindow.messages].
  intros Hfile Hblank Hup Hid Hprint Hq. cbv zeta.
  unfold ChatWindow.processInput. cbv zeta.
  rewrite Hfile, Hblank. cbn [andb negb].
  unfold ChatWindow.andThen at 1 2.
  unfold ChatWindow.addMessage at 1, ChatWindow.setIsLoading, ChatWindow.update.
  cbn [fst snd ChatWindow.ui ChatWindow.backend ChatWindow.sent].
  unfold ChatWindow.tryCatchFinally, ChatWindow.tryBlock. rewrite Hfile, Hblank.
  unfold ChatWindow.uploadPDFToHackRX, ChatWindow.queryPDFFromHackRX,
    ChatWindow.andThen, ChatWindow.addMessage, ChatWindow.setCurrentPdfId,
    ChatWindow.setUploadedFileName, ChatWindow.update, ChatWindow.apiPost,
    ChatWindow.readProp, ChatWindow.template, ChatWindow.done, ChatWindow.raise.
  cbn [fst snd ChatWindow.ui ChatWindow.backend ChatWindow.sent negb].
  rewrite Hup. cbn [fst snd ChatWindow.ui ChatWindow.backend ChatWindow.sent].
  rewrite Hid. cbn [fst snd ChatWindow.ui ChatWindow.backend ChatWindow.sent].
  rewrite Hprint. cbn [fst snd ChatWindow.ui ChatWindow.backend ChatWindow.sent].
  rewrite Hq.
  destruct r as [e|queryResult];
    [|destruct (Js.getProp queryResult "answer") as [outer|];
      [destruct (Js.getProp outer "answer") as [inner|]|]];
    cbn [fst snd ChatWindow.ui ChatWindow.backend ChatWindow.sent];
    unfold ChatWindow.catchBlock, ChatWindow.andThen, ChatWindow.liftOutcome,
      ChatWindow.addMessage, ChatWindow.update, ChatWindow.done, ChatWindow.raise;
    try (destruct (Ui.errorMessageFor _));
    cbn [fst snd ChatWindow.ui ChatWindow.backend ChatWindow.sent];
    rewrite finallyBlock_runs;
    cbn [fst snd ChatWindow.ui ChatWindow.backend ChatWindow.sent
         ChatWindow.messages ChatWindow.currentPdfId ChatWindow.uploadedFileName];
    (split; [|split; [reflexivity | split; reflexivity]]);
    rewrite <- ?app_assoc; eexists; (split; [reflexivity|]); reflexivity.
Qed.

(** The run of a typed message when no document is held and the chat
    route answers with a reply that can be shown. *)
Lemma processInput_chat
    seen input inputType sc response b1 success reply text cid :
  ChatWindow.selectedFile seen = None ->
  JsString.isEmpty (JsString.trim input) = false ->
  Js.truthy (ChatWindow.currentPdfId seen) = false ->
  post (ChatWindow.SendMessage (JsString.trim input)
          (if Js.truthy (ChatWindow.conversationId seen)
           then ChatWindow.conversationId seen else JUndefined))
       (backend sc)
  = (inr response, b1) ->
  Js.getProp response "success" = Some success ->
  Js.truthy success = true ->
  Js.getProp response "response" = Some reply ->
  Ui.extractMessageContent reply = Return text ->
  Js.getProp response "conversation_id" = Some cid ->
  let sc' := snd (processInput seen input inputType sc) in
  (exists added,
      ChatWindow.messages (ui sc') = (ChatWindow.messages (ui sc) ++ added)%list
      /\ map ChatWindow.shown added
         = [(JStr (JsString.trim input), ChatWindow.ByUser);
            (JStr text, ChatWindow.ByAssistant)])
  /\ ChatWindow.conversationId (ui sc')
     = (if Js.truthy cid && negb (Js.truthy (ChatWindow.conversationId seen))
        then cid else ChatWindow.conversationId (ui sc))
  /\ backend sc' = b1.
Proof.
  destruct sc as [[m0 t0 l0 c0 f0 w0 p0 n0 k0] b0 s0].
  cbn [ChatWindow.ui ChatWindow.backend ChatWindow.sent ChatWindow.messages
       ChatWindow.conversationId].
  intros Hfile Hblank Hpdf Hpost Hsuccess Htruthy Hreply Htext Hcid. cbv zeta.
  unfold ChatWindow.processInput. cbv zeta.
  rewrite Hfile, Hblank. cbn [andb negb].
  unfold ChatWindow.andThen at 1 2.
  unfold ChatWindow.addMessage at 1, ChatWindow.setIsLoading, ChatWindow.update.
  cbn [fst snd ChatWindow.ui ChatWindow.backend ChatWindow.sent].
  unfold ChatWindow.tryCatchFinally, ChatWindow.tryBlock.
  rewrite Hfile, Hblank, Hpdf. cbn [andb negb].
  unfold ChatWindow.sendMessage, ChatWindow.andThen, ChatWindow.apiPost,
    ChatWindow.readProp, ChatWindow.liftOutcome, ChatWindow.addMessage,
    ChatWindow.setConversationId, ChatWindow.update, ChatWindow.done.
  cbn [fst snd ChatWindow.ui ChatWindow.backend ChatWindow.sent].
  rewrite Hpost. cbn [fst snd ChatWindow.ui ChatWindow.backend ChatWindow.sent].
  rewrite Hsuccess. cbn [fst snd ChatWindow.ui ChatWindow.backend ChatWindow.sent].
  rewrite Htruthy. cbn [fst snd ChatWindow.ui ChatWindow.backend ChatWindow.sent].
  rewrite Hreply. cbn [fst snd ChatWindow.ui ChatWindow.backend ChatWindow.sent].
  rewrite Htext. cbn [fst snd ChatWindow.ui ChatWindow.backend ChatWindow.sent].
  rewrite Hcid. cbn [fst snd ChatWindow.ui ChatWindow.backend ChatWindow.sent].
  destruct (Js.truthy cid && negb (Js.truthy (ChatWindow.conversationId seen)));
    cbn [fst snd ChatWindow.ui ChatWindow.backend ChatWindow.sent];
    rewrite finallyBlock_runs;
    cbn [fst snd ChatWindow.ui ChatWindow.backend ChatWindow.sent
         ChatWindow.messages ChatWindow.conversationId];
    (split; [|split; reflexivity]);
    rewrite <- ?app_assoc; eexists; (split; [reflexivity|]); reflexivity.
Qed.

End WindowFacts.

(** * The window in front of the server *)

Lemma extractAnswer_defined (data a : JsValue) :
  extractAnswer data = Return a -> a <> JUndefined.
Proof.
  intros Ha.
  destruct (Js.getProp data "answer") as [answer|] eqn:Hget.
  2:{ unfold extractAnswer in Ha. rewrite Hget in Ha. discriminate. }
  rewrite (extractAnswer_cases _ _ Hget) in Ha.
  destruct (Js.truthy answer) eqn:Hanswer; cbn [andb] in Ha.
  - destruct (Js.truthy (Js.getPropOpt answer "answer")) eqn:Hnested;
      injection Ha as <-; intros H; rewrite H in *; discriminate.
  - destruct (Js.truthy (Js.getPropOpt data "response")) eqn:Hresp;
      injection Ha as <-; [intros H; rewrite H in *; discriminate|].
    destruct (serialized_truthy_or_empty data) as [Ht | ->].
    + intros ->. discriminate.
    + intros H. rewrite H in Ht. discriminate.
    + discriminate.
Qed.

Section StackFacts.

Variable d : Stack.Deployment.

Lemma upload_body_through (id : JsValue) (m : string) :
  Js.truthy id = true ->
  Stack.throughJson (JObj [("pdf_id", id); ("message", JStr m)])
  = JObj [("pdf_id", Stack.throughJson id); ("message", JStr m)].
Proof. destruct id; intros H; try discriminate H; reflexivity. Qed.

Lemma answer_body_through (a : JsValue) :
  a <> JUndefined ->
  Stack.throughJson (JObj [("answer", JObj [("answer", a)])])
  = JObj [("answer", JObj [("answer", Stack.throughJson a)])].
Proof. destruct a; intros H; try congruence; reflexivity. Qed.

(** What can be printed can still be printed once it has crossed the
    wire. *)
Lemma throughJson_printable :
  forall v, Js.printable v = true -> Js.printable (Stack.throughJson v) = true.
Proof.
  fix IH 1. intros v.
  destruct v as [| |b|n|t|items|props]; try (intros _; reflexivity).
  - cbn [Stack.throughJson Js.printable].
    induction items as [|x items IHitems]; [reflexivity|].
    cbn [forallb map]. intros H. apply andb_true_iff in H. destruct H as [Hx Hr].
    apply andb_true_iff. split; [|apply IHitems; exact Hr].
    pose proof (IH x Hx) as Hthrough.
    destruct x; try reflexivity; exact Hthrough.
  - cbn [Stack.throughJson Js.printable]. intros H.
    apply negb_true_iff in H. apply negb_true_iff.
    induction props as [|[k x] props IHprops]; [reflexivity|].
    cbn [existsb fst] in H. apply orb_false_iff in H. destruct H as [Hk Hr].
    destruct x; try exact (IHprops Hr);
      cbn [existsb fst]; rewrite Hk; exact (IHprops Hr).
Qed.

(** An upload that is indexed, as the [n]-th request of the server. *)
Lemma stack_upload_indexed (n : nat) (s : Server) (file : Client.File)
    (data id : JsValue) :
  let part := Stack.partOf (Stack.suffixAt d n) file in
  fileFilter part = true ->
  size part < fileSizeLimit ->
  notPdf part = false ->
  mlApi (Stack.envAt d n) (PostUpload (path part) (originalname part))
  = Fulfilled data ->
  Js.getProp data "pdf_id" = Some id ->
  Js.truthy id = true ->
  Js.printable id = true ->
  exists s1,
    Stack.post d (ChatWindow.Hackrx (Client.CallUpload file)) (n, s)
    = (inr (JObj [("pdf_id", Stack.throughJson id);
                  ("message", JStr uploadedMessage)]),
       (S n, s1))
    /\ pdfCache s1
       = JsMap.set (pdfCache s) id
           (mkCacheEntry (fileInfoOf part) (clock (Stack.envAt d n)) data
                         (originalname part))
    /\ network s1
       = (network s
          ++ [(PostUpload (path part) (originalname part), Fulfilled data)])%list.
Proof.
  intros part Hfilter Hsize Hpdf Hml Hid Htruthy Hprint.
  unfold Stack.post, Stack.handle. cbn [fst snd]. fold part.
  unfold post_hackrx_upload. rewrite Hfilter. cbn [negb].
  apply Z.leb_gt in Hsize. rewrite Hsize.
  unfold bind, Fs.store.
  set (s0 := mkServer (pdfCache s) ({[path part]} ∪ uploads s) (network s)
                      (warnings s)).
  assert (Hpath : JsString.isEmpty (path part) = false) by reflexivity.
  destruct (hackrx_upload_success (Stack.envAt d n) part s0 data id
              Hpdf Hpath Hml Hid Htruthy Hprint) as [Hfst Hcache].
  pose proof (hackrx_upload_calls_once (Stack.envAt d n) part s0 Hpdf Hpath)
    as Hnet.
  destruct (hackrx_upload (Stack.envAt d n) (Some part) s0) as [o s1].
  cbn [fst snd] in *. subst o. exists s1.
  cbn [status body]. rewrite (upload_body_through _ _ Htruthy).
  split; [reflexivity|]. split; [exact Hcache|].
  rewrite Hnet, Hml. reflexivity.
Qed.

(** A question about a document that the server holds. *)
Lemma stack_query_answered (n : nat) (s : Server) (pdf_id : JsValue)
    (q : string) (data a : JsValue) :
  JsString.isEmpty (Js.toString pdf_id) = false ->
  JsString.isEmpty (JsString.trim q) = false ->
  JsMap.has (pdfCache s) (Stack.formField pdf_id) = true ->
  mlApi (Stack.envAt d n) (PostQuery (Stack.formField pdf_id) (JsString.trim q))
  = Fulfilled data ->
  extractAnswer data = Return a ->
  Stack.post d (ChatWindow.Hackrx (Client.CallQuery pdf_id q)) (n, s)
  = (inr (JObj [("answer", JObj [("answer", Stack.throughJson a)])]),
     (S n,
      logCall (PostQuery (Stack.formField pdf_id) (JsString.trim q))
              (Fulfilled data) s)).
Proof.
  intros Hid Hq Hhas Hml Ha.
  unfold Stack.post, Stack.handle. cbn [fst snd].
  rewrite hackrx_query_paths.
  cbn [body_pdf_id body_question Stack.formField Js.truthy Js.toString].
  unfold Stack.formField in *. rewrite Hid, Hq, Hhas. cbn [negb].
  rewrite Hml, Ha. cbn [status body].
  rewrite (answer_body_through _ (extractAnswer_defined _ _ Ha)). reflexivity.
Qed.

(** A question under an identifier that the server does not hold. *)
Lemma stack_query_unknown (n : nat) (s : Server) (pdf_id : JsValue) (q : string) :
  JsString.isEmpty (JsString.trim q) = false ->
  JsMap.has (pdfCache s) (Stack.formField pdf_id) = false ->
  exists e,
    Stack.post d (ChatWindow.Hackrx (Client.CallQuery pdf_id q)) (n, s)
    = (inl e, (S n, s))
    /\ (Ui.errorMessageFor e
        = Return "The requested endpoint was not found. Please check your server configuration."
        \/ Ui.errorMessageFor e = Return "Invalid request: pdf_id is required").
Proof.
  intros Hq Hhas.
  unfold Stack.post, Stack.handle. cbn [fst snd].
  rewrite hackrx_query_paths.
  cbn [body_pdf_id body_question Stack.formField Js.truthy Js.toString].
  unfold Stack.formField in *.
  destruct (JsString.isEmpty (Js.toString pdf_id)); cbn [negb].
  - eexists. split; [reflexivity|]. right. reflexivity.
  - rewrite Hq, Hhas. cbn [negb]. eexists. split; [reflexivity|]. left.
    reflexivity.
Qed.

(** The answer of the chat route as the client receives it. *)
Lemma chat_body_through (cenv : Chat.ChatEnv) (m : string) (c : JsValue) :
  JsString.isEmpty m = false ->
  let response :=
    Stack.throughJson (body (Chat.chat cenv (Chat.mkChatBody (JStr m) c))) in
  Js.getProp response "success" = Some (JBool true)
  /\ Js.getProp response "response"
     = Some (JStr (Chat.responses (JStr m) (Chat.pick cenv)))
  /\ exists cid,
       Js.getProp response "conversation_id" = Some cid
       /\ (Js.truthy c = false -> cid = JStr (Chat.generateConversationId cenv)).
Proof.
  intros Hm. unfold Chat.chat. cbn [Chat.message Chat.conversation_id Js.truthy].
  rewrite Hm. cbn [negb body]. split; [reflexivity|]. split; [reflexivity|].
  destruct (Js.truthy c).
  - eexists. split; [reflexivity|]. discriminate.
  - eexists. split; [reflexivity|]. reflexivity.
Qed.

End StackFacts.

Section ThroughTheWindow.

Variable d : Stack.Deployment.
Variable ticks : ChatWindow.Clock.

Local Abbreviation Screen := (ChatWindow.Screen (nat * Server)).
Local Abbreviation ui := (ChatWindow.ui (nat * Server)).
Local Abbreviation backend := (ChatWindow.backend (nat * Server)).
Local Abbreviation processInput :=
  (ChatWindow.processInput (nat * Server) (Stack.post d) ticks).




End ThroughTheWindow.



